(** * SimEngine: geometry kernel, avatars and render dispatch

    A shallow embedding of [simengine/geometry.py], [simengine/avatars.py]
    and the handler table of [simengine/pygame_renders.py], with the
    properties of the specification stated and settled over it.

    Python values are modelled as the program uses them: coordinates are
    [int | float] (unbounded integers and binary64 floats), tuples are lists,
    exceptions are an error type threaded through a small result monad,
    objects with attributes looked up by name are finite maps from attribute
    names to values. The one operation whose result the language leaves to
    the platform, [pow] of the C library behind [float ** float], is a
    parameter of the embedding. *)

From Stdlib Require Import ZArith List Bool Lia.
From Stdlib Require Import Floats.
From stdpp Require Import base gmap strings.

Import ListNotations.
Local Open Scope string_scope.
Local Open Scope Z_scope.

(** ** Exceptions and results *)

(** The exceptions this code can raise: Python's built-in ones and the two
    domain errors of [errors/]. *)
Inductive exn : Type :=
  | NameError (name : string)
  | AttributeError (attribute : string)
  | TypeError (message : string)
  | IndexError
  | ValueError
  | OverflowError
  | ZeroDivisionError
  | UnableToDivideVectorIntoPointsError (message : string)
  | AnimationAlreadyFinishedError
  | NotFoundError (type_name : string).

(** The outcome of an evaluation: the value returned (with the state of the
    objects it changed, where there is one) or the exception raised. What the
    objects hold when an exception leaves is not followed further. *)
Inductive result (A : Type) : Type :=
  | Ok (a : A)
  | Raise (e : exn).
Arguments Ok {A} a.
Arguments Raise {A} e.

Definition bind {A B : Type} (m : result A) (k : A -> result B) : result B :=
  match m with
  | Ok a => k a
  | Raise e => Raise e
  end.

Notation "x <- m ;; k" := (bind m (fun x => k))
  (at level 100, m at next level, right associativity).

(** Evaluate [f] on each element from left to right; the first exception
    ends the traversal, as in [tuple(f(x) for x in xs)]. *)
Fixpoint mapM {A B : Type} (f : A -> result B) (xs : list A) : result (list B) :=
  match xs with
  | [] => Ok []
  | x :: xs' => y <- f x ;; ys <- mapM f xs' ;; Ok (y :: ys)
  end.

(** [tuple(map(f, xs, ys))]: stops at the end of the shorter sequence. *)
Fixpoint map2M {A B C : Type} (f : A -> B -> result C)
    (xs : list A) (ys : list B) : result (list C) :=
  match xs, ys with
  | x :: xs', y :: ys' => z <- f x y ;; zs <- map2M f xs' ys' ;; Ok (z :: zs)
  | _, _ => Ok []
  end.

(** [xs[index]] on a tuple or list: a negative index counts from the end. *)
Definition getitem {A : Type} (xs : list A) (index : Z) : result A :=
  let position := if index <? 0 then index + Z.of_nat (List.length xs) else index in
  if position <? 0 then Raise IndexError
  else match nth_error xs (Z.to_nat position) with
       | Some x => Ok x
       | None => Raise IndexError
       end.

(** ** The C library *)

(** [x ** y] on floats is, once CPython has sorted out the special cases
    itself, a call of [pow] of the C library the interpreter is built with.
    IEEE 754 does not fix what [pow] returns and libraries differ in the last
    bit, so the library is a parameter: [pow2 x] is what [pow(x, 2.0)] returns
    together with the [errno] the call leaves, [0] when it sets none. *)
Class CLibrary : Type := { pow2 : float -> float * Z }.

Definition ERANGE : Z := 34.

(** ** Python numbers: [int | float] *)

Module PyNum.

Inductive t : Type :=
  | Int (z : Z)
  | Float (f : float).

(** [float(z)] for an [int]: the nearest binary64 value (ties to even),
    [OverflowError] when that is out of range. *)
Definition float_of_int (z : Z) : result float :=
  match binary_normalize prec emax z 0 false with
  | S754_infinity _ => Raise OverflowError
  | sf => Ok (SF2Prim sf)
  end.

Definition to_float (x : t) : result float :=
  match x with
  | Int z => float_of_int z
  | Float f => Ok f
  end.

(** [x + y] *)
Definition add (x y : t) : result t :=
  match x, y with
  | Int a, Int b => Ok (Int (a + b))
  | _, _ => a <- to_float x ;; b <- to_float y ;; Ok (Float (PrimFloat.add a b))
  end.

(** [x * y] *)
Definition mul (x y : t) : result t :=
  match x, y with
  | Int a, Int b => Ok (Int (a * b))
  | _, _ => a <- to_float x ;; b <- to_float y ;; Ok (Float (PrimFloat.mul a b))
  end.

(** [iv ** 2.0] on floats, as [float_pow] of CPython computes it: a [nan]
    is returned as it is, an infinity gives [inf], a zero gives [0.0] and
    [1.0] or [-1.0] gives [1.0]; any other operand goes, without its sign, to
    [pow] of the C library. Where the library sets no [errno], an infinite
    result counts as a range error; a range error with the result [0.0] is
    none. A range error is raised as [OverflowError], any other error as
    [ValueError]. *)
Definition float_pow2 {libm : CLibrary} (iv : float) : result float :=
  if PrimFloat.is_nan iv then Ok iv
  else if PrimFloat.is_infinity iv then Ok (PrimFloat.abs iv)
  else if PrimFloat.is_zero iv then Ok PrimFloat.zero
  else
    let iv := if PrimFloat.ltb iv PrimFloat.zero then PrimFloat.opp iv else iv in
    if PrimFloat.eqb iv PrimFloat.one then Ok PrimFloat.one
    else
      let '(ix, errno) := pow2 iv in
      let errno :=
        if errno =? 0 then (if PrimFloat.is_infinity ix then ERANGE else 0)
        else if (errno =? ERANGE) && PrimFloat.is_zero ix then 0
        else errno in
      if errno =? 0 then Ok ix
      else if errno =? ERANGE then Raise OverflowError
      else Raise ValueError.

(** [x ** 2]: exact on [int]. *)
Definition square {libm : CLibrary} (x : t) : result t :=
  match x with
  | Int a => Ok (Int (a * a))
  | Float f => r <- float_pow2 f ;; Ok (Float r)
  end.

(** [int / int]: the exact quotient rounded once to binary64. The quotient
    is cut to 66 significant bits or more and the remainder kept as a sticky
    last bit, which rounds as the exact quotient does; a zero quotient takes
    the sign of the operands. *)
Definition int_truediv (a b : Z) : result float :=
  if b =? 0 then Raise ZeroDivisionError
  else
    let s := Z.max 0 (66 + Z.log2 (Z.abs b) - Z.log2 (Z.abs a)) in
    let q := (Z.abs a * 2 ^ s) / Z.abs b in
    let r := (Z.abs a * 2 ^ s) mod Z.abs b in
    let m := 2 * q + (if r =? 0 then 0 else 1) in
    let negate := xorb (a <? 0) (b <? 0) in
    match binary_normalize prec emax (cond_Zopp negate m) (- s - 1) negate with
    | S754_infinity _ => Raise OverflowError
    | sf => Ok (SF2Prim sf)
    end.

(** [x / y] (true division) *)
Definition truediv (x y : t) : result t :=
  match x, y with
  | Int a, Int b => q <- int_truediv a b ;; Ok (Float q)
  | _, _ =>
      a <- to_float x ;;
      b <- to_float y ;;
      if PrimFloat.is_zero b then Raise ZeroDivisionError
      else Ok (Float (PrimFloat.div a b))
  end.

(** [math.sqrt(x)] *)
Definition sqrt (x : t) : result t :=
  a <- to_float x ;;
  if PrimFloat.ltb a PrimFloat.zero then Raise ValueError
  else Ok (Float (PrimFloat.sqrt a)).

(** [x == 0] *)
Definition eq_zero (x : t) : bool :=
  match x with
  | Int a => a =? 0
  | Float f => PrimFloat.is_zero f
  end.

(** [x <= 0] *)
Definition le_zero (x : t) : bool :=
  match x with
  | Int a => a <=? 0
  | Float f => PrimFloat.leb f PrimFloat.zero
  end.

(** The integral and fractional parts of a finite float [±m·2^e]. *)
Definition trunc_finite (s : bool) (m : positive) (e : Z) : Z * bool :=
  if 0 <=? e then (cond_Zopp s (Z.pos m * 2 ^ e), false)
  else (cond_Zopp s (Z.pos m / 2 ^ (- e)),
        negb (Z.pos m mod 2 ^ (- e) =? 0)).

(** [bool(math.modf(x)[0])]: whether [x] has a fractional part ([nan]
    is truthy, the fractional part of an infinity is [0.0]). *)
Definition has_fraction (x : t) : result bool :=
  f <- to_float x ;;
  match Prim2SF f with
  | S754_zero _ => Ok false
  | S754_infinity _ => Ok false
  | S754_nan => Ok true
  | S754_finite s m e => Ok (snd (trunc_finite s m e))
  end.

(** [int(x)] *)
Definition to_int (x : t) : result Z :=
  match x with
  | Int a => Ok a
  | Float f =>
      match Prim2SF f with
      | S754_zero _ => Ok 0
      | S754_infinity _ => Raise OverflowError
      | S754_nan => Raise ValueError
      | S754_finite s m e => Ok (fst (trunc_finite s m e))
      end
  end.

End PyNum.

Abbreviation pynum := PyNum.t.

(** A rounding strategy ([tools.NumberRounder]) is any callable on numbers. *)
Definition NumberRounder : Type := pynum -> result pynum.

(** ** Name resolution *)

(** A name used in a function body is bound when it is one of the function's
    local names or a module-level name; otherwise loading it raises
    [NameError] (no builtin is called [vector]). *)
Definition load_name (locals globals : list string) (name : string) : result unit :=
  if existsb (String.eqb name) (locals ++ globals) then Ok tt
  else Raise (NameError name).

(** The names [geometry.py] binds at module level: its imports and classes. *)
Definition geometry_globals : list string :=
  ["dataclass"; "Iterable"; "Callable"; "sqrt"; "modf"; "overload";
   "NumberRounder"; "ShiftNumberRounder"; "AccurateNumberRounder"; "Report";
   "Divider"; "UnableToDivideVectorIntoPointsError";
   "Vector"; "VirtualVector"; "VectorDivider"; "Line"].

(** ** Iterables *)

(** What a parameter annotated [Iterable[int]] can be given as: a collection
    (a list, tuple, set or range), which is searched anew by every membership
    test, or an iterator (a generator, [iter(...)], [map(...)]), which yields
    each of its items once. The items are taken to be finitely many. *)
Inductive iterable : Type :=
  | Collection (items : list Z)
  | Iterator (remaining : list Z).

(** [x in iterator]: the iterator is advanced until it has yielded an item
    equal to [x], or to its end. *)
Fixpoint advance_past (x : Z) (remaining : list Z) : bool * list Z :=
  match remaining with
  | [] => (false, [])
  | item :: remaining' =>
      if item =? x then (true, remaining') else advance_past x remaining'
  end.

(** [x in indexes], with the state in which the test leaves the iterable. *)
Definition contains (x : Z) (indexes : iterable) : bool * iterable :=
  match indexes with
  | Collection items => (existsb (Z.eqb x) items, indexes)
  | Iterator remaining =>
      let '(found, remaining') := advance_past x remaining in
      (found, Iterator remaining')
  end.

(** ** geometry.Vector *)

Module Vector.

Record t : Type := Vector { coordinates : list pynum }.

(** [sum(coordinate**2 for coordinate in coordinates)]: each square is added
    to the total in turn, from the left, the total starting at the given
    value ([0] for [sum]); this is the sum of CPython up to 3.11, later
    versions compensating the rounding of a sum of floats. *)
Fixpoint sum_of_squares {libm : CLibrary} (acc : pynum) (cs : list pynum)
    : result pynum :=
  match cs with
  | [] => Ok acc
  | c :: cs' =>
      s <- PyNum.square c ;;
      acc' <- PyNum.add acc s ;;
      sum_of_squares acc' cs'
  end.

Definition length {libm : CLibrary} (self : t) : result pynum :=
  s <- sum_of_squares (PyNum.Int 0) (coordinates self) ;;
  PyNum.sqrt s.

Definition __len__ (self : t) : Z := Z.of_nat (List.length (coordinates self)).

Definition get_normalized_to_measurements
    (self : t) (number_of_measurements : Z)
    (default_measurement_point : pynum) : t :=
  let measurement_difference := number_of_measurements - __len__ self in
  Vector
    (if 0 <? measurement_difference
     then coordinates self
            ++ repeat default_measurement_point (Z.to_nat measurement_difference)
     else firstn
            (Z.to_nat (if 0 <=? number_of_measurements
                       then number_of_measurements else 0))
            (coordinates self)).

Definition __add__ (self other : t) : result t :=
  let maximum_number_of_measurements := Z.max (__len__ self) (__len__ other) in
  cs <- map2M (fun first second => PyNum.add first second)
          (coordinates (get_normalized_to_measurements
                          self maximum_number_of_measurements (PyNum.Int 0)))
          (coordinates (get_normalized_to_measurements
                          other maximum_number_of_measurements (PyNum.Int 0))) ;;
  Ok (Vector cs).

(** [range(n)] *)
Definition range (n : nat) : list Z := map Z.of_nat (seq 0 n).

(** [enumerate(xs)] *)
Definition enumerate {A : Type} (xs : list A) : list (Z * A) :=
  combine (range (List.length xs)) xs.

(** The generator expression of [get_reflected_by_coordinates]: the
    coordinates are taken in turn, and each membership test finds the
    selection in the state the test before it left. *)
Fixpoint reflect_each (coordinate_indexes : iterable) (items : list (Z * pynum))
    : result (list pynum) :=
  match items with
  | [] => Ok []
  | (coordinate_index, coordinate) :: items' =>
      let '(selected, coordinate_indexes) :=
        contains coordinate_index coordinate_indexes in
      c <- PyNum.mul coordinate (PyNum.Int (if (selected : bool) then -1 else 1)) ;;
      cs <- reflect_each coordinate_indexes items' ;;
      Ok (c :: cs)
  end.

Definition get_reflected_by_coordinates
    (self : t) (coordinate_indexes : option iterable) : result t :=
  let coordinate_indexes :=
    match coordinate_indexes with
    | None => Collection (range (List.length (coordinates self)))
    | Some indexes => indexes
    end in
  cs <- reflect_each coordinate_indexes (enumerate (coordinates self)) ;;
  Ok (Vector cs).

Definition __sub__ (self other : t) : result t :=
  reflected <- get_reflected_by_coordinates other None ;;
  __add__ self reflected.

Definition get_rounded_by (self : t) (rounder : NumberRounder) : result t :=
  cs <- mapM rounder (coordinates self) ;;
  Ok (Vector cs).

End Vector.

(** A vector of [int] coordinates. *)
Definition ints (zs : list Z) : Vector.t := Vector.Vector (map PyNum.Int zs).

(** ** geometry.VirtualVector *)

Module VirtualVector.

Record t : Type := VirtualVector { start_point : Vector.t; end_point : Vector.t }.

Definition value (self : t) : result Vector.t :=
  Vector.__sub__ (end_point self) (start_point self).

Definition get_rounded_by (self : t) (rounder : NumberRounder) : result t :=
  s <- Vector.get_rounded_by (start_point self) rounder ;;
  e <- Vector.get_rounded_by (end_point self) rounder ;;
  Ok (VirtualVector s e).

End VirtualVector.

(** ** tools: reports, the divider protocol and the rounders *)

(** Modelled from the spec: [tools.Report] is not in the sources; the spec
    describes a success/error result value whose [create_error_report(error)]
    builds a failure carrying the originating error. *)
Module Report.

Inductive t : Type :=
  | Success
  | Failure (error : exn).

Definition create_error_report (error : exn) : t := Failure error.

End Report.

(** Modelled from the spec: [tools.Divider] is not in the sources; the spec
    describes a capability whose base feasibility check reports success and
    whose call performs [_divide] only after a successful report, the error of
    a failed report being raised instead. *)
Module Divider.

Definition is_possible_to_divide {A : Type} (data : A) : result Report.t :=
  Ok Report.Success.

Definition __call__ {A B : Type}
    (is_possible_to_divide : A -> result Report.t)
    (_divide : A -> result B) (data : A) : result B :=
  report <- is_possible_to_divide data ;;
  match report with
  | Report.Success => _divide data
  | Report.Failure error => Raise error
  end.

End Divider.

(** Modelled from the spec: the rounders of [tools] are not in the sources;
    the spec describes [AccurateNumberRounder] as rounding to the nearest
    value and [ShiftNumberRounder] as scaling the value up by [10^shift],
    delegating to the wrapped rounder and scaling back down. *)
Module Rounders.

(** [round(x)] of Python: to the nearest integer, ties to even. *)
Definition round_finite (s : bool) (m : positive) (e : Z) : Z :=
  if 0 <=? e then cond_Zopp s (Z.pos m * 2 ^ e)
  else
    let quotient := Z.pos m / 2 ^ (- e) in
    let remainder := Z.pos m mod 2 ^ (- e) in
    let half := 2 ^ (- e - 1) in
    cond_Zopp s
      (if (half <? remainder) || ((remainder =? half) && Z.odd quotient)
       then quotient + 1 else quotient).

Definition AccurateNumberRounder : NumberRounder := fun number =>
  match number with
  | PyNum.Int z => Ok (PyNum.Int z)
  | PyNum.Float f =>
      match Prim2SF f with
      | S754_zero _ => Ok (PyNum.Int 0)
      | S754_infinity _ => Raise OverflowError
      | S754_nan => Raise ValueError
      | S754_finite s m e => Ok (PyNum.Int (round_finite s m e))
      end
  end.

Definition ShiftNumberRounder (rounder : NumberRounder) (shift : Z) : NumberRounder :=
  fun number =>
    scaled <- PyNum.mul number (PyNum.Int (10 ^ shift)) ;;
    rounded <- rounder scaled ;;
    PyNum.truediv rounded (PyNum.Int (10 ^ shift)).

End Rounders.

(** ** geometry.VectorDivider *)

Module VectorDivider.

Record t : Type := VectorDivider {
  distance_between_points : pynum;
  rounder : NumberRounder
}.

(** The condition of the conditional expression is evaluated first; when
    the length is [0], the report is built from the error, whose message is an
    f-string that reads the name [vector]. The local names of this method are
    its parameters [self] and [data]. *)
Definition is_possible_to_divide {libm : CLibrary} (self : t)
    (data : VirtualVector.t) : result Report.t :=
  value <- VirtualVector.value data ;;
  length <- Vector.length value ;;
  if PyNum.eq_zero length
  then
    let locals := ["self"; "data"] in
    _ <- load_name locals geometry_globals "Report" ;;
    _ <- load_name locals geometry_globals "UnableToDivideVectorIntoPointsError" ;;
    _ <- load_name locals geometry_globals "vector" ;;
    Ok (Report.create_error_report
          (UnableToDivideVectorIntoPointsError
             "Can't divide vector into points with length 0"))
  else Divider.is_possible_to_divide data.

(** The body of the [for] loop of [__create_points], run over the indexes
    of [range(1, int(number_of_points_to_create))]. *)
Fixpoint create_points_loop (indexes : list Z) (vector_to_next_point : Vector.t)
    (created_points : list Vector.t) : result (list Vector.t) :=
  match indexes with
  | [] => Ok created_points
  | created_point_index :: indexes' =>
      previous <- getitem created_points (created_point_index - 1) ;;
      next <- Vector.__add__ previous vector_to_next_point ;;
      create_points_loop indexes' vector_to_next_point (created_points ++ [next])
  end.

(** [range(start, stop)] *)
Definition range (start stop : Z) : list Z :=
  map (fun i => start + Z.of_nat i) (seq 0 (Z.to_nat (stop - start))).

Definition __create_points (self : t) (start_point : Vector.t)
    (number_of_points_to_create : pynum) (vector_to_next_point : Vector.t)
    : result (list Vector.t) :=
  stop <- PyNum.to_int number_of_points_to_create ;;
  created_points <-
    create_points_loop (range 1 stop) vector_to_next_point [start_point] ;;
  mapM (fun point => Vector.get_rounded_by point (rounder self)) created_points.

Definition _divide {libm : CLibrary} (self : t) (vector : VirtualVector.t)
    : result (list Vector.t) :=
  value <- VirtualVector.value vector ;;
  length <- Vector.length value ;;
  ratio <- PyNum.truediv length (distance_between_points self) ;;
  factor <- rounder self ratio ;;
  step <- mapM (fun coordinate => PyNum.truediv coordinate factor)
            (Vector.coordinates value) ;;
  let vector_to_next_point := Vector.Vector step in
  step_length <- Vector.length vector_to_next_point ;;
  quotient <- PyNum.truediv length step_length ;;
  number_of_points_to_create <- PyNum.add quotient (PyNum.Int 1) ;;
  fractional <-
    (if PyNum.le_zero number_of_points_to_create then Ok true
     else PyNum.has_fraction number_of_points_to_create) ;;
  if (fractional : bool)
  then
    let locals := ["self"; "vector"; "factor"; "vector_to_next_point";
                   "number_of_points_to_create"] in
    _ <- load_name locals geometry_globals "vector" ;;
    _ <- load_name locals geometry_globals "number_of_points_to_create" ;;
    _ <- load_name locals geometry_globals "vector_to_next_point" ;;
    Raise (UnableToDivideVectorIntoPointsError
             "Can't divide vector into points by segment")
  else
    __create_points self (VirtualVector.start_point vector)
      number_of_points_to_create vector_to_next_point.

(** Calling the divider, by the protocol of [tools.Divider]. *)
Definition __call__ {libm : CLibrary} (self : t) (data : VirtualVector.t)
    : result (list Vector.t) :=
  Divider.__call__ (is_possible_to_divide self) (_divide self) data.

End VectorDivider.

(** ** geometry.Line *)

Module Line.

(** The attributes of a line; the double-underscore names are private to
    the class, hence stored under their mangled names. *)
Record t : Type := Line {
  _vector_divider : VectorDivider.t;
  _rounder : NumberRounder;
  _Line__first_point : Vector.t;
  _Line__second_point : Vector.t;
  _Line__all_available_points : list Vector.t
}.

Definition _vector_divider_factory : VectorDivider.t :=
  VectorDivider.VectorDivider (PyNum.Int 1)
    (Rounders.ShiftNumberRounder Rounders.AccurateNumberRounder 2).

Definition first_point (self : t) : Vector.t := _Line__first_point self.
Definition second_point (self : t) : Vector.t := _Line__second_point self.
Definition all_available_points (self : t) : list Vector.t :=
  _Line__all_available_points self.

Definition _update_all_available_points {libm : CLibrary} (self : t) : result t :=
  points <- VectorDivider.__call__ (_vector_divider self)
              (VirtualVector.VirtualVector (first_point self) (second_point self)) ;;
  Ok (Line (_vector_divider self) (_rounder self)
           (_Line__first_point self) (_Line__second_point self) points).

(** [Line(first_point, second_point)]; the cache does not exist until
    [_update_all_available_points] assigns it. *)
Definition __init__ {libm : CLibrary} (first_point second_point : Vector.t)
    : result t :=
  let _vector_divider := _vector_divider_factory in
  let _rounder := VectorDivider.rounder _vector_divider in
  _update_all_available_points
    (Line _vector_divider _rounder first_point second_point []).

(** [line.first_point = new_point] *)
Definition set_first_point {libm : CLibrary} (self : t) (new_point : Vector.t)
    : result t :=
  self <- _update_all_available_points self ;;
  Ok (Line (_vector_divider self) (_rounder self)
           new_point (_Line__second_point self)
           (_Line__all_available_points self)).

(** [line.second_point = new_point] *)
Definition set_second_point {libm : CLibrary} (self : t) (new_point : Vector.t)
    : result t :=
  self <- _update_all_available_points self ;;
  Ok (Line (_vector_divider self) (_rounder self)
           (_Line__first_point self) new_point
           (_Line__all_available_points self)).

End Line.

(** ** Objects, classes and attributes *)

(** The classes of [interfaces.py] and [avatars.py] that the animations and
    the single-pack avatars are built from. *)
Inductive class_name : Type :=
  | IUpdatable | IAvatar | Avatar | SingleResourcePackAvatar
  | ResourceAvatar | PrimitiveAvatar
  | Animation | CustomAnimation | EndlessAnimation | CustomEndlessAnimation.

Definition class_name_string (c : class_name) : string :=
  match c with
  | IUpdatable => "IUpdatable" | IAvatar => "IAvatar" | Avatar => "Avatar"
  | SingleResourcePackAvatar => "SingleResourcePackAvatar"
  | ResourceAvatar => "ResourceAvatar" | PrimitiveAvatar => "PrimitiveAvatar"
  | Animation => "Animation" | CustomAnimation => "CustomAnimation"
  | EndlessAnimation => "EndlessAnimation"
  | CustomEndlessAnimation => "CustomEndlessAnimation"
  end.

(** A drawable resource is any object; the renderer looks at its type only. *)
Record Resource : Type := { resource_type : string; resource_id : nat }.

(** Modelled from the spec: [renders.ResourcePack] is not in the sources; the
    spec describes it as a drawable resource paired with a render point, both
    assignable. *)
Module ResourcePack.
Record t : Type := ResourcePack { resource : Resource; point : Vector.t }.
End ResourcePack.

(** [Sprite] is a dataclass of [resource] and [max_stay_ticks] whose
    [__post_init__] sets [real_stay_ticks]. *)
Module Sprite.
Record t : Type := {
  resource : Resource;
  max_stay_ticks : Z;
  real_stay_ticks : Z
}.

Definition Sprite (resource : Resource) (max_stay_ticks : Z) : t :=
  {| resource := resource;
     max_stay_ticks := max_stay_ticks;
     real_stay_ticks := max_stay_ticks |}.
End Sprite.

(** Modelled from the spec: [core.PositionalUnit] is not in the sources; the
    spec describes it as holding a mutable position. Units live in a heap and
    avatars refer to them, so that an avatar reads the position its unit has
    at the time of the call. *)
Record PositionalUnit : Type := { position : Vector.t }.
Definition unit_ref : Type := nat.
Definition Heap : Type := unit_ref -> PositionalUnit.

(** The values held by the attributes of these classes. *)
Inductive value : Type :=
  | VInt (z : Z)
  | VUnit (unit : unit_ref)
  | VPack (pack : ResourcePack.t)
  | VSprites (sprites : list Sprite.t)
  | VConstantFactory (resource : Resource)   (* [lambda _: resource] *)
  | VResourcePackClass                       (* the class [ResourcePack] *)
  | VOpaque (repr : string)
  | VMethod (owner : class_name) (name : string).

Inductive member : Type :=
  | AbstractMethod
  | Method
  | ClassAttribute (v : value).

(** What each class body defines. An annotation without a value, such as
    [_sprites: tuple[Sprite, ]] or [_main_resource_pack: ResourcePack],
    defines no attribute. The second, nameless [@abstractmethod] of
    [IUpdatable] is left out. *)
Definition class_dict (c : class_name) : list (string * member) :=
  match c with
  | IUpdatable => [("update", AbstractMethod)]
  | IAvatar => [("render_resource", AbstractMethod)]
  | Avatar => [("__init__", Method); ("unit", Method)]
  | SingleResourcePackAvatar =>
      [("render_resource_packs", Method); ("update", Method)]
  | ResourceAvatar =>
      [("_repr_fields", ClassAttribute (VOpaque "(Field('resource'), )"));
       ("_resource_pack_factory", ClassAttribute VResourcePackClass);
       ("__init__", Method); ("render_resource", Method)]
  | PrimitiveAvatar => [("__init__", Method); ("render_resource", Method)]
  | Animation =>
      [("_current_sprite_index", ClassAttribute (VInt 0));
       ("__init__", Method); ("update", Method); ("is_finished", Method);
       ("_active_sprite", Method); ("_update_main_resource_pack", Method);
       ("_handle_finish", Method)]
  | CustomAnimation => [("__init__", Method)]
  | EndlessAnimation => [("_handle_finish", Method)]
  | CustomEndlessAnimation => []
  end.

(** The method resolution order of each class (its linearization, without
    [ABC] and [object], which define none of the names used here). *)
Definition mro (c : class_name) : list class_name :=
  match c with
  | IUpdatable => [IUpdatable]
  | IAvatar => [IAvatar; IUpdatable]
  | Avatar => [Avatar; IAvatar; IUpdatable]
  | SingleResourcePackAvatar =>
      [SingleResourcePackAvatar; Avatar; IAvatar; IUpdatable]
  | ResourceAvatar =>
      [ResourceAvatar; SingleResourcePackAvatar; Avatar; IAvatar; IUpdatable]
  | PrimitiveAvatar =>
      [PrimitiveAvatar; ResourceAvatar; SingleResourcePackAvatar; Avatar;
       IAvatar; IUpdatable]
  | Animation =>
      [Animation; SingleResourcePackAvatar; Avatar; IAvatar; IUpdatable]
  | CustomAnimation =>
      [CustomAnimation; Animation; SingleResourcePackAvatar; Avatar; IAvatar;
       IUpdatable]
  | EndlessAnimation =>
      [EndlessAnimation; Animation; SingleResourcePackAvatar; Avatar; IAvatar;
       IUpdatable]
  | CustomEndlessAnimation =>
      [CustomEndlessAnimation; EndlessAnimation; CustomAnimation; Animation;
       SingleResourcePackAvatar; Avatar; IAvatar; IUpdatable]
  end.

Definition assoc {A : Type} (name : string) (entries : list (string * A)) : option A :=
  match find (fun entry => String.eqb name (fst entry)) entries with
  | Some entry => Some (snd entry)
  | None => None
  end.

(** The first class of a resolution order that defines [name]. *)
Fixpoint find_member (classes : list class_name) (name : string)
    : option (class_name * member) :=
  match classes with
  | [] => None
  | c :: classes' =>
      match assoc name (class_dict c) with
      | Some m => Some (c, m)
      | None => find_member classes' name
      end
  end.

(** The abstract methods of a class, as [ABCMeta] collects them: the names
    whose definition found along the resolution order is abstract. *)
Definition abstractmethods (c : class_name) : list string :=
  List.filter (fun name =>
            match find_member (mro c) name with
            | Some (_, AbstractMethod) => true
            | _ => false
            end)
         (nodup String.string_dec (flat_map (fun b => map fst (class_dict b)) (mro c))).

(** An object: its class and its instance dictionary. *)
Record object : Type := Object {
  class : class_name;
  attributes : gmap string value
}.

(** [object.__new__(cls)]: an abstract class is not instantiated. *)
Definition new (c : class_name) : result object :=
  match abstractmethods c with
  | [] => Ok (Object c ∅)
  | _ :: _ =>
      Raise (TypeError ("Can't instantiate abstract class " ++ class_name_string c))
  end.

(** [self.name] for a name that is no property: the instance dictionary
    first, then the classes. *)
Definition getattr (self : object) (name : string) : result value :=
  match attributes self !! name with
  | Some v => Ok v
  | None =>
      match find_member (mro (class self)) name with
      | Some (_, ClassAttribute v) => Ok v
      | Some (owner, _) => Ok (VMethod owner name)
      | None => Raise (AttributeError name)
      end
  end.

(** [self.name = v] *)
Definition setattr (self : object) (name : string) (v : value) : object :=
  Object (class self) (<[name := v]> (attributes self)).

(** Inside the body of class [c], a name with two leading underscores is
    private to the class: it stands for [_c__name]. *)
Definition mangle (c : class_name) (name : string) : string :=
  "_" ++ class_name_string c ++ name.

(** The class whose definition of [name] an object of class [c] uses. *)
Definition resolve (c : class_name) (name : string) : option class_name :=
  match find_member (mro c) name with
  | Some (owner, _) => Some owner
  | None => None
  end.

(** ** avatars.Avatar and SingleResourcePackAvatar *)

Module Avatar.

Definition __init__ (self : object) (unit : unit_ref) : result object :=
  Ok (setattr self "_unit" (VUnit unit)).

Definition unit (self : object) : result unit_ref :=
  v <- getattr self "_unit" ;;
  match v with
  | VUnit u => Ok u
  | _ => Raise (AttributeError "position")
  end.

End Avatar.

(** [self.unit.position] *)
Definition unit_position (heap : Heap) (self : object) : result Vector.t :=
  u <- Avatar.unit self ;;
  Ok (position (heap u)).

Module SingleResourcePackAvatar.

Definition main_resource_pack (self : object) : result ResourcePack.t :=
  v <- getattr self "_main_resource_pack" ;;
  match v with
  | VPack pack => Ok pack
  | _ => Raise (AttributeError "point")
  end.

Definition render_resource_packs (self : object) : result (list ResourcePack.t) :=
  pack <- main_resource_pack self ;;
  Ok [pack].

(** [self._main_resource_pack.point = self.unit.position]: the right-hand
    side is evaluated first. *)
Definition update (heap : Heap) (self : object) : result object :=
  position <- unit_position heap self ;;
  pack <- main_resource_pack self ;;
  Ok (setattr self "_main_resource_pack"
        (VPack (ResourcePack.ResourcePack (ResourcePack.resource pack) position))).

End SingleResourcePackAvatar.

(** ** avatars.ResourceAvatar and PrimitiveAvatar *)

Module ResourceAvatar.

(** [f(argument, ...)] for the callables held by attributes. *)
Definition call_resource_factory (factory : value) : result Resource :=
  match factory with
  | VConstantFactory resource => Ok resource
  | _ => Raise (TypeError "object is not callable")
  end.

Definition call_resource_pack_factory (factory : value)
    (resource : Resource) (point : Vector.t) : result ResourcePack.t :=
  match factory with
  | VResourcePackClass => Ok (ResourcePack.ResourcePack resource point)
  | _ => Raise (TypeError "object is not callable")
  end.

Definition __init__ (heap : Heap) (self : object) (unit : unit_ref)
    : result object :=
  self <- Avatar.__init__ self unit ;;
  pack_factory <- getattr self "_resource_pack_factory" ;;
  resource_factory <- getattr self "_resource_factory" ;;
  resource <- call_resource_factory resource_factory ;;
  position <- unit_position heap self ;;
  pack <- call_resource_pack_factory pack_factory resource position ;;
  Ok (setattr self "_main_resource_pack" (VPack pack)).

Definition render_resource (self : object) : result Resource :=
  pack <- SingleResourcePackAvatar.main_resource_pack self ;;
  Ok (ResourcePack.resource pack).

End ResourceAvatar.

Module PrimitiveAvatar.

Definition __init__ (heap : Heap) (self : object) (unit : unit_ref)
    (resource : Resource) : result object :=
  let self := setattr self "_resource_factory" (VConstantFactory resource) in
  ResourceAvatar.__init__ heap self unit.

(** [PrimitiveAvatar(unit, resource)] *)
Definition __call__ (heap : Heap) (unit : unit_ref) (resource : Resource)
    : result object :=
  self <- new PrimitiveAvatar ;;
  __init__ heap self unit resource.

(** [avatar.render_resource = render_resource] *)
Definition set_render_resource (self : object) (render_resource : Resource)
    : result object :=
  pack <- SingleResourcePackAvatar.main_resource_pack self ;;
  Ok (setattr self "_main_resource_pack"
        (VPack (ResourcePack.ResourcePack render_resource (ResourcePack.point pack)))).

End PrimitiveAvatar.

(** ** avatars.Animation and its variants *)

(** The sprites of a tuple are taken to be distinct objects, so that a change
    of one sprite is a change at its position in the tuple. *)
Definition with_real_stay_ticks (sprite : Sprite.t) (ticks : Z) : Sprite.t :=
  {| Sprite.resource := Sprite.resource sprite;
     Sprite.max_stay_ticks := Sprite.max_stay_ticks sprite;
     Sprite.real_stay_ticks := ticks |}.

(** The position in [xs] that [xs[index]] reads. *)
Definition position_of_index {A : Type} (xs : list A) (index : Z) : nat :=
  Z.to_nat (if index <? 0 then index + Z.of_nat (List.length xs) else index).

Module EndlessAnimation.

Definition _handle_finish (self : object) : result object :=
  let self := setattr self "_current_sprite_index" (VInt 0) in
  v <- getattr self "_sprites" ;;
  match v with
  | VSprites sprites =>
      Ok (setattr self "_sprites"
            (VSprites (map (fun sprite =>
                              with_real_stay_ticks sprite (Sprite.max_stay_ticks sprite))
                           sprites)))
  | _ => Raise (TypeError "object is not iterable")
  end.

End EndlessAnimation.

Module Animation.

(** [self._sprites] *)
Definition sprites (self : object) : result (list Sprite.t) :=
  v <- getattr self "_sprites" ;;
  match v with
  | VSprites sprites => Ok sprites
  | _ => Raise (TypeError "object is not subscriptable")
  end.

Definition as_index (v : value) : result Z :=
  match v with
  | VInt z => Ok z
  | _ => Raise (TypeError "tuple indices must be integers")
  end.

(** [self._current_sprite_index] *)
Definition current_sprite_index (self : object) : result Z :=
  v <- getattr self "_current_sprite_index" ;;
  as_index v.

(** The property [_active_sprite]. *)
Definition _active_sprite (self : object) : result Sprite.t :=
  sprites <- sprites self ;;
  index <- current_sprite_index self ;;
  getitem sprites index.

Definition is_finished (self : object) : result bool :=
  index <- current_sprite_index self ;;
  sprites <- sprites self ;;
  if Z.of_nat (List.length sprites) - 1 <=? index
  then
    active <- _active_sprite self ;;
    Ok (Sprite.real_stay_ticks active <=? 0)
  else Ok false.

(** The index read here is written [self.__current_sprite_index] in the
    body of [Animation]. *)
Definition _update_main_resource_pack (heap : Heap) (self : object)
    : result object :=
  sprites <- sprites self ;;
  v <- getattr self (mangle Animation "__current_sprite_index") ;;
  index <- as_index v ;;
  sprite <- getitem sprites index ;;
  position <- unit_position heap self ;;
  Ok (setattr self "_main_resource_pack"
        (VPack (ResourcePack.ResourcePack (Sprite.resource sprite) position))).

Definition _handle_finish (self : object) : result object :=
  Raise AnimationAlreadyFinishedError.

(** [self._handle_finish()] and [self._update_main_resource_pack()] call
    the definition that the class of [self] resolves the name to. *)
Definition call__handle_finish (self : object) : result object :=
  match resolve (class self) "_handle_finish" with
  | Some EndlessAnimation => EndlessAnimation._handle_finish self
  | Some Animation => _handle_finish self
  | _ => Raise (AttributeError "_handle_finish")
  end.

Definition call__update_main_resource_pack (heap : Heap) (self : object)
    : result object :=
  match resolve (class self) "_update_main_resource_pack" with
  | Some Animation => _update_main_resource_pack heap self
  | _ => Raise (AttributeError "_update_main_resource_pack")
  end.

Definition __init__ (heap : Heap) (self : object) (unit : unit_ref)
    : result object :=
  self <- Avatar.__init__ self unit ;;
  call__update_main_resource_pack heap self.

(** [self._active_sprite.real_stay_ticks -= 1] *)
Definition decrement_active_sprite (self : object) : result object :=
  sprites <- sprites self ;;
  index <- current_sprite_index self ;;
  active <- getitem sprites index ;;
  Ok (setattr self "_sprites"
        (VSprites (<[position_of_index sprites index :=
                       with_real_stay_ticks active
                         (Sprite.real_stay_ticks active - 1)]> sprites))).

Definition update (heap : Heap) (self : object) : result object :=
  self <- SingleResourcePackAvatar.update heap self ;;
  finished <- is_finished self ;;
  self <- (if (finished : bool) then call__handle_finish self else Ok self) ;;
  self <- call__update_main_resource_pack heap self ;;
  self <- decrement_active_sprite self ;;
  active <- _active_sprite self ;;
  if Sprite.real_stay_ticks active <=? 0
  then
    index <- current_sprite_index self ;;
    Ok (setattr self "_current_sprite_index" (VInt (index + 1)))
  else Ok self.

End Animation.

Module CustomAnimation.

Definition __init__ (heap : Heap) (self : object) (unit : unit_ref)
    (sprites : list Sprite.t) : result object :=
  self <- Animation.__init__ heap self unit ;;
  Ok (setattr self "_sprites" (VSprites sprites)).

(** [cls(unit, sprites)] for [CustomAnimation] and the classes that inherit
    its constructor. *)
Definition __call__ (heap : Heap) (cls : class_name) (unit : unit_ref)
    (sprites : list Sprite.t) : result object :=
  self <- new cls ;;
  __init__ heap self unit sprites.

End CustomAnimation.

(** ** pygame_renders.PygameSurfaceRender *)

Module PygameSurfaceRender.

(** A function decorated with
    [@Render.resource_handler(supported_resource_type=T)]. *)
Record handler : Type := {
  supported_resource_type : string;
  routine : string
}.

(** The decorated functions of the class body, in the order of the source. *)
Definition resource_handlers : list handler :=
  [ {| supported_resource_type := "Surface"; routine := "_handle_pygame_surface" |};
    {| supported_resource_type := "Polygon"; routine := "_handle_pygame_polygon" |};
    {| supported_resource_type := "Line"; routine := "_handle_pygame_line" |};
    {| supported_resource_type := "Lines"; routine := "_handle_pygame_lines" |};
    {| supported_resource_type := "Circle"; routine := "_handle_pygame_circle" |};
    {| supported_resource_type := "Rectangle"; routine := "_handle_pygame_rect" |};
    {| supported_resource_type := "Ellipse"; routine := "_handle_pygame_ellipse" |};
    {| supported_resource_type := "Arc"; routine := "_handle_pygame_arc" |} ].

End PygameSurfaceRender.

(** Modelled from the spec: [renders.Render] and [pygame_resources] are not
    in the sources. The spec lists the primitive types of the
    graphics-resource set and describes the renderer as looking up the routine
    registered for the exact type of a pack's resource, failing with a
    not-found error when none is registered. *)
Module Render.

Definition graphics_primitives : list string :=
  ["Polygon"; "Line"; "Lines"; "Circle"; "Rectangle"; "Ellipse"; "Arc"].

(** The routines registered for a resource type. *)
Definition routines_for (handlers : list PygameSurfaceRender.handler)
    (type_name : string) : list string :=
  map PygameSurfaceRender.routine
    (List.filter
       (fun h => String.eqb (PygameSurfaceRender.supported_resource_type h) type_name)
       handlers).

(** Presenting a pack: the routine that draws it. *)
Definition draw_resource_pack (handlers : list PygameSurfaceRender.handler)
    (pack : ResourcePack.t) : result string :=
  match routines_for handlers (resource_type (ResourcePack.resource pack)) with
  | routine :: _ => Ok routine
  | [] => Raise (NotFoundError (resource_type (ResourcePack.resource pack)))
  end.

End Render.

(** ** geometry.Line: membership *)

(** [x == y] on numbers: an [int] and a [float] are compared by their exact
    values. *)
Definition float_eq_int (f : float) (z : Z) : bool :=
  match Prim2SF f with
  | S754_zero _ => z =? 0
  | S754_finite s m e =>
      negb (snd (PyNum.trunc_finite s m e)) && (fst (PyNum.trunc_finite s m e) =? z)
  | _ => false
  end.

Definition pynum_eqb (x y : pynum) : bool :=
  match x, y with
  | PyNum.Int a, PyNum.Int b => a =? b
  | PyNum.Float a, PyNum.Float b => PrimFloat.eqb a b
  | PyNum.Int a, PyNum.Float b => float_eq_int b a
  | PyNum.Float a, PyNum.Int b => float_eq_int a b
  end.

(** [xs == ys] on tuples of numbers: the same length and equal items. The
    identity of objects is not followed, so a [nan] equals nothing. *)
Fixpoint tuple_eqb (xs ys : list pynum) : bool :=
  match xs, ys with
  | [], [] => true
  | x :: xs', y :: ys' => pynum_eqb x y && tuple_eqb xs' ys'
  | _, _ => false
  end.

(** The [__eq__] that [@dataclass] gives [Vector]. *)
Definition Vector_eqb (a b : Vector.t) : bool :=
  tuple_eqb (Vector.coordinates a) (Vector.coordinates b).

(** [any(f(x) for x in xs)]: stops at the first true item. *)
Fixpoint anyM {A : Type} (f : A -> result bool) (xs : list A) : result bool :=
  match xs with
  | [] => Ok false
  | x :: xs' => b <- f x ;; if (b : bool) then Ok true else anyM f xs'
  end.

Module LineMembership.

(** [point.get_rounded_by(self._rounder) in self.__all_available_points];
    the statements after the [return] are never run. *)
Definition is_point_inside (self : Line.t) (point : Vector.t) : result bool :=
  rounded <- Vector.get_rounded_by point (Line._rounder self) ;;
  Ok (existsb (fun available => Vector_eqb available rounded)
        (Line._Line__all_available_points self)).

Definition is_vector_passes {libm : CLibrary} (self : Line.t)
    (vector : VirtualVector.t) : result bool :=
  rounded_vector <- VirtualVector.get_rounded_by vector (Line._rounder self) ;;
  points <- VectorDivider.__call__ (Line._vector_divider self) rounded_vector ;;
  anyM (is_point_inside self) points.

(** The two overloads of [__contains__], chosen by the type of the argument. *)
Definition __contains__ {libm : CLibrary} (self : Line.t)
    (argument : Vector.t + VirtualVector.t) : result bool :=
  match argument with
  | inl point => is_point_inside self point
  | inr vector => is_vector_passes self vector
  end.

End LineMembership.

(** ** avatars.AnimationAvatar and TopicAnimationAvatar *)

(** The animations of an avatar are objects of their own, which the avatar
    refers to; two references are the same object when they are equal. *)
Definition animation_ref : Type := nat.
Definition AnimationStore : Type := animation_ref -> object.

Definition store_animation (store : AnimationStore) (ref : animation_ref)
    (animation : object) : AnimationStore :=
  fun r => if Nat.eqb r ref then animation else store r.

(** [animation.update()] and [animation.is_finished()], by the class of the
    animation. *)
Definition call_update (heap : Heap) (animation : object) : result object :=
  match resolve (class animation) "update" with
  | Some Animation => Animation.update heap animation
  | Some SingleResourcePackAvatar => SingleResourcePackAvatar.update heap animation
  | _ => Raise (AttributeError "update")
  end.

Definition call_is_finished (animation : object) : result bool :=
  match resolve (class animation) "is_finished" with
  | Some Animation => Animation.is_finished animation
  | _ => Raise (AttributeError "is_finished")
  end.

Module AnimationAvatar.

(** The attributes [__init__] assigns. *)
Record t : Type := AnimationAvatar {
  _unit : unit_ref;
  _default_animation : animation_ref;
  _current_animation : animation_ref;
  _animation_by_topic : gmap string animation_ref
}.

Definition render_resource_packs (store : AnimationStore) (self : t)
    : result (list ResourcePack.t) :=
  SingleResourcePackAvatar.render_resource_packs (store (_current_animation self)).

Definition update (heap : Heap) (store : AnimationStore) (self : t)
    : result (AnimationStore * t) :=
  animation <- call_update heap (store (_current_animation self)) ;;
  Ok (store_animation store (_current_animation self) animation, self).

End AnimationAvatar.

Module TopicAnimationAvatar.

Definition with_current (self : AnimationAvatar.t) (animation : animation_ref)
    : AnimationAvatar.t :=
  AnimationAvatar.AnimationAvatar (AnimationAvatar._unit self)
    (AnimationAvatar._default_animation self) animation
    (AnimationAvatar._animation_by_topic self).

Definition update (heap : Heap) (store : AnimationStore) (self : AnimationAvatar.t)
    : result (AnimationStore * AnimationAvatar.t) :=
  revert <-
    (if Nat.eqb (AnimationAvatar._default_animation self)
                (AnimationAvatar._current_animation self)
     then Ok false
     else call_is_finished (store (AnimationAvatar._current_animation self))) ;;
  let self := if (revert : bool)
              then with_current self (AnimationAvatar._default_animation self)
              else self in
  AnimationAvatar.update heap store self.

(** [self._current_animation = self._animation_by_topic[topic]]: [None] is
    the [KeyError] of a topic that is not in the dictionary. *)
Definition activate_animation_by_topic (self : AnimationAvatar.t) (topic : string)
    : option AnimationAvatar.t :=
  match AnimationAvatar._animation_by_topic self !! topic with
  | Some animation => Some (with_current self animation)
  | None => None
  end.

End TopicAnimationAvatar.

(** ** pygame_renders: what the drawing routines hand to the host library *)

(** Modelled from the spec: the primitives of [pygame_resources] are not in
    the sources; their fields are the ones the routines read. A color is
    handed over as it is. *)
Module Primitives.

Record Polygon : Type := {
  polygon_color : nat;
  polygon_points : list Vector.t;
  polygon_border_width : Z
}.

Record Line : Type := {
  line_color : nat;
  start_point : Vector.t;
  end_point : Vector.t;
  line_is_smooth : bool;
  line_border_width : Z
}.

Record Lines : Type := {
  lines_color : nat;
  is_closed : bool;
  lines_points : list Vector.t;
  lines_is_smooth : bool;
  lines_border_width : Z
}.

End Primitives.

(** A call of a drawing function of the host library, with its arguments
    after the surface. *)
Inductive draw_call : Type :=
  | draw_polygon (color : nat) (points : list (list pynum)) (width : Z)
  | draw_line (color : nat) (start finish : list pynum) (width : Z)
  | draw_aaline (color : nat) (start finish : list pynum) (width : Z)
  | draw_lines (color : nat) (closed : bool) (points : list (list pynum)) (width : Z)
  | draw_aalines (color : nat) (closed : bool) (points : list (list pynum)) (width : Z).

Module Handlers.

(** Each routine is given here the resource and the point of the pack. *)
Definition _handle_pygame_polygon (resource : Primitives.Polygon) (point : Vector.t)
    : result draw_call :=
  points <- mapM (fun vector_to_point =>
                    vertex <- Vector.__add__ point vector_to_point ;;
                    Ok (Vector.coordinates vertex))
              (Primitives.polygon_points resource) ;;
  Ok (draw_polygon (Primitives.polygon_color resource) points
        (Primitives.polygon_border_width resource)).

Definition _handle_pygame_line (resource : Primitives.Line) (point : Vector.t)
    : result draw_call :=
  start <- Vector.__add__ (Primitives.start_point resource) point ;;
  finish <- Vector.__add__ (Primitives.end_point resource) point ;;
  Ok ((if negb (Primitives.line_is_smooth resource) then draw_line else draw_aaline)
        (Primitives.line_color resource)
        (Vector.coordinates start) (Vector.coordinates finish)
        (Primitives.line_border_width resource)).

Definition _handle_pygame_lines (resource : Primitives.Lines) (point : Vector.t)
    : result draw_call :=
  points <- mapM (fun line_point =>
                    vertex <- Vector.__add__ line_point point ;;
                    Ok (Vector.coordinates vertex))
              (Primitives.lines_points resource) ;;
  Ok ((if negb (Primitives.lines_is_smooth resource) then draw_lines else draw_aalines)
        (Primitives.lines_color resource) (Primitives.is_closed resource) points
        (Primitives.lines_border_width resource)).

End Handlers.

(** ** Definitions used to state the properties *)

(** A C library whose [pow] is correctly rounded, as IEEE 754 recommends: the
    square it returns is the binary64 product, and an overflow is reported
    through [errno]. The closed examples below are evaluated with it; every
    statement about an arbitrary input holds for any library. *)
#[export] Instance correctly_rounded : CLibrary :=
  {| pow2 x :=
       let r := PrimFloat.mul x x in
       (r, if PrimFloat.is_infinity r then ERANGE else 0) |}.

(** The shorter operand as the spec words it: padded on the right with [0]
    up to [n] coordinates. *)
Definition padded_with_zeros (n : nat) (cs : list pynum) : list pynum :=
  cs ++ repeat (PyNum.Int 0) (n - List.length cs).

(** The points after a given one, as the spec words them: each is the
    previous point plus the step. *)
Fixpoint successive_points (count : nat) (previous step : Vector.t)
    : result (list Vector.t) :=
  match count with
  | O => Ok []
  | S count' =>
      next <- Vector.__add__ previous step ;;
      rest <- successive_points count' next step ;;
      Ok (next :: rest)
  end.

(** A rounder that returns every number as it is. *)
Definition identity_rounder : NumberRounder := fun number => Ok number.

(** The divider of C6's example and a segment of length [10]. *)
Definition unit_divider : VectorDivider.t :=
  VectorDivider.VectorDivider (PyNum.Int 1) identity_rounder.

Definition ten_segment : VirtualVector.t :=
  VirtualVector.VirtualVector (ints [0; 0]) (ints [10; 0]).

(** A vector of [float] coordinates. *)
Definition floats (fs : list float) : Vector.t :=
  Vector.Vector (map PyNum.Float fs).

(** The rounding of a point as the spec words it: each coordinate on its
    own, by the configured strategy. *)
Definition rounded_point (rounder : NumberRounder) (point : Vector.t)
    : result Vector.t :=
  cs <- mapM rounder (Vector.coordinates point) ;;
  Ok (Vector.Vector cs).

(** A displacement along one coordinate axis, and the step it is cut into:
    the unit vector of that axis, in the given direction. *)
Definition axis_displacement (before after : nat) (d : Z) : list Z :=
  (repeat 0 before ++ d :: repeat 0 after)%list.

Definition axis_step (before after : nat) (direction : float) : Vector.t :=
  floats (repeat 0%float before ++ direction :: repeat 0%float after)%list.

(** A segment whose displacement [(7,7,1,1)] has length [10]. *)
Definition seven_segment : VirtualVector.t :=
  VirtualVector.VirtualVector (ints [0; 0; 0; 0]) (ints [7; 7; 1; 1]).

(** A divider that rounds to integers, and a segment of length [10] none of
    whose points has integer coordinates. *)
Definition rounding_divider : VectorDivider.t :=
  VectorDivider.VectorDivider (PyNum.Int 1) Rounders.AccurateNumberRounder.

Definition quarter_segment : VirtualVector.t :=
  VirtualVector.VirtualVector (floats [0.25; 0]%float) (floats [10.25; 0]%float).

(** The line between [(0,0)] and [(3,0)] as its constructor leaves it. *)
Definition example_line : Line.t :=
  Line.Line Line._vector_divider_factory
    (VectorDivider.rounder Line._vector_divider_factory)
    (ints [0; 0]) (ints [3; 0])
    [floats [0; 0]; floats [1; 0]; floats [2; 0]; floats [3; 0]]%float.

(** A sequence of update cycles of a single-pack avatar, the heap of each
    cycle holding the position its unit has then. *)
Fixpoint update_cycles (heaps : list Heap) (self : object) : result object :=
  match heaps with
  | [] => Ok self
  | heap :: heaps' =>
      self' <- SingleResourcePackAvatar.update heap self ;;
      update_cycles heaps' self'
  end.

(** A heap whose units all stand at [(3,4)], and one whose units moved. *)
Definition example_heap : Heap := fun _ => {| position := ints [3; 4] |}.
Definition moved_heap : Heap := fun _ => {| position := ints [5; 12] |}.

Definition circle (n : nat) : Resource :=
  {| resource_type := "Circle"; resource_id := n |}.

(** Two sprites of max-stay [1] and [2] ticks. *)
Definition two_sprites : list Sprite.t :=
  [Sprite.Sprite (circle 0) 1; Sprite.Sprite (circle 1) 2].

(** An animation object with the attributes a working constructor would
    leave, at a given cursor and with given sprites. *)
Definition animation_state (cls : class_name) (unit : unit_ref)
    (index : Z) (sprites : list Sprite.t) : object :=
  Object cls
    (<["_sprites" := VSprites sprites]>
       (<["_current_sprite_index" := VInt index]>
          (<["_main_resource_pack" :=
               VPack (ResourcePack.ResourcePack (circle 0) (ints [0; 0]))]>
             (<["_unit" := VUnit unit]> ∅)))).

(** C1 as the spec states it, for the sprites above: the constructed
    animation is updated three times, still shows index [0] after the first
    update, reports finished after the third and fails on the fourth. *)
Definition animation_progression_as_stated (heap : Heap) (unit : unit_ref) : Prop :=
  exists a0 a1 a2 a3,
    CustomAnimation.__call__ heap CustomAnimation unit two_sprites = Ok a0
    /\ Animation.update heap a0 = Ok a1
    /\ Animation.current_sprite_index a1 = Ok 0
    /\ Animation.update heap a1 = Ok a2
    /\ Animation.update heap a2 = Ok a3
    /\ Animation.is_finished a3 = Ok true
    /\ Animation.update heap a3 = Raise AnimationAlreadyFinishedError.

(** The pack of an avatar built with [None] as its resource, as the spawner of
    the example script builds it. *)
Definition none_pack : ResourcePack.t :=
  ResourcePack.ResourcePack {| resource_type := "NoneType"; resource_id := 0 |}
    (ints [320; 240]).

(** The sum of two tuples of integers, coordinate by coordinate, the longer
    one keeping its further coordinates. *)
Fixpoint add_ints (xs ys : list Z) : list Z :=
  match xs, ys with
  | [], _ => ys
  | _, [] => xs
  | x :: xs', y :: ys' => (x + y) :: add_ints xs' ys'
  end.


(** A line with the divider of C6's example, its endpoints and its cache. *)
Definition plain_line (first second : Vector.t) (cache : list Vector.t) : Line.t :=
  Line.Line unit_divider identity_rounder first second cache.

(** A number whose addition to another such number needs no conversion that
    can fail: a float, or the integer [0] of the padding. *)
Definition float_or_zero (c : pynum) : Prop :=
  match c with
  | PyNum.Float _ => True
  | PyNum.Int z => z = 0
  end.

(** An evaluation that does not end with [AnimationAlreadyFinishedError]. *)
Definition never_finished_error {A : Type} (m : result A) : Prop :=
  forall e, m = Raise e -> e <> AnimationAlreadyFinishedError.

(** An avatar with an endless default animation (reference [0]) and a
    finite animation, finished, registered for the topic ["attack"]
    (reference [1]) and current. *)
Definition example_store : AnimationStore := fun ref =>
  match ref with
  | O => animation_state CustomEndlessAnimation 0%nat 0 two_sprites
  | _ => animation_state CustomAnimation 0%nat 1
           [with_real_stay_ticks (Sprite.Sprite (circle 0) 1) 0;
            with_real_stay_ticks (Sprite.Sprite (circle 1) 2) 0]
  end.

Definition example_topic_avatar : AnimationAvatar.t :=
  AnimationAvatar.AnimationAvatar 0%nat 0%nat 1%nat {["attack" := 1%nat]}.

(** The vertices of a drawing call that has a list of them. *)
Definition vertices (call : draw_call) : list (list pynum) :=
  match call with
  | draw_polygon _ points _ => points
  | draw_lines _ _ points _ | draw_aalines _ _ points _ => points
  | draw_line _ start finish _ | draw_aaline _ start finish _ => [start; finish]
  end.

(** A triangle given by its offsets. *)
Definition example_polygon : Primitives.Polygon :=
  {| Primitives.polygon_color := 0%nat;
     Primitives.polygon_points := map ints [[0; 0]; [4; 0]; [0; 3]];
     Primitives.polygon_border_width := 1 |}.

(** * Properties *)

(** ** The result monad *)

Lemma bind_Ok {A B : Type} (a : A) (k : A -> result B) : bind (Ok a) k = k a.
Proof. reflexivity. Qed.

Lemma map2M_comm {A B : Type} (f : A -> A -> result B) :
  (forall x y, f x y = f y x) ->
  forall xs ys, map2M f xs ys = map2M f ys xs.
Proof.
  intros Hf xs. induction xs as [|x xs IH]; intros [|y ys]; simpl; try reflexivity.
  rewrite Hf, IH. reflexivity.
Qed.

Lemma map2M_length {A B C : Type} (f : A -> B -> result C) :
  forall xs ys zs, map2M f xs ys = Ok zs ->
    List.length zs = Nat.min (List.length xs) (List.length ys).
Proof.
  induction xs as [|x xs IH]; intros [|y ys] zs; simpl; try (intros [= <-]; reflexivity).
  destruct (f x y) as [z|e]; simpl; [|discriminate].
  destruct (map2M f xs ys) as [zs'|e] eqn:E; simpl; [|discriminate].
  intros [= <-]. simpl. f_equal. apply IH. assumption.
Qed.

Lemma mapM_length {A B : Type} (f : A -> result B) :
  forall xs ys, mapM f xs = Ok ys -> List.length ys = List.length xs.
Proof.
  induction xs as [|x xs IH]; intros ys; simpl; [intros [= <-]; reflexivity|].
  destruct (f x) as [y|e]; simpl; [|discriminate].
  destruct (mapM f xs) as [ys'|e]; simpl; [|discriminate].
  intros [= <-]. simpl. f_equal. apply IH. reflexivity.
Qed.

Lemma mapM_Ok_iff {A B : Type} (f : A -> result B) :
  forall xs ys, mapM f xs = Ok ys <-> Forall2 (fun x y => f x = Ok y) xs ys.
Proof.
  induction xs as [|x xs IH]; intros ys; simpl.
  - split; [intros [= <-]; constructor | intros H; inversion H; reflexivity].
  - split.
    + destruct (f x) as [y|e] eqn:Ey; simpl; [|discriminate].
      destruct (mapM f xs) as [ys'|e] eqn:Eys; simpl; [|discriminate].
      intros [= <-]. constructor; [exact Ey | apply IH; reflexivity].
    + intros H. inversion H as [|? y ? ys' Hy Hys]; subst.
      rewrite Hy. simpl. apply IH in Hys. rewrite Hys. reflexivity.
Qed.

Lemma bind_Ok_inv {A B : Type} (m : result A) (k : A -> result B) (b : B) :
  bind m k = Ok b -> exists a, m = Ok a /\ k a = Ok b.
Proof. destruct m as [a|e]; simpl; [eauto | discriminate]. Qed.

(** ** Numbers *)

(** Binary64 addition does not depend on the order of its operands. *)
Lemma float_add_comm (x y : float) : PrimFloat.add x y = PrimFloat.add y x.
Proof.
  apply Prim2SF_inj. rewrite !add_spec. unfold SF64add, SFadd.
  destruct (Prim2SF x) as [[]|[]| |sx mx ex], (Prim2SF y) as [[]|[]| |sy my ey];
    try reflexivity.
  rewrite Z.min_comm, Z.add_comm. reflexivity.
Qed.

Lemma float_of_int_raises (z : Z) (e : exn) :
  PyNum.float_of_int z = Raise e -> e = OverflowError.
Proof.
  unfold PyNum.float_of_int.
  destruct (binary_normalize prec emax z 0 false); congruence.
Qed.

Lemma to_float_raises (x : pynum) (e : exn) :
  PyNum.to_float x = Raise e -> e = OverflowError.
Proof. destruct x; simpl; [apply float_of_int_raises | discriminate]. Qed.

Lemma pynum_add_comm (x y : pynum) : PyNum.add x y = PyNum.add y x.
Proof.
  assert (Hmixed : (a <- PyNum.to_float x ;; b <- PyNum.to_float y ;;
                    Ok (PyNum.Float (PrimFloat.add a b)))
                 = (a <- PyNum.to_float y ;; b <- PyNum.to_float x ;;
                    Ok (PyNum.Float (PrimFloat.add a b)))).
  { destruct (PyNum.to_float x) as [a|ea] eqn:Ex,
             (PyNum.to_float y) as [b|eb] eqn:Ey; simpl; try reflexivity.
    - rewrite float_add_comm. reflexivity.
    - rewrite (to_float_raises _ _ Ex), (to_float_raises _ _ Ey). reflexivity. }
  destruct x as [a|a], y as [b|b]; try exact Hmixed.
  simpl. rewrite Z.add_comm. reflexivity.
Qed.

(** ** Vector *)

Lemma normalized_to_maximum (a : Vector.t) (m : nat) :
  (List.length (Vector.coordinates a) <= m)%nat ->
  Vector.coordinates
    (Vector.get_normalized_to_measurements a (Z.of_nat m) (PyNum.Int 0))
  = padded_with_zeros m (Vector.coordinates a).
Proof.
  intros Hle. unfold Vector.get_normalized_to_measurements, Vector.__len__,
    padded_with_zeros. simpl.
  destruct (0 <? Z.of_nat m - Z.of_nat (List.length (Vector.coordinates a))) eqn:E.
  - do 2 f_equal. lia.
  - apply Z.ltb_ge in E.
    replace (m - List.length (Vector.coordinates a))%nat with 0%nat by lia.
    simpl. rewrite app_nil_r.
    destruct (0 <=? Z.of_nat m) eqn:E'; [|apply Z.leb_gt in E'; lia].
    rewrite Nat2Z.id. apply firstn_all2. lia.
Qed.

Lemma padded_length (n : nat) (cs : list pynum) :
  (List.length cs <= n)%nat -> List.length (padded_with_zeros n cs) = n.
Proof.
  intros H. unfold padded_with_zeros. rewrite length_app, repeat_length. lia.
Qed.

Lemma add_as_padded_sum (a b : Vector.t) :
  let n := Nat.max (List.length (Vector.coordinates a))
                   (List.length (Vector.coordinates b)) in
  Vector.__add__ a b =
    (cs <- map2M PyNum.add (padded_with_zeros n (Vector.coordinates a))
                           (padded_with_zeros n (Vector.coordinates b)) ;;
     Ok (Vector.Vector cs)).
Proof.
  intros n. unfold Vector.__add__, Vector.__len__.
  rewrite <- Nat2Z.inj_max. fold n.
  rewrite !normalized_to_maximum by (subst n; lia). reflexivity.
Qed.

(** The lengths of the spec's examples. *)
Example length_examples {libm : CLibrary} :
  Vector.length (ints [3; 4]) = Ok (PyNum.Float 5)
  /\ Vector.length (ints [0; 0; 0]) = Ok (PyNum.Float 0).
Proof. split; reflexivity. Qed.

(** C5: addition pads the shorter operand on the right with [0] up to the
    longer operand's length and then sums component by component: the two
    padded operands have the common length [max(len(a), len(b))], the sum is
    their component-wise sum, and a sum that is returned has that length; in
    particular [(1,2) + (1,2,3) = (2,4,3)]. *)
Theorem add_pads_the_shorter_operand :
  (forall a b : Vector.t,
     let n := Nat.max (List.length (Vector.coordinates a))
                      (List.length (Vector.coordinates b)) in
     List.length (padded_with_zeros n (Vector.coordinates a)) = n
     /\ List.length (padded_with_zeros n (Vector.coordinates b)) = n
     /\ Vector.__add__ a b =
          (cs <- map2M PyNum.add (padded_with_zeros n (Vector.coordinates a))
                                 (padded_with_zeros n (Vector.coordinates b)) ;;
           Ok (Vector.Vector cs))
     /\ (forall sum, Vector.__add__ a b = Ok sum ->
           List.length (Vector.coordinates sum) = n))
  /\ Vector.__add__ (ints [1; 2]) (ints [1; 2; 3]) = Ok (ints [2; 4; 3]).
Proof.
  split; [|reflexivity].
  intros a b n.
  assert (Ha : List.length (padded_with_zeros n (Vector.coordinates a)) = n)
    by (apply padded_length; subst n; lia).
  assert (Hb : List.length (padded_with_zeros n (Vector.coordinates b)) = n)
    by (apply padded_length; subst n; lia).
  repeat split; try assumption.
  - apply add_as_padded_sum.
  - intros sum. rewrite add_as_padded_sum. fold n.
    destruct (map2M _ _ _) as [cs|e] eqn:E; simpl; [|discriminate].
    intros [= <-]. simpl. apply map2M_length in E. rewrite E, Ha, Hb. lia.
Qed.

(** C10: addition of vectors is commutative, whatever the numbers of
    coordinates of the operands. *)
Theorem add_commutative (a b : Vector.t) :
  Vector.__add__ a b = Vector.__add__ b a.
Proof.
  unfold Vector.__add__. rewrite Z.max_comm.
  rewrite (map2M_comm _ pynum_add_comm). reflexivity.
Qed.

Lemma mapM_ext_in {A B : Type} (f g : A -> result B) (xs : list A) :
  (forall x, In x xs -> f x = g x) -> mapM f xs = mapM g xs.
Proof.
  induction xs as [|x xs IH]; intros H; simpl; [reflexivity|].
  rewrite (H x) by (left; reflexivity).
  rewrite IH by (intros y Hy; apply H; right; assumption). reflexivity.
Qed.

Lemma mapM_combine_snd {A B C : Type} (h : B -> result C) :
  forall (indexes : list A) (xs : list B), List.length indexes = List.length xs ->
    mapM (fun '(_, x) => h x) (combine indexes xs) = mapM h xs.
Proof.
  induction indexes as [|i indexes IH]; intros [|x xs] Hlen; simpl in *; try discriminate;
    [reflexivity|].
  rewrite IH by lia. reflexivity.
Qed.

Lemma range_length (n : nat) : List.length (Vector.range n) = n.
Proof. unfold Vector.range. rewrite length_map, length_seq. reflexivity. Qed.

(** A collection is left as it is by the membership tests, so each
    coordinate is tested against the same items. *)
Lemma reflect_each_collection (indexes : list Z) (items : list (Z * pynum)) :
  Vector.reflect_each (Collection indexes) items =
    mapM (fun '(coordinate_index, coordinate) =>
            PyNum.mul coordinate
              (PyNum.Int (if existsb (Z.eqb coordinate_index) indexes then -1 else 1)))
         items.
Proof.
  induction items as [|[i c] items IH]; simpl; [reflexivity|].
  rewrite IH. reflexivity.
Qed.

(** With no selected subset, reflection multiplies every coordinate by [-1]. *)
Lemma reflect_all (b : Vector.t) :
  Vector.get_reflected_by_coordinates b None =
    (cs <- mapM (fun coordinate => PyNum.mul coordinate (PyNum.Int (-1)))
                (Vector.coordinates b) ;;
     Ok (Vector.Vector cs)).
Proof.
  unfold Vector.get_reflected_by_coordinates, Vector.enumerate.
  rewrite reflect_each_collection.
  set (negate := fun coordinate => PyNum.mul coordinate (PyNum.Int (-1))).
  rewrite <- (mapM_combine_snd negate
                (Vector.range (List.length (Vector.coordinates b))))
    by apply range_length.
  f_equal. apply mapM_ext_in. intros [i c] Hin.
  apply in_combine_l in Hin.
  assert (existsb (Z.eqb i) (Vector.range (List.length (Vector.coordinates b))) = true)
    as ->; [|reflexivity].
  apply existsb_exists. exists i. split; [assumption | apply Z.eqb_refl].
Qed.

Lemma reflect_all_ints (zs : list Z) :
  Vector.get_reflected_by_coordinates (ints zs) None = Ok (ints (map Z.opp zs)).
Proof.
  rewrite reflect_all. unfold ints. simpl.
  assert (H : mapM (fun coordinate => PyNum.mul coordinate (PyNum.Int (-1)))
                (map PyNum.Int zs) = Ok (map PyNum.Int (map Z.opp zs))).
  { induction zs as [|z zs IH]; simpl; [reflexivity|].
    rewrite IH. simpl. do 3 f_equal. lia. }
  rewrite H. reflexivity.
Qed.

(** C7: subtraction is addition of the fully reflected second operand, and
    reflection with no selected subset negates every coordinate (it multiplies
    each by [-1], which on [int] coordinates is the opposite); in particular
    [(5,5) - (2,3) = (3,2) = (5,5) + (-2,-3)]. *)
Theorem sub_is_add_of_reflection :
  (forall a b : Vector.t,
     Vector.__sub__ a b =
       (reflected <- Vector.get_reflected_by_coordinates b None ;;
        Vector.__add__ a reflected))
  /\ (forall b : Vector.t,
        Vector.get_reflected_by_coordinates b None =
          (cs <- mapM (fun coordinate => PyNum.mul coordinate (PyNum.Int (-1)))
                      (Vector.coordinates b) ;;
           Ok (Vector.Vector cs)))
  /\ (forall zs : list Z,
        Vector.get_reflected_by_coordinates (ints zs) None = Ok (ints (map Z.opp zs)))
  /\ Vector.__sub__ (ints [5; 5]) (ints [2; 3]) = Ok (ints [3; 2])
  /\ Vector.__add__ (ints [5; 5]) (ints [-2; -3]) = Ok (ints [3; 2]).
Proof.
  split; [reflexivity|]. split; [exact reflect_all|].
  split; [exact reflect_all_ints|]. split; reflexivity.
Qed.

Lemma padded_cons (n : nat) (c : pynum) (cs : list pynum) :
  padded_with_zeros (S n) (c :: cs) = c :: padded_with_zeros n cs.
Proof. reflexivity. Qed.

Lemma map2M_add_ints :
  forall (xs ys : list Z) (n : nat),
    n = Nat.max (List.length xs) (List.length ys) ->
    map2M PyNum.add (padded_with_zeros n (map PyNum.Int xs))
                    (padded_with_zeros n (map PyNum.Int ys))
    = Ok (map PyNum.Int (add_ints xs ys)).
Proof.
  induction xs as [|x xs IH]; intros ys n Hn.
  - simpl in Hn. subst n. unfold padded_with_zeros. simpl.
    rewrite !length_map, Nat.sub_0_r, Nat.sub_diag. simpl. rewrite app_nil_r.
    induction ys as [|y ys IHy]; simpl; [reflexivity|].
    rewrite IHy. reflexivity.
  - destruct ys as [|y ys].
    + simpl in Hn. subst n. unfold padded_with_zeros. simpl.
      rewrite !length_map, Nat.sub_diag. simpl. rewrite app_nil_r.
      replace (x + 0) with x by lia.
      specialize (IH [] (List.length xs) ltac:(simpl; lia)).
      unfold padded_with_zeros in IH. simpl in IH.
      rewrite !length_map, Nat.sub_diag, Nat.sub_0_r in IH. simpl in IH.
      rewrite app_nil_r in IH. rewrite IH. simpl.
      destruct xs; reflexivity.
    + simpl in Hn. subst n. simpl map. rewrite !padded_cons. simpl.
      rewrite (IH ys _ eq_refl). reflexivity.
Qed.

(** On vectors of integers the sum is the coordinate-wise sum, exactly. *)
Lemma add_of_ints (xs ys : list Z) :
  Vector.__add__ (ints xs) (ints ys) = Ok (ints (add_ints xs ys)).
Proof.
  rewrite add_as_padded_sum. unfold ints. simpl. rewrite !length_map.
  rewrite (map2M_add_ints xs ys _ eq_refl). reflexivity.
Qed.

Lemma sub_of_ints (xs ys : list Z) :
  Vector.__sub__ (ints xs) (ints ys) = Ok (ints (add_ints xs (map Z.opp ys))).
Proof.
  unfold Vector.__sub__. rewrite reflect_all_ints. simpl. apply add_of_ints.
Qed.

(** ** VectorDivider *)

Lemma add_opposite_ints (zs : list Z) :
  Vector.__add__ (ints zs) (ints (map Z.opp zs)) = Ok (ints (map (fun _ => 0) zs)).
Proof.
  rewrite add_as_padded_sum. unfold ints, padded_with_zeros. simpl.
  rewrite !length_map, Nat.max_id, Nat.sub_diag. simpl. rewrite !app_nil_r.
  assert (H : map2M PyNum.add (map PyNum.Int zs) (map PyNum.Int (map Z.opp zs))
              = Ok (map PyNum.Int (map (fun _ => 0) zs))).
  { induction zs as [|z zs IH]; simpl; [reflexivity|].
    rewrite IH. simpl. do 3 f_equal. lia. }
  rewrite H. reflexivity.
Qed.

Lemma length_of_zeros {libm : CLibrary} (zs : list Z) :
  Vector.length (ints (map (fun _ => 0) zs)) = Ok (PyNum.Float 0).
Proof.
  unfold Vector.length, ints. simpl.
  assert (H : Vector.sum_of_squares (PyNum.Int 0)
                (map PyNum.Int (map (fun _ => 0) zs)) = Ok (PyNum.Int 0)).
  { induction zs as [|z zs IH]; simpl; [reflexivity | exact IH]. }
  rewrite H. reflexivity.
Qed.

(** A segment from a point with [int] coordinates to itself has a
    displacement of length [0]. *)
Lemma degenerate_segment_length {libm : CLibrary} (zs : list Z) :
  (value <- VirtualVector.value (VirtualVector.VirtualVector (ints zs) (ints zs)) ;;
   Vector.length value) = Ok (PyNum.Float 0).
Proof.
  unfold VirtualVector.value, Vector.__sub__. simpl.
  rewrite reflect_all_ints. simpl. rewrite add_opposite_ints. simpl.
  apply length_of_zeros.
Qed.

(** C3, on the code: for a segment whose displacement has length [0] the
    feasibility check does not return a failure report; formatting the
    message loads the unbound name [vector], so the check, and with it the
    call of the divider, raises [NameError], for any distance and rounder. *)
Theorem zero_length_check_raises_NameError {libm : CLibrary}
    (distance : pynum) (rounder : NumberRounder) (zs : list Z) :
  let divider := VectorDivider.VectorDivider distance rounder in
  let segment := VirtualVector.VirtualVector (ints zs) (ints zs) in
  VectorDivider.is_possible_to_divide divider segment = Raise (NameError "vector")
  /\ VectorDivider.__call__ divider segment = Raise (NameError "vector").
Proof.
  intros divider segment.
  assert (H : VectorDivider.is_possible_to_divide divider segment
              = Raise (NameError "vector")).
  { unfold VectorDivider.is_possible_to_divide. subst segment.
    pose proof (degenerate_segment_length zs) as Hlen.
    destruct (VirtualVector.value _) as [value|e]; simpl in *; [|discriminate].
    rewrite Hlen. reflexivity. }
  split; [exact H|].
  unfold VectorDivider.__call__, Divider.__call__. rewrite H. reflexivity.
Qed.

Lemma successive_points_spec (step : Vector.t) :
  forall count previous rest,
    successive_points count previous step = Ok rest ->
    List.length rest = count
    /\ forall i point, (i < count)%nat ->
         nth_error (previous :: rest) i = Some point ->
         exists next, nth_error (previous :: rest) (S i) = Some next
                      /\ Vector.__add__ point step = Ok next.
Proof.
  induction count as [|count IH]; intros previous rest; simpl.
  - intros [= <-]. split; [reflexivity | lia].
  - destruct (Vector.__add__ previous step) as [next|e] eqn:Hnext; simpl; [|discriminate].
    destruct (successive_points count next step) as [rest'|e] eqn:Hrest; simpl;
      [|discriminate].
    intros [= <-]. destruct (IH _ _ Hrest) as [Hlen Hchain].
    split; [simpl; lia|].
    intros [|i] point Hi; simpl.
    + intros [= <-]. exists next. split; [reflexivity | exact Hnext].
    + intros Hpoint. apply (Hchain i point); [lia | exact Hpoint].
Qed.

Lemma getitem_last {A : Type} (xs : list A) (x : A) :
  getitem (xs ++ [x]) (Z.of_nat (List.length xs)) = Ok x.
Proof.
  unfold getitem.
  assert (E : (Z.of_nat (List.length xs) <? 0) = false) by (apply Z.ltb_ge; lia).
  rewrite !E, Nat2Z.id, nth_error_app2, Nat.sub_diag by lia. reflexivity.
Qed.

(** The loop of [__create_points], which reads the last created point back
    by its index, appends the successive points. *)
Lemma create_points_loop_spec (step : Vector.t) :
  forall count created last,
    VectorDivider.create_points_loop
      (map (fun j => Z.of_nat (List.length created) + 1 + Z.of_nat j) (seq 0 count))
      step (created ++ [last])
    = (rest <- successive_points count last step ;; Ok (created ++ last :: rest)%list).
Proof.
  induction count as [|count IH]; intros created last.
  - reflexivity.
  - rewrite <- cons_seq, <- seq_shift. simpl. rewrite map_map.
    replace (Z.of_nat (List.length created) + 1 + Z.of_nat 0 - 1)
      with (Z.of_nat (List.length created)) by lia.
    rewrite getitem_last. simpl.
    destruct (Vector.__add__ last step) as [next|e]; simpl; [|reflexivity].
    rewrite (map_ext _ (fun j => Z.of_nat (List.length (created ++ [last])) + 1
                                  + Z.of_nat j)).
    + rewrite IH.
      destruct (successive_points count next step) as [rest|e]; simpl; [|reflexivity].
      rewrite <- app_assoc. reflexivity.
    + intros j. rewrite length_app. simpl. lia.
Qed.

Lemma create_points_spec (self : VectorDivider.t) (start_point : Vector.t)
    (number : pynum) (stop : Z) (step : Vector.t) :
  PyNum.to_int number = Ok stop ->
  VectorDivider.__create_points self start_point number step =
    (rest <- successive_points (Z.to_nat (stop - 1)) start_point step ;;
     mapM (fun point => Vector.get_rounded_by point (VectorDivider.rounder self))
          (start_point :: rest)).
Proof.
  intros Hstop. unfold VectorDivider.__create_points. rewrite Hstop. simpl.
  unfold VectorDivider.range.
  pose proof (create_points_loop_spec step (Z.to_nat (stop - 1)) [] start_point) as H.
  simpl in H.
  rewrite (map_ext _ (fun j => 1 + Z.of_nat j)) in H by (intros; lia).
  rewrite H.
  destruct (successive_points _ _ _); reflexivity.
Qed.

Lemma mapM_app {A B : Type} (f : A -> result B) (xs ys : list A) :
  mapM f (xs ++ ys) =
    (xs' <- mapM f xs ;; ys' <- mapM f ys ;; Ok (xs' ++ ys')%list).
Proof.
  induction xs as [|x xs IH]; simpl.
  - destruct (mapM f ys); reflexivity.
  - destruct (f x); simpl; [|reflexivity]. rewrite IH.
    destruct (mapM f xs); simpl; [|reflexivity].
    destruct (mapM f ys); reflexivity.
Qed.

Lemma mapM_repeat {A B : Type} (f : A -> result B) (x : A) (y : B) (n : nat) :
  f x = Ok y -> mapM f (repeat x n) = Ok (repeat y n).
Proof.
  intros H. induction n as [|n IH]; simpl; [reflexivity|].
  rewrite H, IH. reflexivity.
Qed.

Lemma add_then_sub_ints :
  forall xs ys : list Z, List.length xs = List.length ys ->
    add_ints (add_ints xs ys) (map Z.opp xs) = ys.
Proof.
  induction xs as [|x xs IH]; intros [|y ys] Hlen; simpl in *; try discriminate;
    [reflexivity|].
  f_equal; [lia | apply IH; lia].
Qed.

(** The squares of [0.0], [1.0] and [-1.0] are settled before the C library
    is called. *)
Lemma square_of_zero_and_units {libm : CLibrary} :
  PyNum.square (PyNum.Float 0) = Ok (PyNum.Float 0)
  /\ PyNum.square (PyNum.Float 1) = Ok (PyNum.Float 1)
  /\ PyNum.square (PyNum.Float (-1)) = Ok (PyNum.Float 1).
Proof. repeat split. Qed.

Lemma sum_of_squares_int_zeros {libm : CLibrary} (rest : list pynum) (acc : Z) :
  forall n,
    Vector.sum_of_squares (PyNum.Int acc) (repeat (PyNum.Int 0) n ++ rest)
    = Vector.sum_of_squares (PyNum.Int acc) rest.
Proof.
  induction n as [|n IH]; simpl; [reflexivity|].
  rewrite Z.add_0_r. exact IH.
Qed.

Lemma sum_of_squares_float_zeros {libm : CLibrary} (rest : list pynum) (acc : float) :
  PrimFloat.add acc 0 = acc ->
  forall n,
    Vector.sum_of_squares (PyNum.Float acc) (repeat (PyNum.Float 0) n ++ rest)
    = Vector.sum_of_squares (PyNum.Float acc) rest.
Proof.
  intros Hacc. induction n as [|n IH]; [reflexivity|].
  cbn [repeat app Vector.sum_of_squares].
  rewrite (proj1 square_of_zero_and_units), bind_Ok.
  cbn [PyNum.add PyNum.to_float]. rewrite !bind_Ok, Hacc. exact IH.
Qed.

(** Whatever the C library, a displacement of [10] along one axis has length
    [10], and the unit vector of the axis has length [1]. *)
Lemma axis_displacement_length {libm : CLibrary} (before after : nat) (d : Z) :
  d = 10 \/ d = -10 ->
  Vector.length (ints (axis_displacement before after d)) = Ok (PyNum.Float 10).
Proof.
  intros Hd. unfold Vector.length, ints, axis_displacement.
  cbn [Vector.coordinates]. rewrite map_app, map_repeat, sum_of_squares_int_zeros.
  cbn [map Vector.sum_of_squares PyNum.square PyNum.add]. rewrite !bind_Ok.
  rewrite map_repeat, <- (app_nil_r (repeat _ after)), sum_of_squares_int_zeros.
  destruct Hd as [-> | ->]; reflexivity.
Qed.

Lemma axis_step_length {libm : CLibrary} (before after : nat) (direction : float) :
  direction = 1%float \/ direction = (-1)%float ->
  Vector.length (axis_step before after direction) = Ok (PyNum.Float 1).
Proof.
  intros Hdirection.
  destruct square_of_zero_and_units as (Hzero & Hone & Hminus).
  assert (Hsquare : PyNum.square (PyNum.Float direction) = Ok (PyNum.Float 1))
    by (destruct Hdirection as [-> | ->]; assumption).
  assert (Htail : forall acc,
            PyNum.add acc (PyNum.Float 1) = Ok (PyNum.Float 1) ->
            Vector.sum_of_squares acc
              (PyNum.Float direction :: repeat (PyNum.Float 0) after)
            = Ok (PyNum.Float 1)).
  { intros acc Hacc. cbn [Vector.sum_of_squares].
    rewrite Hsquare, bind_Ok, Hacc, bind_Ok.
    rewrite <- (app_nil_r (repeat _ after)).
    rewrite (sum_of_squares_float_zeros [] 1%float eq_refl). reflexivity. }
  unfold Vector.length, axis_step, floats. cbn [Vector.coordinates].
  rewrite map_app, map_repeat. cbn [map]. rewrite map_repeat.
  destruct before as [|before].
  - cbn [repeat app]. rewrite (Htail (PyNum.Int 0) eq_refl). reflexivity.
  - cbn [repeat app Vector.sum_of_squares]. rewrite Hzero, bind_Ok.
    change (PyNum.add (PyNum.Int 0) (PyNum.Float 0)) with (Ok (PyNum.Float 0)).
    rewrite bind_Ok, (sum_of_squares_float_zeros _ 0%float eq_refl).
    rewrite (Htail (PyNum.Float 0) eq_refl). reflexivity.
Qed.

Lemma axis_step_computed (factor : pynum) (before after : nat) (d : Z) :
  factor = PyNum.Float 10 \/ factor = PyNum.Int 10 ->
  d = 10 \/ d = -10 ->
  mapM (fun coordinate => PyNum.truediv coordinate factor)
       (map PyNum.Int (axis_displacement before after d))
  = Ok (Vector.coordinates
          (axis_step before after (if d =? 10 then 1%float else (-1)%float))).
Proof.
  intros Hfactor Hd. unfold axis_displacement, axis_step, floats.
  cbn [Vector.coordinates].
  assert (Hzero : PyNum.truediv (PyNum.Int 0) factor = Ok (PyNum.Float 0))
    by (destruct Hfactor as [-> | ->]; reflexivity).
  assert (Hunit : PyNum.truediv (PyNum.Int d) factor
                  = Ok (PyNum.Float (if d =? 10 then 1%float else (-1)%float)))
    by (destruct Hfactor as [-> | ->], Hd as [-> | ->]; reflexivity).
  rewrite !map_app, !map_repeat, mapM_app. cbn [map mapM]. rewrite !map_repeat.
  rewrite !(mapM_repeat (fun coordinate => PyNum.truediv coordinate factor)
              (PyNum.Int 0) (PyNum.Float 0) _ Hzero), Hunit.
  reflexivity.
Qed.

(** The division as [_divide] computes it when the number of points it
    arrives at is [11]. *)
Lemma divide_into_eleven {libm : CLibrary}
    (self : VectorDivider.t) (vector : VirtualVector.t)
    (value : Vector.t) (factor : pynum) (step : list pynum) :
  VectorDivider.distance_between_points self = PyNum.Int 1
  \/ VectorDivider.distance_between_points self = PyNum.Float 1 ->
  VirtualVector.value vector = Ok value ->
  Vector.length value = Ok (PyNum.Float 10) ->
  VectorDivider.rounder self (PyNum.Float 10) = Ok factor ->
  mapM (fun coordinate => PyNum.truediv coordinate factor)
       (Vector.coordinates value) = Ok step ->
  Vector.length (Vector.Vector step) = Ok (PyNum.Float 1) ->
  VectorDivider._divide self vector =
    (rest <- successive_points 10 (VirtualVector.start_point vector)
               (Vector.Vector step) ;;
     mapM (rounded_point (VectorDivider.rounder self))
          (VirtualVector.start_point vector :: rest)).
Proof.
  intros Hdistance Hvalue Hlength Hfactor Hstep Hunit.
  assert (Hratio : PyNum.truediv (PyNum.Float 10)
                     (VectorDivider.distance_between_points self)
                   = Ok (PyNum.Float 10))
    by (destruct Hdistance as [-> | ->]; reflexivity).
  unfold VectorDivider._divide.
  rewrite Hvalue, bind_Ok, Hlength, bind_Ok, Hratio, bind_Ok, Hfactor, bind_Ok,
    Hstep, bind_Ok, Hunit, bind_Ok.
  change (PyNum.truediv (PyNum.Float 10) (PyNum.Float 1)) with (Ok (PyNum.Float 10)).
  rewrite bind_Ok.
  change (PyNum.add (PyNum.Float 10) (PyNum.Int 1)) with (Ok (PyNum.Float 11)).
  rewrite bind_Ok.
  change (PyNum.le_zero (PyNum.Float 11)) with false. cbv iota.
  change (PyNum.has_fraction (PyNum.Float 11)) with (Ok false).
  rewrite bind_Ok. cbv iota.
  apply (create_points_spec self _ (PyNum.Float 11) 11). reflexivity.
Qed.

(** The divider runs the division of a segment whose displacement has a
    length other than [0]. *)
Lemma call_runs_divide {libm : CLibrary}
    (self : VectorDivider.t) (vector : VirtualVector.t)
    (value : Vector.t) (length : pynum) :
  VirtualVector.value vector = Ok value ->
  Vector.length value = Ok length ->
  PyNum.eq_zero length = false ->
  VectorDivider.__call__ self vector = VectorDivider._divide self vector.
Proof.
  intros Hvalue Hlength Hzero.
  unfold VectorDivider.__call__, Divider.__call__,
    VectorDivider.is_possible_to_divide.
  rewrite Hvalue, bind_Ok, Hlength, bind_Ok, Hzero. reflexivity.
Qed.

(** C6, as the code has it: a segment whose displacement has length [10],
    divided with distance [1], yields [11] points when the step (each
    coordinate of the displacement divided by the rounded factor) has the
    computed length [1]: the points returned are the roundings, coordinate by
    coordinate, of the start point and of the [10] points that follow it,
    each the previous unrounded point plus the step. For a displacement of
    [10] along one coordinate axis, between points with [int] coordinates and
    with a rounder that leaves the factor [10], the step has that length
    whatever the C library. When the number of points computed from the
    length of the step has a fraction (or is not positive), the division
    raises [UnableToDivideVectorIntoPointsError]. *)
Theorem divide_length_ten_yields_eleven_points {libm : CLibrary} :
  (forall (self : VectorDivider.t) (vector : VirtualVector.t)
          (value : Vector.t) (factor : pynum) (step : list pynum),
     VectorDivider.distance_between_points self = PyNum.Int 1
     \/ VectorDivider.distance_between_points self = PyNum.Float 1 ->
     VirtualVector.value vector = Ok value ->
     Vector.length value = Ok (PyNum.Float 10) ->
     VectorDivider.rounder self (PyNum.Float 10) = Ok factor ->
     mapM (fun coordinate => PyNum.truediv coordinate factor)
          (Vector.coordinates value) = Ok step ->
     Vector.length (Vector.Vector step) = Ok (PyNum.Float 1) ->
     let start := VirtualVector.start_point vector in
     VectorDivider.__call__ self vector =
       (rest <- successive_points 10 start (Vector.Vector step) ;;
        mapM (rounded_point (VectorDivider.rounder self)) (start :: rest))
     /\ VectorDivider._divide self vector = VectorDivider.__call__ self vector
     /\ forall divided,
          VectorDivider.__call__ self vector = Ok divided ->
          List.length divided = 11%nat
          /\ exists unrounded,
               Forall2 (fun point rounded =>
                          mapM (VectorDivider.rounder self) (Vector.coordinates point)
                          = Ok (Vector.coordinates rounded))
                       unrounded divided
               /\ nth_error unrounded 0 = Some start
               /\ forall i point, (i < 10)%nat ->
                    nth_error unrounded i = Some point ->
                    exists next,
                      nth_error unrounded (S i) = Some next
                      /\ Vector.__add__ point (Vector.Vector step) = Ok next)
  /\ (forall (self : VectorDivider.t) (start : list Z) (before after : nat)
             (d : Z) (factor : pynum),
        VectorDivider.distance_between_points self = PyNum.Int 1
        \/ VectorDivider.distance_between_points self = PyNum.Float 1 ->
        VectorDivider.rounder self (PyNum.Float 10) = Ok factor ->
        factor = PyNum.Float 10 \/ factor = PyNum.Int 10 ->
        d = 10 \/ d = -10 ->
        List.length start = S (before + after) ->
        let vector :=
          VirtualVector.VirtualVector (ints start)
            (ints (add_ints start (axis_displacement before after d))) in
        let step := axis_step before after (if d =? 10 then 1%float else (-1)%float) in
        VirtualVector.value vector = Ok (ints (axis_displacement before after d))
        /\ Vector.length (ints (axis_displacement before after d))
           = Ok (PyNum.Float 10)
        /\ Vector.length step = Ok (PyNum.Float 1)
        /\ VectorDivider.__call__ self vector =
             (rest <- successive_points 10 (ints start) step ;;
              mapM (rounded_point (VectorDivider.rounder self)) (ints start :: rest)))
  /\ (forall (self : VectorDivider.t) (vector : VirtualVector.t)
             (value : Vector.t) (factor : pynum) (step : list pynum)
             (step_length number_of_points : pynum),
        VectorDivider.distance_between_points self = PyNum.Int 1
        \/ VectorDivider.distance_between_points self = PyNum.Float 1 ->
        VirtualVector.value vector = Ok value ->
        Vector.length value = Ok (PyNum.Float 10) ->
        VectorDivider.rounder self (PyNum.Float 10) = Ok factor ->
        mapM (fun coordinate => PyNum.truediv coordinate factor)
             (Vector.coordinates value) = Ok step ->
        Vector.length (Vector.Vector step) = Ok step_length ->
        (quotient <- PyNum.truediv (PyNum.Float 10) step_length ;;
         PyNum.add quotient (PyNum.Int 1)) = Ok number_of_points ->
        PyNum.le_zero number_of_points = true
        \/ PyNum.has_fraction number_of_points = Ok true ->
        VectorDivider.__call__ self vector =
          Raise (UnableToDivideVectorIntoPointsError
                   "Can't divide vector into points by segment")).
Proof.
  assert (Heleven :
    forall (self : VectorDivider.t) (vector : VirtualVector.t)
           (value : Vector.t) (factor : pynum) (step : list pynum),
      VectorDivider.distance_between_points self = PyNum.Int 1
      \/ VectorDivider.distance_between_points self = PyNum.Float 1 ->
      VirtualVector.value vector = Ok value ->
      Vector.length value = Ok (PyNum.Float 10) ->
      VectorDivider.rounder self (PyNum.Float 10) = Ok factor ->
      mapM (fun coordinate => PyNum.truediv coordinate factor)
           (Vector.coordinates value) = Ok step ->
      Vector.length (Vector.Vector step) = Ok (PyNum.Float 1) ->
      VectorDivider.__call__ self vector =
        (rest <- successive_points 10 (VirtualVector.start_point vector)
                   (Vector.Vector step) ;;
         mapM (rounded_point (VectorDivider.rounder self))
              (VirtualVector.start_point vector :: rest))).
  { intros self vector value factor step Hdistance Hvalue Hlength Hfactor Hstep Hunit.
    rewrite (call_runs_divide self vector value _ Hvalue Hlength eq_refl).
    apply (divide_into_eleven self vector value factor step); assumption. }
  split; [|split].
  - intros self vector value factor step Hdistance Hvalue Hlength Hfactor Hstep Hunit
      start.
    pose proof (Heleven self vector value factor step Hdistance Hvalue Hlength
                  Hfactor Hstep Hunit) as Hcall.
    fold start in Hcall.
    split; [exact Hcall|]. split.
    + symmetry. apply (call_runs_divide self vector value _ Hvalue Hlength eq_refl).
    + intros divided. rewrite Hcall. intros Hdivided.
      apply bind_Ok_inv in Hdivided as (rest & Hrest & Hrounded).
      destruct (successive_points_spec _ _ _ _ Hrest) as [Hlen Hchain].
      split.
      * apply mapM_length in Hrounded. rewrite Hrounded. simpl. lia.
      * exists (start :: rest). split; [|split; [reflexivity | exact Hchain]].
        apply mapM_Ok_iff in Hrounded.
        eapply Forall2_impl; [exact Hrounded|].
        intros point rounded. unfold rounded_point.
        destruct (mapM (VectorDivider.rounder self) (Vector.coordinates point))
          as [cs|e]; simpl; [|discriminate].
        intros [= <-]. reflexivity.
  - intros self start before after d factor Hdistance Hfactor Hten Hd Hstart
      vector step.
    assert (Hvalue : VirtualVector.value vector
                     = Ok (ints (axis_displacement before after d))).
    { unfold vector, VirtualVector.value. cbn [VirtualVector.end_point
        VirtualVector.start_point].
      rewrite sub_of_ints, add_then_sub_ints; [reflexivity|].
      unfold axis_displacement. rewrite length_app. simpl.
      rewrite !repeat_length. lia. }
    pose proof (axis_displacement_length before after d Hd) as Hlength.
    assert (Hunit : Vector.length step = Ok (PyNum.Float 1)).
    { apply axis_step_length. destruct Hd as [-> | ->]; [left | right]; reflexivity. }
    split; [exact Hvalue|]. split; [exact Hlength|]. split; [exact Hunit|].
    apply (Heleven self vector _ factor (Vector.coordinates step)
             Hdistance Hvalue Hlength Hfactor).
    + apply axis_step_computed; assumption.
    + exact Hunit.
  - intros self vector value factor step step_length number_of_points
      Hdistance Hvalue Hlength Hfactor Hstep Hstep_length Hnumber Hrefused.
    rewrite (call_runs_divide self vector value _ Hvalue Hlength eq_refl).
    assert (Hratio : PyNum.truediv (PyNum.Float 10)
                       (VectorDivider.distance_between_points self)
                     = Ok (PyNum.Float 10))
      by (destruct Hdistance as [-> | ->]; reflexivity).
    unfold VectorDivider._divide.
    rewrite Hvalue, bind_Ok, Hlength, bind_Ok, Hratio, bind_Ok, Hfactor, bind_Ok,
      Hstep, bind_Ok, Hstep_length, bind_Ok.
    destruct (PyNum.truediv (PyNum.Float 10) step_length) as [quotient|e];
      [|discriminate Hnumber].
    cbn [bind] in Hnumber. rewrite bind_Ok, Hnumber, bind_Ok.
    destruct (PyNum.le_zero number_of_points).
    + reflexivity.
    + destruct Hrefused as [Hrefused | Hrefused]; [discriminate Hrefused|].
      rewrite Hrefused. reflexivity.
Qed.

Lemma divide_length_ten_witness :
  VectorDivider.__call__ rounding_divider quarter_segment
  = Ok (map (fun x => ints [x; 0]) [0; 1; 2; 3; 4; 5; 6; 7; 8; 9; 10])
  /\ VectorDivider.__call__ unit_divider
       (VirtualVector.VirtualVector (ints [2; 5; 3]) (ints [2; -5; 3]))
     = Ok (ints [2; 5; 3]
           :: map (fun y => floats [2; y; 3]%float) [4; 3; 2; 1; 0; -1; -2; -3; -4; -5]%float)
  /\ VectorDivider.__call__ unit_divider seven_segment
     = Raise (UnableToDivideVectorIntoPointsError
                "Can't divide vector into points by segment").
Proof.
  destruct divide_length_ten_yields_eleven_points as (Heleven & Haxis & Hrefused).
  split; [|split].
  - destruct (Heleven rounding_divider quarter_segment
                (floats [10; 0]%float) (PyNum.Int 10) [PyNum.Float 1; PyNum.Float 0]
                (or_introl eq_refl) eq_refl eq_refl eq_refl eq_refl eq_refl)
      as (Hcall & _).
    rewrite Hcall. vm_compute. reflexivity.
  - destruct (Haxis unit_divider [2; 5; 3] 1%nat 1%nat (-10) (PyNum.Float 10)
                (or_introl eq_refl) eq_refl (or_introl eq_refl) (or_intror eq_refl)
                eq_refl)
      as (_ & _ & _ & Hcall).
    cbv zeta in Hcall. vm_compute add_ints in Hcall.
    rewrite Hcall. vm_compute. reflexivity.
  - apply (Hrefused unit_divider seven_segment (ints [7; 7; 1; 1]) (PyNum.Float 10)
             (map PyNum.Float [0x1.6666666666666p-1; 0x1.6666666666666p-1;
                               0x1.999999999999ap-4; 0x1.999999999999ap-4]%float)
             (PyNum.Float 0x1.fffffffffffffp-1)
             (PyNum.Float 0x1.6000000000001p+3));
      [ left; reflexivity | reflexivity | reflexivity | reflexivity | reflexivity
      | reflexivity | reflexivity | right; reflexivity ].
Defined.

(** C6 as stated fails: the displacement [(7,7,1,1)] has length [10], the
    rounder loses nothing, and the division into points one unit apart is
    refused. Each coordinate of the step, [0.7] and [0.1], is rounded to
    binary64, and the length of the step is computed as
    [0.9999999999999999] (with a correctly rounded [pow]), which gives
    [11.000000000000002] points. *)
Lemma divide_length_ten_fails :
  (value <- VirtualVector.value seven_segment ;; Vector.length value)
  = Ok (PyNum.Float 10)
  /\ VectorDivider.rounder unit_divider (PyNum.Float 10) = Ok (PyNum.Float 10)
  /\ (step <- mapM (fun coordinate => PyNum.truediv coordinate (PyNum.Float 10))
                (Vector.coordinates (ints [7; 7; 1; 1])) ;;
      step_length <- Vector.length (Vector.Vector step) ;;
      quotient <- PyNum.truediv (PyNum.Float 10) step_length ;;
      number_of_points <- PyNum.add quotient (PyNum.Int 1) ;;
      Ok (step_length, number_of_points))
     = Ok (PyNum.Float 0x1.fffffffffffffp-1, PyNum.Float 0x1.6000000000001p+3)
  /\ VectorDivider.__call__ unit_divider seven_segment
     = Raise (UnableToDivideVectorIntoPointsError
                "Can't divide vector into points by segment")
  /\ ~ exists points,
         VectorDivider.__call__ unit_divider seven_segment = Ok points
         /\ List.length points = 11%nat.
Proof.
  assert (Hcall : VectorDivider.__call__ unit_divider seven_segment
                  = Raise (UnableToDivideVectorIntoPointsError
                             "Can't divide vector into points by segment"))
    by (vm_compute; reflexivity).
  repeat split; try (vm_compute; reflexivity).
  intros (points & Hpoints & _). rewrite Hcall in Hpoints. discriminate Hpoints.
Qed.

(** The divider a line is built with, on the same segment. *)
Example default_divider_on_length_ten {libm : CLibrary} :
  VectorDivider.__call__ Line._vector_divider_factory ten_segment =
    Ok (map (fun x => floats [x; 0]) [0; 1; 2; 3; 4; 5; 6; 7; 8; 9; 10])%float.
Proof. vm_compute. reflexivity. Qed.

(** ** Line *)

(** C4: a setter recomputes the cache before it assigns: when the division
    of the old endpoints succeeds, the line after [first_point = new_point]
    (or [second_point = new_point]) has the new endpoint and, as cache, the
    discretization of the endpoints it had before, so a line whose cache was
    up to date keeps that cache unchanged; the next use of a setter is what
    recomputes the cache from the endpoint assigned here, as a reconstruction
    from the new endpoints does. *)
Theorem setter_caches_points_of_old_endpoints {libm : CLibrary}
    (line : Line.t) (new_point : Vector.t) (points : list Vector.t) :
  VectorDivider.__call__ (Line._vector_divider line)
    (VirtualVector.VirtualVector (Line.first_point line) (Line.second_point line))
  = Ok points ->
  (exists line',
     Line.set_first_point line new_point = Ok line'
     /\ Line.first_point line' = new_point
     /\ Line.second_point line' = Line.second_point line
     /\ Line._vector_divider line' = Line._vector_divider line
     /\ Line.all_available_points line' = points
     /\ forall other,
          Line.set_second_point line' other =
            (points' <- VectorDivider.__call__ (Line._vector_divider line)
                          (VirtualVector.VirtualVector new_point
                             (Line.second_point line)) ;;
             Ok (Line.Line (Line._vector_divider line) (Line._rounder line)
                   new_point other points')))
  /\ (exists line',
        Line.set_second_point line new_point = Ok line'
        /\ Line.first_point line' = Line.first_point line
        /\ Line.second_point line' = new_point
        /\ Line._vector_divider line' = Line._vector_divider line
        /\ Line.all_available_points line' = points
        /\ forall other,
             Line.set_first_point line' other =
               (points' <- VectorDivider.__call__ (Line._vector_divider line)
                             (VirtualVector.VirtualVector (Line.first_point line)
                                new_point) ;;
                Ok (Line.Line (Line._vector_divider line) (Line._rounder line)
                      other new_point points')))
  /\ (Line.all_available_points line = points ->
      forall line',
        Line.set_first_point line new_point = Ok line'
        \/ Line.set_second_point line new_point = Ok line' ->
        Line.all_available_points line' = Line.all_available_points line)
  /\ (forall first second,
        Line.__init__ first second =
          (points' <- VectorDivider.__call__ Line._vector_divider_factory
                        (VirtualVector.VirtualVector first second) ;;
           Ok (Line.Line Line._vector_divider_factory
                 (VectorDivider.rounder Line._vector_divider_factory)
                 first second points'))).
Proof.
  intros Hdivide.
  assert (Hfirst : Line.set_first_point line new_point =
            Ok (Line.Line (Line._vector_divider line) (Line._rounder line)
                  new_point (Line.second_point line) points)).
  { unfold Line.set_first_point, Line._update_all_available_points.
    rewrite Hdivide. reflexivity. }
  assert (Hsecond : Line.set_second_point line new_point =
            Ok (Line.Line (Line._vector_divider line) (Line._rounder line)
                  (Line.first_point line) new_point points)).
  { unfold Line.set_second_point, Line._update_all_available_points.
    rewrite Hdivide. reflexivity. }
  split; [|split; [|split]].
  - eexists. split; [exact Hfirst|]. do 4 (split; [reflexivity|]).
    intros other. unfold Line.set_second_point, Line._update_all_available_points.
    simpl.
    destruct (VectorDivider.__call__ (Line._vector_divider line)
                (VirtualVector.VirtualVector new_point (Line.second_point line)));
      reflexivity.
  - eexists. split; [exact Hsecond|]. do 4 (split; [reflexivity|]).
    intros other. unfold Line.set_first_point, Line._update_all_available_points.
    simpl.
    destruct (VectorDivider.__call__ (Line._vector_divider line)
                (VirtualVector.VirtualVector (Line.first_point line) new_point));
      reflexivity.
  - intros Hcache line' [H | H]; rewrite ?Hfirst, ?Hsecond in H;
      injection H as <-; simpl; symmetry; exact Hcache.
  - intros first second. unfold Line.__init__, Line._update_all_available_points.
    simpl.
    destruct (VectorDivider.__call__ Line._vector_divider_factory
                (VirtualVector.VirtualVector first second)); reflexivity.
Qed.

Lemma setter_caches_points_of_old_endpoints_witness :
  exists line',
    Line.set_first_point example_line (ints [3; 4]) = Ok line'
    /\ Line.first_point line' = ints [3; 4]
    /\ Line.all_available_points line'
       = [floats [0; 0]; floats [1; 0]; floats [2; 0]; floats [3; 0]]%float.
Proof.
  destruct (setter_caches_points_of_old_endpoints example_line (ints [3; 4])
              [floats [0; 0]; floats [1; 0]; floats [2; 0]; floats [3; 0]]%float)
    as [[line' (Hset & Hfirst & _ & _ & Hcache & _)] _].
  - vm_compute. reflexivity.
  - exists line'. repeat split; assumption.
Defined.

Example example_line_is_constructed {libm : CLibrary} :
  (line <- Line.__init__ (ints [0; 0]) (ints [3; 0]) ;;
   Ok (Line.first_point line, Line.second_point line, Line.all_available_points line))
  = Ok (Line.first_point example_line, Line.second_point example_line,
        Line.all_available_points example_line).
Proof. vm_compute. reflexivity. Qed.

(** The cache left by a setter is not the discretization of the endpoints the
    line has after it. *)
Example cache_is_one_mutation_behind {libm : CLibrary} :
  (line <- Line.set_first_point example_line (ints [3; 4]) ;;
   Ok (Line.first_point line, Line.second_point line, Line.all_available_points line))
  = Ok (ints [3; 4], ints [3; 0],
        [floats [0; 0]; floats [1; 0]; floats [2; 0]; floats [3; 0]]%float)
  /\ VectorDivider.__call__ Line._vector_divider_factory
       (VirtualVector.VirtualVector (ints [3; 4]) (ints [3; 0]))
     = Ok [floats [3; 4]; floats [3; 3]; floats [3; 2]; floats [3; 1];
           floats [3; 0]]%float.
Proof. split; vm_compute; reflexivity. Qed.

(** ** Objects *)

Lemma getattr_setattr_eq (self : object) (name : string) (v : value) :
  getattr (setattr self name v) name = Ok v.
Proof. unfold getattr, setattr. simpl. rewrite lookup_insert_eq. reflexivity. Qed.

Lemma getattr_setattr_ne (self : object) (name name' : string) (v : value) :
  name <> name' -> getattr (setattr self name v) name' = getattr self name'.
Proof.
  intros Hne. unfold getattr, setattr. simpl.
  rewrite lookup_insert_ne by exact Hne. reflexivity.
Qed.

(** ** Single-pack avatars *)

Lemma update_sets_point (heap : Heap) (self : object) (unit : unit_ref)
    (pack : ResourcePack.t) :
  getattr self "_unit" = Ok (VUnit unit) ->
  getattr self "_main_resource_pack" = Ok (VPack pack) ->
  SingleResourcePackAvatar.update heap self =
    Ok (setattr self "_main_resource_pack"
          (VPack (ResourcePack.ResourcePack (ResourcePack.resource pack)
                    (position (heap unit))))).
Proof.
  intros Hunit Hpack.
  unfold SingleResourcePackAvatar.update, unit_position, Avatar.unit,
    SingleResourcePackAvatar.main_resource_pack.
  rewrite Hunit, Hpack. reflexivity.
Qed.

Lemma update_cycles_point (unit : unit_ref) :
  forall heaps heap self pack,
    getattr self "_unit" = Ok (VUnit unit) ->
    getattr self "_main_resource_pack" = Ok (VPack pack) ->
    exists self',
      update_cycles (heaps ++ [heap]) self = Ok self'
      /\ getattr self' "_unit" = Ok (VUnit unit)
      /\ getattr self' "_main_resource_pack" =
           Ok (VPack (ResourcePack.ResourcePack (ResourcePack.resource pack)
                        (position (heap unit)))).
Proof.
  induction heaps as [|first heaps IH]; intros heap self pack Hunit Hpack; simpl.
  - rewrite (update_sets_point _ _ _ _ Hunit Hpack). simpl.
    eexists. split; [reflexivity|]. split.
    + rewrite getattr_setattr_ne by discriminate. exact Hunit.
    + apply getattr_setattr_eq.
  - rewrite (update_sets_point _ _ _ _ Hunit Hpack). simpl.
    apply (IH heap _ (ResourcePack.ResourcePack (ResourcePack.resource pack)
                        (position (first unit)))).
    + rewrite getattr_setattr_ne by discriminate. exact Hunit.
    + apply getattr_setattr_eq.
Qed.

(** C8: an update of a single-pack avatar assigns the position its unit has
    at that time to the point of its pack and leaves the resource as it was,
    so after each cycle of a sequence of updates the point is the position of
    the unit in that cycle; a primitive avatar is built with such a pack and
    uses this update. *)
Theorem update_synchronizes_pack_point :
  (forall (heap : Heap) (self : object) (unit : unit_ref) (pack : ResourcePack.t),
     getattr self "_unit" = Ok (VUnit unit) ->
     getattr self "_main_resource_pack" = Ok (VPack pack) ->
     exists self',
       SingleResourcePackAvatar.update heap self = Ok self'
       /\ class self' = class self
       /\ getattr self' "_unit" = Ok (VUnit unit)
       /\ SingleResourcePackAvatar.main_resource_pack self' =
            Ok (ResourcePack.ResourcePack (ResourcePack.resource pack)
                  (position (heap unit))))
  /\ (forall (heaps : list Heap) (heap : Heap) (self : object) (unit : unit_ref)
             (pack : ResourcePack.t),
        getattr self "_unit" = Ok (VUnit unit) ->
        getattr self "_main_resource_pack" = Ok (VPack pack) ->
        exists self',
          update_cycles (heaps ++ [heap]) self = Ok self'
          /\ SingleResourcePackAvatar.main_resource_pack self' =
               Ok (ResourcePack.ResourcePack (ResourcePack.resource pack)
                     (position (heap unit))))
  /\ (forall (heap : Heap) (unit : unit_ref) (resource : Resource),
        exists avatar,
          PrimitiveAvatar.__call__ heap unit resource = Ok avatar
          /\ class avatar = PrimitiveAvatar
          /\ getattr avatar "_unit" = Ok (VUnit unit)
          /\ getattr avatar "_main_resource_pack" =
               Ok (VPack (ResourcePack.ResourcePack resource (position (heap unit)))))
  /\ resolve PrimitiveAvatar "update" = Some SingleResourcePackAvatar
  /\ resolve ResourceAvatar "update" = Some SingleResourcePackAvatar.
Proof.
  split; [|split; [|split; [|split; reflexivity]]].
  - intros heap self unit pack Hunit Hpack.
    rewrite (update_sets_point _ _ _ _ Hunit Hpack).
    eexists. split; [reflexivity|]. split; [reflexivity|]. split.
    + rewrite getattr_setattr_ne by discriminate. exact Hunit.
    + unfold SingleResourcePackAvatar.main_resource_pack.
      rewrite getattr_setattr_eq. reflexivity.
  - intros heaps heap self unit pack Hunit Hpack.
    destruct (update_cycles_point unit heaps heap self pack Hunit Hpack)
      as (self' & Hcycles & _ & Hpoint).
    exists self'. split; [exact Hcycles|].
    unfold SingleResourcePackAvatar.main_resource_pack. rewrite Hpoint. reflexivity.
  - intros heap unit resource. eexists. split; [reflexivity|].
    split; [reflexivity|]. split; reflexivity.
Qed.

Lemma update_synchronizes_pack_point_witness :
  exists avatar avatar',
    PrimitiveAvatar.__call__ example_heap 0%nat (circle 7) = Ok avatar
    /\ update_cycles [example_heap; moved_heap] avatar = Ok avatar'
    /\ SingleResourcePackAvatar.main_resource_pack avatar' =
         Ok (ResourcePack.ResourcePack (circle 7) (ints [5; 12])).
Proof.
  destruct update_synchronizes_pack_point as (_ & Hcycles & Hnew & _).
  destruct (Hnew example_heap 0%nat (circle 7)) as (avatar & Hcall & _ & Hunit & Hpack).
  destruct (Hcycles [example_heap] moved_heap avatar 0%nat _ Hunit Hpack)
    as (avatar' & Hupdates & Hpoint).
  exists avatar, avatar'. split; [exact Hcall|]. split; [exact Hupdates | exact Hpoint].
Defined.

(** ** Animations *)

(** No class defines the name that [self.__current_sprite_index] stands for
    in the body of [Animation]. *)
Lemma mangled_index_undefined (c : class_name) :
  mangle Animation "__current_sprite_index" = "_Animation__current_sprite_index"
  /\ find_member (mro c) "_Animation__current_sprite_index" = None.
Proof. split; [reflexivity | destruct c; reflexivity]. Qed.

Lemma update_main_resource_pack_raises (heap : Heap) (self : object)
    (sprites : list Sprite.t) :
  getattr self "_sprites" = Ok (VSprites sprites) ->
  attributes self !! "_Animation__current_sprite_index" = None ->
  Animation._update_main_resource_pack heap self
  = Raise (AttributeError "_Animation__current_sprite_index").
Proof.
  intros Hsprites Hnone.
  unfold Animation._update_main_resource_pack, Animation.sprites.
  rewrite Hsprites, bind_Ok, bind_Ok.
  destruct (mangled_index_undefined (class self)) as [-> Hclass].
  unfold getattr. rewrite Hnone, Hclass. reflexivity.
Qed.

(** C2, as the code has it: constructing a [CustomAnimation] or a
    [CustomEndlessAnimation] fails before any update can run, for every unit
    and sprites. The class is abstract ([render_resource] of [IAvatar] is
    implemented nowhere above it), so the instantiation raises [TypeError];
    and the constructor itself, run on a fresh instance, raises
    [AttributeError]: [_update_main_resource_pack], called by the constructor
    of [Animation], reads [_sprites] before the constructor of
    [CustomAnimation] assigns it, and then reads the private name
    [__current_sprite_index], which no class defines. *)
Theorem custom_animation_construction_fails
    (heap : Heap) (cls : class_name) (unit : unit_ref) (sprites : list Sprite.t) :
  cls = CustomAnimation \/ cls = CustomEndlessAnimation ->
  abstractmethods cls = ["render_resource"]
  /\ CustomAnimation.__call__ heap cls unit sprites =
       Raise (TypeError ("Can't instantiate abstract class " ++ class_name_string cls))
  /\ resolve cls "__init__" = Some CustomAnimation
  /\ CustomAnimation.__init__ heap (Object cls ∅) unit sprites =
       Raise (AttributeError "_sprites")
  /\ (forall (self : object) (assigned : list Sprite.t),
        getattr self "_sprites" = Ok (VSprites assigned) ->
        attributes self !! "_Animation__current_sprite_index" = None ->
        Animation._update_main_resource_pack heap self =
          Raise (AttributeError "_Animation__current_sprite_index")).
Proof.
  intros Hcls.
  assert (Hlast : forall (self : object) (assigned : list Sprite.t),
            getattr self "_sprites" = Ok (VSprites assigned) ->
            attributes self !! "_Animation__current_sprite_index" = None ->
            Animation._update_main_resource_pack heap self =
              Raise (AttributeError "_Animation__current_sprite_index"))
    by (intros self assigned; apply update_main_resource_pack_raises).
  destruct Hcls as [-> | ->]; repeat split; try reflexivity; exact Hlast.
Qed.

Lemma custom_animation_construction_fails_witness :
  CustomAnimation.__call__ example_heap CustomEndlessAnimation 0%nat two_sprites =
    Raise (TypeError "Can't instantiate abstract class CustomEndlessAnimation")
  /\ CustomAnimation.__init__ example_heap (Object CustomEndlessAnimation ∅)
       0%nat two_sprites = Raise (AttributeError "_sprites").
Proof.
  destruct (custom_animation_construction_fails example_heap CustomEndlessAnimation
              0%nat two_sprites (or_intror eq_refl))
    as (_ & Hcall & _ & Hinit & _).
  split; [exact Hcall | exact Hinit].
Defined.

(** C2 as stated fails: the construction of a [CustomAnimation] does not
    raise an [AttributeError]. *)
Lemma construction_error_is_not_AttributeError :
  ~ exists attribute,
      CustomAnimation.__call__ example_heap CustomAnimation 0%nat two_sprites
      = Raise (AttributeError attribute).
Proof. intros [attribute H]. vm_compute in H. discriminate H. Qed.

(** C1, on the code: the progression the claim describes does not take
    place. [CustomAnimation(unit, sprites)] for the two sprites of max-stay
    [1] and [2] raises [TypeError], the class leaving [render_resource]
    abstract, so there is no animation to update; and an object given by hand
    the attributes a working constructor would leave fails its first update
    with [AttributeError]: [_update_main_resource_pack] reads the private name
    [__current_sprite_index], which no class defines, where the class defines
    [_current_sprite_index]. The finish handler that is to refuse the fourth
    update is the one a [CustomAnimation] resolves to. *)
Theorem animation_progression_fails :
  CustomAnimation.__call__ example_heap CustomAnimation 0%nat two_sprites
  = Raise (TypeError "Can't instantiate abstract class CustomAnimation")
  /\ ~ animation_progression_as_stated example_heap 0%nat
  /\ Animation.update example_heap (animation_state CustomAnimation 0%nat 0 two_sprites)
     = Raise (AttributeError "_Animation__current_sprite_index")
  /\ find_member (mro CustomAnimation) "_current_sprite_index"
     = Some (Animation, ClassAttribute (VInt 0))
  /\ find_member (mro CustomAnimation) "_Animation__current_sprite_index" = None
  /\ resolve CustomAnimation "_handle_finish" = Some Animation.
Proof.
  split; [reflexivity|]. split; [|split; [vm_compute; reflexivity|]].
  - intros (a0 & a1 & a2 & a3 & Hnew & _). vm_compute in Hnew. discriminate Hnew.
  - repeat split.
Qed.

(** Where the private index is supplied by hand, the first update of a
    sprite of max-stay [1] already moves the cursor to index [1], and after
    three updates [is_finished] reads past the last sprite. *)
Example progression_with_private_index_supplied :
  let supplied self index :=
    setattr self "_Animation__current_sprite_index" (VInt index) in
  let first :=
    Animation.update example_heap
      (supplied (animation_state CustomAnimation 0%nat 0 two_sprites) 0) in
  (a1 <- first ;; Animation.current_sprite_index a1) = Ok 1
  /\ (a1 <- first ;;
      a2 <- Animation.update example_heap (supplied a1 1) ;;
      a3 <- Animation.update example_heap a2 ;;
      Animation.current_sprite_index a3) = Ok 2
  /\ (a1 <- first ;;
      a2 <- Animation.update example_heap (supplied a1 1) ;;
      a3 <- Animation.update example_heap a2 ;;
      Animation.is_finished a3) = Raise IndexError.
Proof. repeat split; vm_compute; reflexivity. Qed.

(** ** Render dispatch *)

Lemma unregistered_type_has_no_routine (type_name : string) :
  ~ In type_name ("Surface" :: Render.graphics_primitives) ->
  Render.routines_for PygameSurfaceRender.resource_handlers type_name = [].
Proof.
  intros Hnot. unfold Render.routines_for, PygameSurfaceRender.resource_handlers.
  cbn [List.filter PygameSurfaceRender.supported_resource_type].
  repeat match goal with
  | |- context [String.eqb ?registered type_name] =>
      destruct (String.eqb_spec registered type_name) as [Heq | _];
      [exfalso; apply Hnot; rewrite <- Heq; simpl; tauto |]
  end.
  reflexivity.
Qed.

(** C9: the adapter registers exactly one drawing routine for each primitive
    type of the graphics-resource set and for the raw host surface, and no
    other type; presenting a pack whose resource type has no registered
    routine fails with a not-found error. *)
Theorem every_primitive_has_exactly_one_routine :
  (forall type_name,
     In type_name ("Surface" :: Render.graphics_primitives) ->
     exists routine,
       Render.routines_for PygameSurfaceRender.resource_handlers type_name = [routine])
  /\ map PygameSurfaceRender.supported_resource_type
       PygameSurfaceRender.resource_handlers
     = "Surface" :: Render.graphics_primitives
  /\ (forall pack : ResourcePack.t,
        Render.routines_for PygameSurfaceRender.resource_handlers
          (resource_type (ResourcePack.resource pack)) = [] ->
        Render.draw_resource_pack PygameSurfaceRender.resource_handlers pack
        = Raise (NotFoundError (resource_type (ResourcePack.resource pack))))
  /\ (forall pack : ResourcePack.t,
        ~ In (resource_type (ResourcePack.resource pack))
             ("Surface" :: Render.graphics_primitives) ->
        Render.draw_resource_pack PygameSurfaceRender.resource_handlers pack
        = Raise (NotFoundError (resource_type (ResourcePack.resource pack)))).
Proof.
  assert (Hnone : forall pack : ResourcePack.t,
            Render.routines_for PygameSurfaceRender.resource_handlers
              (resource_type (ResourcePack.resource pack)) = [] ->
            Render.draw_resource_pack PygameSurfaceRender.resource_handlers pack
            = Raise (NotFoundError (resource_type (ResourcePack.resource pack)))).
  { intros pack Hempty. unfold Render.draw_resource_pack. rewrite Hempty. reflexivity. }
  split; [|split; [reflexivity | split; [exact Hnone|]]].
  - intros type_name Hin. simpl in Hin.
    repeat (destruct Hin as [<- | Hin]; [eexists; reflexivity|]).
    contradiction.
  - intros pack Hnot. apply Hnone, unregistered_type_has_no_routine, Hnot.
Qed.

Lemma every_primitive_has_exactly_one_routine_witness :
  (exists routine,
     Render.routines_for PygameSurfaceRender.resource_handlers "Circle" = [routine])
  /\ Render.draw_resource_pack PygameSurfaceRender.resource_handlers none_pack
     = Raise (NotFoundError "NoneType").
Proof.
  destruct every_primitive_has_exactly_one_routine as (Hone & _ & Hnone & _).
  split.
  - apply Hone. simpl. tauto.
  - apply Hnone. reflexivity.
Defined.

(** * Further properties of the code *)

(** ** Vector: normalization *)

Lemma firstn_repeat {A : Type} (x : A) (k n : nat) :
  firstn k (repeat x n) = repeat x (Nat.min k n).
Proof.
  revert n. induction k as [|k IH]; intros [|n]; simpl; try reflexivity.
  rewrite IH. reflexivity.
Qed.

(** In both of its branches the normalization is the cut, at the requested
    number of coordinates, of the coordinates followed by defaults. *)
Lemma normalized_closed_form (v : Vector.t) (n : Z) (default : pynum) :
  Vector.coordinates (Vector.get_normalized_to_measurements v n default)
  = firstn (Z.to_nat n)
      (Vector.coordinates v
         ++ repeat default (Z.to_nat n - List.length (Vector.coordinates v))).
Proof.
  unfold Vector.get_normalized_to_measurements, Vector.__len__. simpl.
  destruct (0 <? n - Z.of_nat (List.length (Vector.coordinates v))) eqn:E.
  - apply Z.ltb_lt in E. rewrite firstn_all2.
    + do 2 f_equal. lia.
    + rewrite length_app, repeat_length. lia.
  - apply Z.ltb_ge in E.
    replace (Z.to_nat n - List.length (Vector.coordinates v))%nat with 0%nat by lia.
    simpl. rewrite app_nil_r.
    destruct (0 <=? n) eqn:E'; [reflexivity|].
    apply Z.leb_gt in E'. replace (Z.to_nat n) with 0%nat by lia. reflexivity.
Qed.

(** X1: normalizing to [n] measurements gives exactly [n] coordinates (none
    when [n] is negative): the coordinates the vector has at the positions
    below [n], and the default at the positions from its length on. *)
Theorem normalized_has_requested_measurements
    (v : Vector.t) (n : Z) (default : pynum) :
  let normalized := Vector.coordinates
                      (Vector.get_normalized_to_measurements v n default) in
  List.length normalized = Z.to_nat n
  /\ (forall i, (i < Z.to_nat n)%nat ->
        (i < List.length (Vector.coordinates v))%nat ->
        nth_error normalized i = nth_error (Vector.coordinates v) i)
  /\ (forall i, (i < Z.to_nat n)%nat ->
        (List.length (Vector.coordinates v) <= i)%nat ->
        nth_error normalized i = Some default).
Proof.
  intros normalized. subst normalized. rewrite normalized_closed_form.
  set (cs := Vector.coordinates v). split; [|split].
  - rewrite length_firstn, length_app, repeat_length. lia.
  - intros i Hn Hlen. rewrite nth_error_firstn.
    destruct (Nat.ltb_spec i (Z.to_nat n)); [|lia].
    apply nth_error_app1. exact Hlen.
  - intros i Hn Hlen. rewrite nth_error_firstn.
    destruct (Nat.ltb_spec i (Z.to_nat n)); [|lia].
    rewrite nth_error_app2 by exact Hlen.
    apply nth_error_repeat. lia.
Qed.

Lemma normalized_has_requested_measurements_witness :
  nth_error (Vector.coordinates
               (Vector.get_normalized_to_measurements (ints [1; 2]) 4 (PyNum.Int 9)))
            3 = Some (PyNum.Int 9).
Proof.
  apply (proj2 (proj2 (normalized_has_requested_measurements
                         (ints [1; 2]) 4 (PyNum.Int 9)))); simpl; lia.
Defined.

(** X2: normalizing to a number of measurements and then to a smaller one is
    normalizing to the smaller one, and normalizing a vector to the number of
    coordinates it has returns it. *)
Theorem normalization_composes (v : Vector.t) (n m : Z) (default : pynum) :
  m <= n ->
  Vector.get_normalized_to_measurements
    (Vector.get_normalized_to_measurements v n default) m default
  = Vector.get_normalized_to_measurements v m default
  /\ Vector.get_normalized_to_measurements v (Vector.__len__ v) default = v.
Proof.
  intros Hle. split.
  - pose proof (normalized_closed_form
                  (Vector.get_normalized_to_measurements v n default) m default) as H1.
    pose proof (normalized_closed_form v m default) as H2.
    pose proof (normalized_has_requested_measurements v n default) as [Hlen _].
    cbv zeta in Hlen. rewrite Hlen in H1.
    replace (Z.to_nat m - Z.to_nat n)%nat with 0%nat in H1 by lia.
    change (repeat default 0) with (@nil pynum) in H1.
    rewrite app_nil_r, (normalized_closed_form v n default) in H1.
    rewrite firstn_firstn in H1.
    replace (Nat.min (Z.to_nat m) (Z.to_nat n)) with (Z.to_nat m) in H1 by lia.
    rewrite firstn_app, firstn_repeat in H1. rewrite firstn_app, firstn_repeat in H2.
    replace (Nat.min (Z.to_nat m - List.length (Vector.coordinates v))
               (Z.to_nat n - List.length (Vector.coordinates v)))
      with (Z.to_nat m - List.length (Vector.coordinates v))%nat in H1 by lia.
    rewrite Nat.min_id in H2.
    destruct (Vector.get_normalized_to_measurements
                (Vector.get_normalized_to_measurements v n default) m default) as [cs1].
    destruct (Vector.get_normalized_to_measurements v m default) as [cs2].
    simpl in *. congruence.
  - pose proof (normalized_closed_form v (Vector.__len__ v) default) as H.
    unfold Vector.__len__ in *. rewrite Nat2Z.id, Nat.sub_diag in H.
    change (repeat default 0) with (@nil pynum) in H.
    rewrite app_nil_r, firstn_all in H.
    destruct (Vector.get_normalized_to_measurements v _ default) as [cs].
    destruct v as [cv]. simpl in *. congruence.
Qed.

Lemma normalization_composes_witness :
  Vector.get_normalized_to_measurements
    (Vector.get_normalized_to_measurements (ints [1; 2]) 4 (PyNum.Int 9)) 3
    (PyNum.Int 9)
  = ints [1; 2; 9].
Proof.
  rewrite (proj1 (normalization_composes (ints [1; 2]) 4 3 (PyNum.Int 9)
                    ltac:(lia))).
  reflexivity.
Defined.

(** ** Vector: addition, reflection and subtraction *)

Lemma add_ints_nil_r (xs : list Z) : add_ints xs [] = xs.
Proof. destruct xs; reflexivity. Qed.

Lemma add_ints_assoc :
  forall xs ys zs, add_ints (add_ints xs ys) zs = add_ints xs (add_ints ys zs).
Proof.
  induction xs as [|x xs IH]; intros [|y ys] [|z zs]; simpl; try reflexivity.
  rewrite IH. f_equal. lia.
Qed.

Lemma add_ints_length :
  forall xs ys,
    List.length (add_ints xs ys) = Nat.max (List.length xs) (List.length ys).
Proof.
  induction xs as [|x xs IH]; intros [|y ys]; simpl; try reflexivity.
  rewrite IH. reflexivity.
Qed.

(** X3: on vectors with [int] coordinates addition always returns, is
    associative whatever the numbers of coordinates, and the vector without
    coordinates is neutral on both sides. *)
Theorem add_of_int_vectors_is_a_monoid (xs ys zs : list Z) :
  (exists sum, Vector.__add__ (ints xs) (ints ys) = Ok (ints sum)
               /\ List.length sum = Nat.max (List.length xs) (List.length ys))
  /\ (left_sum <- Vector.__add__ (ints xs) (ints ys) ;;
      Vector.__add__ left_sum (ints zs))
     = (right_sum <- Vector.__add__ (ints ys) (ints zs) ;;
        Vector.__add__ (ints xs) right_sum)
  /\ Vector.__add__ (ints xs) (Vector.Vector []) = Ok (ints xs)
  /\ Vector.__add__ (Vector.Vector []) (ints xs) = Ok (ints xs).
Proof.
  split; [|split; [|split]].
  - exists (add_ints xs ys). split; [apply add_of_ints | apply add_ints_length].
  - rewrite !add_of_ints. simpl. rewrite !add_of_ints, add_ints_assoc. reflexivity.
  - change (Vector.Vector []) with (ints []). rewrite add_of_ints, add_ints_nil_r.
    reflexivity.
  - change (Vector.Vector []) with (ints []). rewrite add_of_ints. reflexivity.
Qed.











Lemma pynum_add_raises (x y : pynum) (e : exn) :
  PyNum.add x y = Raise e -> e = OverflowError.
Proof.
  destruct x as [a|a], y as [b|b]; simpl; try discriminate.
  - destruct (PyNum.float_of_int a) eqn:E; simpl; [discriminate|].
    intros [= <-]. apply (float_of_int_raises _ _ E).
  - destruct (PyNum.float_of_int b) eqn:E; simpl; [discriminate|].
    intros [= <-]. apply (float_of_int_raises _ _ E).
Qed.

Lemma map2M_raises {A B C : Type} (f : A -> B -> result C) (expected : exn) :
  (forall x y e, f x y = Raise e -> e = expected) ->
  forall xs ys e, map2M f xs ys = Raise e -> e = expected.
Proof.
  intros Hf. induction xs as [|x xs IH]; intros [|y ys] e; simpl; try discriminate.
  destruct (f x y) as [z|e'] eqn:E; simpl.
  - destruct (map2M f xs ys) as [zs|e''] eqn:E'; simpl; [discriminate|].
    intros [= <-]. apply (IH _ _ E').
  - intros [= <-]. apply (Hf _ _ _ E).
Qed.

Lemma map2M_add_float_or_zero :
  forall xs ys, Forall float_or_zero xs -> Forall float_or_zero ys ->
    exists zs, map2M PyNum.add xs ys = Ok zs.
Proof.
  induction xs as [|x xs IH]; intros [|y ys] Hxs Hys; simpl;
    try (eexists; reflexivity).
  inversion Hxs as [|? ? Hx Hxs']; inversion Hys as [|? ? Hy Hys']; subst.
  destruct (IH ys Hxs' Hys') as [zs Hzs]. rewrite Hzs.
  destruct x as [a|a], y as [b|b]; simpl in Hx, Hy; subst;
    eexists; reflexivity.
Qed.

Lemma padded_floats_are_float_or_zero (n : nat) (fs : list float) :
  Forall float_or_zero (padded_with_zeros n (map PyNum.Float fs)).
Proof.
  unfold padded_with_zeros. apply Forall_app. split.
  - induction fs; simpl; constructor; [exact I | assumption].
  - induction (n - List.length (map PyNum.Float fs))%nat; simpl; constructor;
      [reflexivity | assumption].
Qed.

(** X5: the only exception an addition of vectors raises is the
    [OverflowError] of an [int] too large for a [float], which a sum of an
    [int] and a [float] coordinate does raise; a sum of two vectors of float
    coordinates, of any numbers of coordinates, always returns. *)
Theorem add_raises_overflow_only :
  (forall (a b : Vector.t) (e : exn),
     Vector.__add__ a b = Raise e -> e = OverflowError)
  /\ Vector.__add__ (ints [10 ^ 400]) (floats [1%float]) = Raise OverflowError
  /\ (forall xs ys : list float,
        exists sum, Vector.__add__ (floats xs) (floats ys) = Ok sum).
Proof.
  split; [|split].
  - intros a b e. unfold Vector.__add__.
    destruct (map2M _ _ _) as [cs|e'] eqn:E; simpl; [discriminate|].
    intros [= <-]. apply (map2M_raises _ OverflowError pynum_add_raises _ _ _ E).
  - vm_compute. reflexivity.
  - intros xs ys. rewrite add_as_padded_sum. unfold floats. simpl.
    destruct (map2M_add_float_or_zero _ _
                (padded_floats_are_float_or_zero
                   (Nat.max (List.length (map PyNum.Float xs))
                            (List.length (map PyNum.Float ys))) xs)
                (padded_floats_are_float_or_zero
                   (Nat.max (List.length (map PyNum.Float xs))
                            (List.length (map PyNum.Float ys))) ys))
      as [zs Hzs].
    rewrite Hzs. eexists. reflexivity.
Qed.

Lemma add_raises_overflow_only_witness :
  OverflowError = OverflowError
  /\ Vector.__add__ (floats [1%float]) (ints [10 ^ 400]) = Raise OverflowError.
Proof.
  assert (H : Vector.__add__ (floats [1%float]) (ints [10 ^ 400])
              = Raise OverflowError) by (vm_compute; reflexivity).
  split; [|exact H].
  exact (proj1 add_raises_overflow_only _ _ _ H).
Defined.

Lemma add_back :
  forall s e : list Z,
    add_ints s (add_ints e (map Z.opp s))
    = (e ++ repeat 0 (List.length s - List.length e))%list.
Proof.
  induction s as [|x s IH]; intros [|y e]; simpl.
  - reflexivity.
  - rewrite ?add_ints_nil_r, ?app_nil_r. reflexivity.
  - f_equal; [lia|]. specialize (IH []). simpl in IH.
    rewrite Nat.sub_0_r in IH. exact IH.
  - f_equal; [lia | apply IH].
Qed.

(** X6: for points with [int] coordinates the displacement of a segment
    always exists, and adding it to the start point gives the end point,
    padded with [0] where the start point has more coordinates; the
    displacement of a segment from a point to itself has only zeros. *)
Theorem displacement_leads_from_start_to_end (start finish : list Z) :
  let segment := VirtualVector.VirtualVector (ints start) (ints finish) in
  (exists displacement,
     VirtualVector.value segment = Ok displacement
     /\ Vector.__add__ (ints start) displacement
        = Ok (ints (finish ++ repeat 0 (List.length start - List.length finish))%list))
  /\ VirtualVector.value (VirtualVector.VirtualVector (ints start) (ints start))
     = Ok (ints (map (fun _ => 0) start)).
Proof.
  intros segment. split.
  - exists (ints (add_ints finish (map Z.opp start))). split.
    + unfold segment, VirtualVector.value. simpl. apply sub_of_ints.
    + rewrite add_of_ints, add_back. reflexivity.
  - unfold VirtualVector.value. simpl.
    unfold Vector.__sub__. rewrite reflect_all_ints. simpl. apply add_opposite_ints.
Qed.

Lemma sum_of_squares_opp {libm : CLibrary} :
  forall (zs : list Z) (acc : pynum),
    Vector.sum_of_squares acc (map PyNum.Int (map Z.opp zs))
    = Vector.sum_of_squares acc (map PyNum.Int zs).
Proof.
  induction zs as [|z zs IH]; intros acc; simpl; [reflexivity|].
  replace (- z * - z) with (z * z) by lia.
  destruct (PyNum.add acc (PyNum.Int (z * z))); simpl; [apply IH | reflexivity].
Qed.

Lemma add_ints_opp :
  forall xs ys, add_ints ys (map Z.opp xs) = map Z.opp (add_ints xs (map Z.opp ys)).
Proof.
  induction xs as [|x xs IH]; intros [|y ys]; simpl; try reflexivity.
  - f_equal; [lia|]. rewrite map_map. rewrite <- (map_id ys) at 1.
    apply map_ext. intros; lia.
  - f_equal; [lia | apply IH].
Qed.

(** X7: the distance between two points with [int] coordinates does not
    depend on the direction: the displacement from [b] to [a] and the one from
    [a] to [b] have the same length, the same exception included. *)
Theorem distance_is_symmetric {libm : CLibrary} (xs ys : list Z) :
  (displacement <- Vector.__sub__ (ints xs) (ints ys) ;; Vector.length displacement)
  = (displacement <- Vector.__sub__ (ints ys) (ints xs) ;; Vector.length displacement).
Proof.
  rewrite !sub_of_ints. simpl. unfold Vector.length, ints. simpl.
  rewrite (add_ints_opp xs ys), sum_of_squares_opp. reflexivity.
Qed.

(** ** Rounding *)

Lemma mapM_Raise_inv {A B : Type} (f : A -> result B) :
  forall xs e, mapM f xs = Raise e ->
    exists before x after,
      xs = (before ++ x :: after)%list
      /\ (forall y, In y before -> exists z, f y = Ok z)
      /\ f x = Raise e.
Proof.
  induction xs as [|x xs IH]; intros e; simpl; [discriminate|].
  destruct (f x) as [y|e'] eqn:Ey; simpl.
  - destruct (mapM f xs) as [ys|e''] eqn:Eys; simpl; [discriminate|].
    intros [= <-]. destruct (IH _ eq_refl) as (before & x' & after & -> & Hbefore & Hx').
    exists (x :: before), x', after. split; [reflexivity|]. split; [|exact Hx'].
    intros z [<- | Hz]; [eexists; exact Ey | apply Hbefore; exact Hz].
  - intros [= <-]. exists [], x, xs. split; [reflexivity|]. split; [|exact Ey].
    intros z [].
Qed.

(** X8: rounding a vector returns exactly when the rounder returns on every
    coordinate, the result then holding, position by position, what the
    rounder returned; otherwise it raises the exception of the first
    coordinate the rounder fails on. A rounded segment is the segment of the
    rounded endpoints. *)
Theorem rounding_is_coordinate_wise (rounder : NumberRounder) :
  (forall v rounded : Vector.t,
     Vector.get_rounded_by v rounder = Ok rounded
     <-> Forall2 (fun c c' => rounder c = Ok c')
           (Vector.coordinates v) (Vector.coordinates rounded))
  /\ (forall (v : Vector.t) (e : exn),
        Vector.get_rounded_by v rounder = Raise e ->
        exists before c after,
          Vector.coordinates v = (before ++ c :: after)%list
          /\ (forall c', In c' before -> exists r, rounder c' = Ok r)
          /\ rounder c = Raise e)
  /\ (forall segment rounded : VirtualVector.t,
        VirtualVector.get_rounded_by segment rounder = Ok rounded
        <-> Vector.get_rounded_by (VirtualVector.start_point segment) rounder
              = Ok (VirtualVector.start_point rounded)
            /\ Vector.get_rounded_by (VirtualVector.end_point segment) rounder
               = Ok (VirtualVector.end_point rounded)).
Proof.
  assert (Hvector : forall v rounded : Vector.t,
            Vector.get_rounded_by v rounder = Ok rounded
            <-> Forall2 (fun c c' => rounder c = Ok c')
                  (Vector.coordinates v) (Vector.coordinates rounded)).
  { intros v [cs]. unfold Vector.get_rounded_by. simpl.
    rewrite <- mapM_Ok_iff. destruct (mapM rounder (Vector.coordinates v)); simpl.
    - split; congruence.
    - split; discriminate. }
  split; [exact Hvector|]. split.
  - intros v e. unfold Vector.get_rounded_by.
    destruct (mapM rounder (Vector.coordinates v)) as [cs|e'] eqn:E; simpl;
      [discriminate|].
    intros [= <-]. apply (mapM_Raise_inv _ _ _ E).
  - intros segment [s' e']. unfold VirtualVector.get_rounded_by. simpl.
    destruct (Vector.get_rounded_by (VirtualVector.start_point segment) rounder)
      as [s|es]; simpl.
    + destruct (Vector.get_rounded_by (VirtualVector.end_point segment) rounder)
        as [e|ee]; simpl.
      * split; [intros [= <- <-]; split; reflexivity | intros [[= <-] [= <-]]; reflexivity].
      * split; [discriminate | intros [_ H]; discriminate H].
    + split; [discriminate | intros [H _]; discriminate H].
Qed.

Lemma rounding_is_coordinate_wise_witness :
  Vector.get_rounded_by (floats [0.5; 1.5]%float) Rounders.AccurateNumberRounder
  = Ok (ints [0; 2]).
Proof.
  apply (proj1 (rounding_is_coordinate_wise Rounders.AccurateNumberRounder)).
  repeat constructor.
Defined.

(** ** VectorDivider: feasibility and failures *)

(** The feasibility check, with the names its message loads resolved. *)
Lemma is_possible_to_divide_closed_form {libm : CLibrary} (self : VectorDivider.t)
    (data : VirtualVector.t) :
  VectorDivider.is_possible_to_divide self data =
    (value <- VirtualVector.value data ;;
     length <- Vector.length value ;;
     if PyNum.eq_zero length then Raise (NameError "vector")
     else Ok Report.Success).
Proof.
  unfold VectorDivider.is_possible_to_divide.
  destruct (VirtualVector.value data) as [value|e]; simpl; [|reflexivity].
  destruct (Vector.length value) as [length|e]; simpl; [|reflexivity].
  destruct (PyNum.eq_zero length); reflexivity.
Qed.

(** X9: the feasibility check of the vector divider never returns a failure
    report: a report it returns is a success, and for a displacement of
    length [0] (in any coordinates) it raises [NameError], as the call of the
    divider then does without running the division. *)
Theorem feasibility_check_never_reports_failure {libm : CLibrary} :
  (forall (self : VectorDivider.t) (data : VirtualVector.t) (report : Report.t),
     VectorDivider.is_possible_to_divide self data = Ok report ->
     report = Report.Success)
  /\ (forall (self : VectorDivider.t) (data : VirtualVector.t)
             (value : Vector.t) (length : pynum),
        VirtualVector.value data = Ok value ->
        Vector.length value = Ok length ->
        PyNum.eq_zero length = true ->
        VectorDivider.is_possible_to_divide self data = Raise (NameError "vector")
        /\ VectorDivider.__call__ self data = Raise (NameError "vector"))
  /\ (forall (self : VectorDivider.t) (data : VirtualVector.t)
             (value : Vector.t) (length : pynum),
        VirtualVector.value data = Ok value ->
        Vector.length value = Ok length ->
        PyNum.eq_zero length = false ->
        VectorDivider.__call__ self data = VectorDivider._divide self data).
Proof.
  split; [|split].
  - intros self data report. rewrite is_possible_to_divide_closed_form.
    destruct (VirtualVector.value data) as [value|e]; simpl; [|discriminate].
    destruct (Vector.length value) as [length|e]; simpl; [|discriminate].
    destruct (PyNum.eq_zero length); [discriminate | congruence].
  - intros self data value length Hvalue Hlength Hzero.
    assert (H : VectorDivider.is_possible_to_divide self data
                = Raise (NameError "vector")).
    { rewrite is_possible_to_divide_closed_form, Hvalue. simpl.
      rewrite Hlength. simpl. rewrite Hzero. reflexivity. }
    split; [exact H|].
    unfold VectorDivider.__call__, Divider.__call__. rewrite H. reflexivity.
  - intros self data value length Hvalue Hlength Hzero.
    unfold VectorDivider.__call__, Divider.__call__.
    rewrite is_possible_to_divide_closed_form, Hvalue. simpl.
    rewrite Hlength. simpl. rewrite Hzero. reflexivity.
Qed.

Lemma feasibility_check_never_reports_failure_witness :
  VectorDivider.__call__ unit_divider
    (VirtualVector.VirtualVector (floats [2.5%float]) (floats [2.5%float]))
  = Raise (NameError "vector")
  /\ VectorDivider.__call__ unit_divider ten_segment
     = VectorDivider._divide unit_divider ten_segment.
Proof.
  destruct feasibility_check_never_reports_failure as (_ & Hzero & Hnonzero).
  split.
  - apply (Hzero unit_divider _ (floats [0%float]) (PyNum.Float 0)); reflexivity.
  - apply (Hnonzero unit_divider ten_segment (ints [10; 0]) (PyNum.Float 10));
      reflexivity.
Defined.

Lemma truediv_by_zero (c factor : pynum) (f : float) :
  PyNum.to_float c = Ok f ->
  PyNum.eq_zero factor = true ->
  PyNum.truediv c factor = Raise ZeroDivisionError.
Proof.
  intros Hc Hzero. destruct c as [a|a], factor as [b|b]; simpl in *.
  - apply Z.eqb_eq in Hzero. subst b. reflexivity.
  - rewrite Hc. simpl. rewrite Hzero. reflexivity.
  - apply Z.eqb_eq in Hzero. subst b. reflexivity.
  - rewrite Hzero. reflexivity.
Qed.

(** X10: when the rounder turns the ratio of the length to the distance into
    [0] (a segment much shorter than the distance between points), the
    division raises [ZeroDivisionError], not the error of the divider. *)
Theorem zero_factor_raises_ZeroDivisionError {libm : CLibrary}
    (self : VectorDivider.t) (vector : VirtualVector.t)
    (value : Vector.t) (length ratio factor : pynum) :
  VirtualVector.value vector = Ok value ->
  Vector.length value = Ok length ->
  PyNum.truediv length (VectorDivider.distance_between_points self) = Ok ratio ->
  VectorDivider.rounder self ratio = Ok factor ->
  PyNum.eq_zero factor = true ->
  (forall c, In c (Vector.coordinates value) -> exists f, PyNum.to_float c = Ok f) ->
  VectorDivider._divide self vector = Raise ZeroDivisionError.
Proof.
  intros Hvalue Hlength Hratio Hfactor Hzero Hfloat.
  unfold VectorDivider._divide.
  rewrite Hvalue, bind_Ok, Hlength, bind_Ok, Hratio, bind_Ok, Hfactor, bind_Ok.
  destruct value as [[|c cs]].
  - assert (length = PyNum.Float 0) as ->.
    { change (Vector.length (Vector.Vector [])) with (Ok (PyNum.Float 0)) in Hlength.
      congruence. }
    reflexivity.
  - simpl. destruct (Hfloat c (or_introl eq_refl)) as [f Hf].
    rewrite (truediv_by_zero c factor f Hf Hzero). reflexivity.
Qed.

Lemma zero_factor_raises_ZeroDivisionError_witness :
  VectorDivider._divide
    (VectorDivider.VectorDivider (PyNum.Int 1) Rounders.AccurateNumberRounder)
    (VirtualVector.VirtualVector (ints [0; 0]) (floats [0.25; 0]%float))
  = Raise ZeroDivisionError.
Proof.
  apply (zero_factor_raises_ZeroDivisionError _ _ (floats [0.25; 0]%float)
           (PyNum.Float 0.25) (PyNum.Float 0.25) (PyNum.Int 0));
    try reflexivity.
  intros c [<- | [<- | []]]; eexists; reflexivity.
Defined.

Lemma divide_result_head {libm : CLibrary}
    (self : VectorDivider.t) (vector : VirtualVector.t) (points : list Vector.t) :
  VectorDivider._divide self vector = Ok points ->
  exists first rest,
    points = first :: rest
    /\ Vector.get_rounded_by (VirtualVector.start_point vector)
         (VectorDivider.rounder self) = Ok first.
Proof.
  unfold VectorDivider._divide. intros H.
  apply bind_Ok_inv in H as (value & _ & H).
  apply bind_Ok_inv in H as (length & _ & H).
  apply bind_Ok_inv in H as (ratio & _ & H).
  apply bind_Ok_inv in H as (factor & _ & H).
  apply bind_Ok_inv in H as (step & _ & H).
  apply bind_Ok_inv in H as (step_length & _ & H).
  apply bind_Ok_inv in H as (quotient & _ & H).
  apply bind_Ok_inv in H as (number & _ & H).
  apply bind_Ok_inv in H as (fractional & _ & H).
  destruct fractional; [destruct (load_name _ _ _); discriminate H|].
  destruct (PyNum.to_int number) as [stop|e] eqn:Hstop;
    [| unfold VectorDivider.__create_points in H; rewrite Hstop in H; discriminate H].
  rewrite (create_points_spec _ _ _ _ _ Hstop) in H.
  apply bind_Ok_inv in H as (rest & _ & H). simpl in H.
  apply bind_Ok_inv in H as (first & Hfirst & H).
  apply bind_Ok_inv in H as (others & _ & H).
  injection H as <-. exists first, others. split; [reflexivity | exact Hfirst].
Qed.

Lemma call_result_is_divide_result {libm : CLibrary}
    (self : VectorDivider.t) (vector : VirtualVector.t) (points : list Vector.t) :
  VectorDivider.__call__ self vector = Ok points ->
  VectorDivider._divide self vector = Ok points.
Proof.
  unfold VectorDivider.__call__, Divider.__call__. intros H.
  apply bind_Ok_inv in H as (report & _ & H).
  destruct report; [exact H | discriminate H].
Qed.

(** X11: a division that returns, called directly or through the divider,
    never returns an empty tuple: its first point is the rounded start point
    of the segment. *)
Theorem division_starts_at_rounded_start {libm : CLibrary}
    (self : VectorDivider.t) (vector : VirtualVector.t) (points : list Vector.t) :
  VectorDivider._divide self vector = Ok points
  \/ VectorDivider.__call__ self vector = Ok points ->
  exists first rest,
    points = first :: rest
    /\ Vector.get_rounded_by (VirtualVector.start_point vector)
         (VectorDivider.rounder self) = Ok first.
Proof.
  intros [H | H]; [|apply call_result_is_divide_result in H];
    exact (divide_result_head self vector points H).
Qed.

Lemma division_starts_at_rounded_start_witness :
  exists first rest,
    ints [0; 0] :: map (fun x => floats [x; 0%float])
                     [1; 2; 3; 4; 5; 6; 7; 8; 9; 10]%float = first :: rest
    /\ Vector.get_rounded_by (ints [0; 0]) identity_rounder = Ok first.
Proof.
  apply (division_starts_at_rounded_start unit_divider ten_segment).
  left. vm_compute. reflexivity.
Defined.

(** ** Line: membership *)

Lemma init_unfolds {libm : CLibrary} (first second : Vector.t) (line : Line.t) :
  Line.__init__ first second = Ok line ->
  exists points,
    VectorDivider.__call__ Line._vector_divider_factory
      (VirtualVector.VirtualVector first second) = Ok points
    /\ line = Line.Line Line._vector_divider_factory
                (VectorDivider.rounder Line._vector_divider_factory)
                first second points.
Proof.
  unfold Line.__init__, Line._update_all_available_points. simpl. intros H.
  apply bind_Ok_inv in H as (points & Hpoints & H).
  exists points. split; [exact Hpoints | congruence].
Qed.

Lemma inside_when_cached_first (line : Line.t) (point rounded : Vector.t)
    (rest : list Vector.t) :
  Vector.get_rounded_by point (Line._rounder line) = Ok rounded ->
  Line.all_available_points line = rounded :: rest ->
  Vector_eqb rounded rounded = true ->
  LineMembership.is_point_inside line point = Ok true.
Proof.
  intros Hrounded Hcache Hrefl. unfold LineMembership.is_point_inside.
  unfold Line.all_available_points in Hcache.
  rewrite Hrounded, Hcache. simpl. rewrite Hrefl. reflexivity.
Qed.

(** X12: a line that was constructed has a cache that is not empty and
    reports its first endpoint as inside, provided the rounded endpoint equals
    itself (it has no [nan] coordinate). *)
Theorem constructed_line_contains_its_first_point {libm : CLibrary}
    (first second : Vector.t) (line : Line.t) (rounded : Vector.t) :
  Line.__init__ first second = Ok line ->
  Vector.get_rounded_by first (Line._rounder line) = Ok rounded ->
  Vector_eqb rounded rounded = true ->
  (exists rest, Line.all_available_points line = rounded :: rest)
  /\ LineMembership.is_point_inside line first = Ok true
  /\ LineMembership.__contains__ line (inl first) = Ok true.
Proof.
  intros Hinit Hrounded Hrefl.
  destruct (init_unfolds _ _ _ Hinit) as (points & Hpoints & ->).
  apply call_result_is_divide_result in Hpoints.
  destruct (divide_result_head _ _ _ Hpoints) as (head & rest & -> & Hhead).
  simpl in Hhead, Hrounded. rewrite Hrounded in Hhead. injection Hhead as <-.
  assert (Hinside : LineMembership.is_point_inside
                      (Line.Line Line._vector_divider_factory
                         (VectorDivider.rounder Line._vector_divider_factory)
                         first second (rounded :: rest)) first = Ok true)
    by (apply (inside_when_cached_first _ _ rounded rest); [exact Hrounded | reflexivity | exact Hrefl]).
  split; [exists rest; reflexivity|]. split; exact Hinside.
Qed.

(** X13: after [line.first_point = new_point] on a constructed line, the line
    has the new first endpoint but still reports the one it had before as
    inside: membership is answered from the points of the old segment. *)
Theorem membership_is_answered_for_the_old_segment {libm : CLibrary}
    (first second new_point : Vector.t) (line line' : Line.t) (rounded : Vector.t) :
  Line.__init__ first second = Ok line ->
  Line.set_first_point line new_point = Ok line' ->
  Vector.get_rounded_by first (Line._rounder line) = Ok rounded ->
  Vector_eqb rounded rounded = true ->
  Line.first_point line' = new_point
  /\ Line.all_available_points line' = Line.all_available_points line
  /\ LineMembership.is_point_inside line' first = Ok true.
Proof.
  intros Hinit Hset Hrounded Hrefl.
  destruct (init_unfolds _ _ _ Hinit) as (points & Hpoints & ->).
  unfold Line.set_first_point, Line._update_all_available_points in Hset.
  simpl in Hset, Hrounded. rewrite Hpoints in Hset. simpl in Hset.
  injection Hset as <-.
  apply call_result_is_divide_result in Hpoints.
  destruct (divide_result_head _ _ _ Hpoints) as (head & rest & -> & Hhead).
  simpl in Hhead. rewrite Hrounded in Hhead. injection Hhead as <-.
  split; [reflexivity|]. split; [reflexivity|].
  apply (inside_when_cached_first _ _ rounded rest);
    [exact Hrounded | reflexivity | exact Hrefl].
Qed.

Lemma example_line_call {libm : CLibrary} :
  VectorDivider.__call__ Line._vector_divider_factory
    (VirtualVector.VirtualVector (ints [0; 0]) (ints [3; 0]))
  = Ok [floats [0; 0]; floats [1; 0]; floats [2; 0]; floats [3; 0]]%float.
Proof. vm_compute. reflexivity. Qed.

Lemma example_line_init {libm : CLibrary} :
  Line.__init__ (ints [0; 0]) (ints [3; 0]) = Ok example_line.
Proof.
  unfold Line.__init__, Line._update_all_available_points.
  cbn [Line._vector_divider Line._rounder Line.first_point Line.second_point
       Line._Line__first_point Line._Line__second_point].
  rewrite example_line_call. reflexivity.
Qed.

Lemma constructed_line_contains_its_first_point_witness :
  LineMembership.is_point_inside example_line (ints [0; 0]) = Ok true.
Proof.
  apply (constructed_line_contains_its_first_point
           (ints [0; 0]) (ints [3; 0]) example_line (floats [0; 0]%float)).
  - exact example_line_init.
  - vm_compute. reflexivity.
  - vm_compute. reflexivity.
Defined.

Lemma membership_is_answered_for_the_old_segment_witness :
  exists line',
    Line.set_first_point example_line (ints [3; 4]) = Ok line'
    /\ Line.first_point line' = ints [3; 4]
    /\ LineMembership.is_point_inside line' (ints [0; 0]) = Ok true.
Proof.
  assert (Hset : Line.set_first_point example_line (ints [3; 4])
                 = Ok (Line.Line Line._vector_divider_factory
                         (VectorDivider.rounder Line._vector_divider_factory)
                         (ints [3; 4]) (ints [3; 0])
                         [floats [0; 0]; floats [1; 0]; floats [2; 0];
                          floats [3; 0]]%float)).
  { unfold Line.set_first_point, Line._update_all_available_points, example_line.
    cbn [Line._vector_divider Line._rounder Line.first_point Line.second_point
         Line._Line__first_point Line._Line__second_point].
    rewrite example_line_call. reflexivity. }
  eexists. split; [exact Hset|].
  destruct (membership_is_answered_for_the_old_segment
              (ints [0; 0]) (ints [3; 0]) (ints [3; 4]) example_line _
              (floats [0; 0]%float) example_line_init Hset)
    as (Hfirst & _ & Hinside).
  - vm_compute. reflexivity.
  - vm_compute. reflexivity.
  - split; [exact Hfirst | exact Hinside].
Defined.

Lemma call_on_degenerate_segment {libm : CLibrary} (self : VectorDivider.t) (zs : list Z) :
  VectorDivider.__call__ self (VirtualVector.VirtualVector (ints zs) (ints zs))
  = Raise (NameError "vector").
Proof.
  unfold VectorDivider.__call__, Divider.__call__.
  rewrite is_possible_to_divide_closed_form.
  pose proof (degenerate_segment_length zs) as Hlen.
  destruct (VirtualVector.value _) as [value|e]; simpl in *; [|discriminate].
  rewrite Hlen. reflexivity.
Qed.

(** X14: a line cannot be constructed between a point with [int] coordinates
    and itself, and a line whose two endpoints have become that same point
    (which a setter allows) can no longer be changed: the constructor and both
    setters raise [NameError]. *)
Theorem line_with_equal_endpoints_is_stuck {libm : CLibrary} :
  (forall zs : list Z,
     Line.__init__ (ints zs) (ints zs) = Raise (NameError "vector"))
  /\ (forall (line : Line.t) (zs : list Z) (new_point : Vector.t),
        Line.first_point line = ints zs ->
        Line.second_point line = ints zs ->
        Line.set_first_point line new_point = Raise (NameError "vector")
        /\ Line.set_second_point line new_point = Raise (NameError "vector")).
Proof.
  split.
  - intros zs. unfold Line.__init__, Line._update_all_available_points.
    cbn [Line._vector_divider Line._rounder Line.first_point Line.second_point
         Line._Line__first_point Line._Line__second_point].
    rewrite call_on_degenerate_segment. reflexivity.
  - intros line zs new_point Hfirst Hsecond.
    unfold Line.set_first_point, Line.set_second_point,
      Line._update_all_available_points.
    rewrite Hfirst, Hsecond, call_on_degenerate_segment. split; reflexivity.
Qed.

Lemma line_with_equal_endpoints_is_stuck_witness :
  exists line,
    Line.set_second_point example_line (ints [0; 0]) = Ok line
    /\ Line.set_first_point line (ints [5; 5]) = Raise (NameError "vector")
    /\ Line.set_second_point line (ints [3; 0]) = Raise (NameError "vector").
Proof.
  assert (Hset : Line.set_second_point example_line (ints [0; 0])
                 = Ok (Line.Line Line._vector_divider_factory
                         (VectorDivider.rounder Line._vector_divider_factory)
                         (ints [0; 0]) (ints [0; 0])
                         [floats [0; 0]; floats [1; 0]; floats [2; 0];
                          floats [3; 0]]%float)).
  { unfold Line.set_second_point, Line._update_all_available_points, example_line.
    cbn [Line._vector_divider Line._rounder Line.first_point Line.second_point
         Line._Line__first_point Line._Line__second_point].
    rewrite example_line_call. reflexivity. }
  eexists. split; [exact Hset|].
  destruct line_with_equal_endpoints_is_stuck as [_ Hstuck].
  split.
  - apply (Hstuck _ [0; 0] (ints [5; 5])); reflexivity.
  - apply (Hstuck _ [0; 0] (ints [3; 0])); reflexivity.
Defined.

(** X15: asking whether a vector passes through a line raises [NameError]
    when the rounded vector has a displacement of length [0], such as a vector
    from a point to itself: the answer is not [False]. *)
Theorem degenerate_vector_cannot_be_tested {libm : CLibrary}
    (line : Line.t) (vector rounded : VirtualVector.t)
    (value : Vector.t) (length : pynum) :
  VirtualVector.get_rounded_by vector (Line._rounder line) = Ok rounded ->
  VirtualVector.value rounded = Ok value ->
  Vector.length value = Ok length ->
  PyNum.eq_zero length = true ->
  LineMembership.is_vector_passes line vector = Raise (NameError "vector")
  /\ LineMembership.__contains__ line (inr vector) = Raise (NameError "vector").
Proof.
  intros Hrounded Hvalue Hlength Hzero.
  assert (H : LineMembership.is_vector_passes line vector = Raise (NameError "vector")).
  { unfold LineMembership.is_vector_passes. rewrite Hrounded, bind_Ok.
    unfold VectorDivider.__call__, Divider.__call__.
    rewrite is_possible_to_divide_closed_form, Hvalue. simpl.
    rewrite Hlength. simpl. rewrite Hzero. reflexivity. }
  split; exact H.
Qed.

Lemma degenerate_vector_cannot_be_tested_witness :
  LineMembership.is_vector_passes
    (plain_line (ints [0; 0]) (ints [3; 0])
       [ints [0; 0]; floats [1; 0]%float; floats [2; 0]%float;
        floats [3; 0]%float])
    (VirtualVector.VirtualVector (ints [1; 0]) (ints [1; 0]))
  = Raise (NameError "vector").
Proof.
  apply (degenerate_vector_cannot_be_tested _ _
           (VirtualVector.VirtualVector (ints [1; 0]) (ints [1; 0]))
           (ints [0; 0]) (PyNum.Float 0)); reflexivity.
Defined.

(** ** Avatars *)

(** X16: on a primitive avatar, assigning [render_resource] and reading it
    back gives the resource assigned, the point of the pack staying as it was;
    an update after the assignment keeps the new resource; and a newly built
    avatar shows the resource it was built with. *)
Theorem render_resource_round_trip :
  (forall (self : object) (pack : ResourcePack.t) (resource : Resource),
     getattr self "_main_resource_pack" = Ok (VPack pack) ->
     exists self',
       PrimitiveAvatar.set_render_resource self resource = Ok self'
       /\ ResourceAvatar.render_resource self' = Ok resource
       /\ SingleResourcePackAvatar.render_resource_packs self'
          = Ok [ResourcePack.ResourcePack resource (ResourcePack.point pack)]
       /\ forall (heap : Heap) (unit : unit_ref),
            getattr self "_unit" = Ok (VUnit unit) ->
            exists self'',
              SingleResourcePackAvatar.update heap self' = Ok self''
              /\ ResourceAvatar.render_resource self'' = Ok resource)
  /\ (forall (heap : Heap) (unit : unit_ref) (resource : Resource),
        (avatar <- PrimitiveAvatar.__call__ heap unit resource ;;
         ResourceAvatar.render_resource avatar) = Ok resource).
Proof.
  split.
  - intros self pack resource Hpack.
    unfold PrimitiveAvatar.set_render_resource,
      SingleResourcePackAvatar.main_resource_pack.
    rewrite Hpack. simpl. eexists. split; [reflexivity|].
    assert (Hnew : getattr
              (setattr self "_main_resource_pack"
                 (VPack (ResourcePack.ResourcePack resource (ResourcePack.point pack))))
              "_main_resource_pack"
            = Ok (VPack (ResourcePack.ResourcePack resource (ResourcePack.point pack))))
      by apply getattr_setattr_eq.
    split; [|split].
    + unfold ResourceAvatar.render_resource,
        SingleResourcePackAvatar.main_resource_pack.
      rewrite Hnew. reflexivity.
    + unfold SingleResourcePackAvatar.render_resource_packs,
        SingleResourcePackAvatar.main_resource_pack.
      rewrite Hnew. reflexivity.
    + intros heap unit Hunit.
      assert (Hunit' : getattr
                (setattr self "_main_resource_pack"
                   (VPack (ResourcePack.ResourcePack resource
                             (ResourcePack.point pack))))
                "_unit" = Ok (VUnit unit))
        by (rewrite getattr_setattr_ne by discriminate; exact Hunit).
      rewrite (update_sets_point heap _ unit _ Hunit' Hnew).
      eexists. split; [reflexivity|].
      unfold ResourceAvatar.render_resource,
        SingleResourcePackAvatar.main_resource_pack.
      rewrite getattr_setattr_eq. reflexivity.
  - intros heap unit resource. reflexivity.
Qed.

Lemma render_resource_round_trip_witness :
  (avatar <- PrimitiveAvatar.__call__ example_heap 0%nat (circle 1) ;;
   avatar <- PrimitiveAvatar.set_render_resource avatar (circle 2) ;;
   ResourceAvatar.render_resource avatar) = Ok (circle 2).
Proof.
  destruct render_resource_round_trip as [Hset _].
  destruct (PrimitiveAvatar.__call__ example_heap 0%nat (circle 1))
    as [avatar|e] eqn:Hcall; [|vm_compute in Hcall; discriminate Hcall].
  rewrite bind_Ok.
  destruct (Hset avatar (ResourcePack.ResourcePack (circle 1) (ints [3; 4])) (circle 2))
    as (avatar' & Hassign & Hread & _).
  - vm_compute in Hcall. injection Hcall as <-. vm_compute. reflexivity.
  - rewrite Hassign, bind_Ok. exact Hread.
Defined.

(** ** Animations and their avatars: what an update can do *)

Lemma update_main_resource_pack_never_returns (heap : Heap) (self : object) :
  attributes self !! "_Animation__current_sprite_index" = None ->
  exists e, Animation.call__update_main_resource_pack heap self = Raise e.
Proof.
  intros Hnone. unfold Animation.call__update_main_resource_pack.
  destruct (resolve (class self) "_update_main_resource_pack") as [[]|];
    try (eexists; reflexivity).
  unfold Animation._update_main_resource_pack.
  destruct (Animation.sprites self) as [sprites|e]; simpl; [|eexists; reflexivity].
  destruct (mangled_index_undefined (class self)) as [-> Hclass].
  unfold getattr. rewrite Hnone, Hclass. simpl. eexists. reflexivity.
Qed.

Lemma handle_finish_keeps_private_index (self self' : object) :
  attributes self !! "_Animation__current_sprite_index" = None ->
  Animation.call__handle_finish self = Ok self' ->
  attributes self' !! "_Animation__current_sprite_index" = None.
Proof.
  intros Hnone. unfold Animation.call__handle_finish.
  destruct (resolve (class self) "_handle_finish") as [[]|]; try discriminate.
  unfold EndlessAnimation._handle_finish.
  destruct (getattr _ "_sprites") as [[]|]; simpl; try discriminate.
  intros [= <-]. simpl. rewrite !lookup_insert_ne by discriminate. exact Hnone.
Qed.

Lemma update_never_returns (heap : Heap) (self : object) :
  attributes self !! "_Animation__current_sprite_index" = None ->
  exists e, Animation.update heap self = Raise e.
Proof.
  intros Hnone. unfold Animation.update.
  destruct (SingleResourcePackAvatar.update heap self) as [self1|e] eqn:H1;
    [|eexists; reflexivity].
  rewrite bind_Ok.
  assert (Hnone1 : attributes self1 !! "_Animation__current_sprite_index" = None).
  { unfold SingleResourcePackAvatar.update in H1.
    apply bind_Ok_inv in H1 as (position & _ & H1).
    apply bind_Ok_inv in H1 as (pack & _ & H1).
    injection H1 as <-. simpl. rewrite lookup_insert_ne by discriminate. exact Hnone. }
  destruct (Animation.is_finished self1) as [finished|e]; [|eexists; reflexivity].
  rewrite bind_Ok.
  assert (Hstep : forall self2,
            attributes self2 !! "_Animation__current_sprite_index" = None ->
            exists e,
              (self3 <- Animation.call__update_main_resource_pack heap self2 ;;
               self4 <- Animation.decrement_active_sprite self3 ;;
               active <- Animation._active_sprite self4 ;;
               if Sprite.real_stay_ticks active <=? 0
               then index <- Animation.current_sprite_index self4 ;;
                    Ok (setattr self4 "_current_sprite_index" (VInt (index + 1)))
               else Ok self4) = Raise e).
  { intros self2 Hnone2.
    destruct (update_main_resource_pack_never_returns heap self2 Hnone2) as [e ->].
    eexists. reflexivity. }
  destruct finished.
  - destruct (Animation.call__handle_finish self1) as [self2|e] eqn:H2;
      [|eexists; reflexivity].
    rewrite bind_Ok. apply Hstep.
    apply (handle_finish_keeps_private_index self1 self2 Hnone1 H2).
  - rewrite bind_Ok. apply Hstep. exact Hnone1.
Qed.

(** X17: no update of an animation returns unless the object carries an
    attribute named [_Animation__current_sprite_index], which no method
    assigns: whatever the class, the sprites and the cursor, the update ends
    with an exception; and so do the updates of an animation avatar and of a
    topic animation avatar over such animations. *)
Theorem animation_update_never_returns :
  (forall (heap : Heap) (self : object),
     attributes self !! "_Animation__current_sprite_index" = None ->
     exists e, Animation.update heap self = Raise e)
  /\ (forall (heap : Heap) (store : AnimationStore) (self : AnimationAvatar.t),
        (forall ref, resolve (class (store ref)) "update" = Some Animation
                     /\ attributes (store ref) !! "_Animation__current_sprite_index"
                        = None) ->
        (exists e, AnimationAvatar.update heap store self = Raise e)
        /\ (exists e, TopicAnimationAvatar.update heap store self = Raise e)).
Proof.
  split; [exact update_never_returns|].
  intros heap store self Hanimations.
  assert (Hplain : forall avatar, exists e,
            AnimationAvatar.update heap store avatar = Raise e).
  { intros avatar. unfold AnimationAvatar.update, call_update.
    destruct (Hanimations (AnimationAvatar._current_animation avatar)) as [-> Hnone].
    destruct (update_never_returns heap _ Hnone) as [e ->].
    exists e. reflexivity. }
  split; [apply Hplain|].
  unfold TopicAnimationAvatar.update.
  destruct (if Nat.eqb _ _ then Ok false else _) as [revert|e];
    [rewrite bind_Ok; apply Hplain | exists e; reflexivity].
Qed.

Lemma animation_update_never_returns_witness :
  exists e,
    Animation.update example_heap
      (animation_state CustomEndlessAnimation 0%nat 0 two_sprites) = Raise e.
Proof.
  apply (proj1 animation_update_never_returns). vm_compute. reflexivity.
Defined.

(** X18: when the cursor has passed the last sprite (it is at the number of
    sprites or beyond, as it is after the last sprite of a finite animation
    has run out of ticks, or from the start when there are no sprites),
    [is_finished] raises [IndexError] instead of answering, and so does an
    update: the finish handler is not reached. *)
Theorem cursor_past_the_end_raises_IndexError
    (heap : Heap) (self : object) (unit : unit_ref) (pack : ResourcePack.t)
    (sprites : list Sprite.t) (index : Z) :
  getattr self "_unit" = Ok (VUnit unit) ->
  getattr self "_main_resource_pack" = Ok (VPack pack) ->
  getattr self "_sprites" = Ok (VSprites sprites) ->
  getattr self "_current_sprite_index" = Ok (VInt index) ->
  Z.of_nat (List.length sprites) <= index ->
  Animation.is_finished self = Raise IndexError
  /\ Animation.update heap self = Raise IndexError.
Proof.
  intros Hunit Hpack Hsprites Hindex Hpast.
  assert (Hraise : forall self', getattr self' "_sprites" = Ok (VSprites sprites) ->
            getattr self' "_current_sprite_index" = Ok (VInt index) ->
            Animation.is_finished self' = Raise IndexError).
  { intros self' Hs Hi.
    unfold Animation.is_finished, Animation._active_sprite,
      Animation.current_sprite_index, Animation.sprites.
    rewrite Hi, Hs. simpl.
    replace (Z.of_nat (List.length sprites) - 1 <=? index) with true
      by (symmetry; apply Z.leb_le; lia).
    unfold getitem.
    replace (index <? 0) with false by (symmetry; apply Z.ltb_ge; lia).
    replace (index <? 0) with false by (symmetry; apply Z.ltb_ge; lia).
    assert (nth_error sprites (Z.to_nat index) = None) as ->
      by (apply nth_error_None; lia).
    reflexivity. }
  split; [apply Hraise; assumption|].
  unfold Animation.update.
  rewrite (update_sets_point _ _ _ _ Hunit Hpack), bind_Ok.
  rewrite Hraise; [reflexivity | |];
    rewrite getattr_setattr_ne by discriminate; assumption.
Qed.

Lemma cursor_past_the_end_raises_IndexError_witness :
  Animation.update example_heap
    (animation_state CustomAnimation 0%nat 2
       [with_real_stay_ticks (Sprite.Sprite (circle 0) 1) 0;
        with_real_stay_ticks (Sprite.Sprite (circle 1) 2) 0])
  = Raise IndexError.
Proof.
  apply (cursor_past_the_end_raises_IndexError example_heap _ 0%nat
           (ResourcePack.ResourcePack (circle 0) (ints [0; 0]))
           [with_real_stay_ticks (Sprite.Sprite (circle 0) 1) 0;
            with_real_stay_ticks (Sprite.Sprite (circle 1) 2) 0] 2);
    reflexivity.
Defined.

Lemma handle_finish_of_endless (self : object) (sprites : list Sprite.t) :
  getattr self "_sprites" = Ok (VSprites sprites) ->
  EndlessAnimation._handle_finish self =
    Ok (setattr (setattr self "_current_sprite_index" (VInt 0)) "_sprites"
          (VSprites (map (fun sprite =>
                            with_real_stay_ticks sprite (Sprite.max_stay_ticks sprite))
                         sprites))).
Proof.
  intros Hsprites. unfold EndlessAnimation._handle_finish.
  rewrite getattr_setattr_ne by discriminate. rewrite Hsprites. reflexivity.
Qed.

(** X19: the finish handler of an endless animation puts the cursor back at
    [0] and gives every sprite its maximum stay again, keeping the sprites'
    number, order, resources and maxima; with two sprites or more the
    animation is then not finished; handling the finish once more changes
    nothing. *)
Theorem endless_finish_restarts_the_animation
    (self : object) (sprites : list Sprite.t) :
  getattr self "_sprites" = Ok (VSprites sprites) ->
  exists self',
    EndlessAnimation._handle_finish self = Ok self'
    /\ class self' = class self
    /\ Animation.current_sprite_index self' = Ok 0
    /\ Animation.sprites self'
       = Ok (map (fun sprite => Sprite.Sprite (Sprite.resource sprite)
                                  (Sprite.max_stay_ticks sprite)) sprites)
    /\ ((2 <= List.length sprites)%nat -> Animation.is_finished self' = Ok false)
    /\ EndlessAnimation._handle_finish self' = Ok self'.
Proof.
  intros Hsprites. rewrite (handle_finish_of_endless _ _ Hsprites).
  eexists. split; [reflexivity|]. split; [reflexivity|].
  set (restarted := map (fun sprite =>
                           with_real_stay_ticks sprite (Sprite.max_stay_ticks sprite))
                        sprites).
  set (self' := setattr (setattr self "_current_sprite_index" (VInt 0)) "_sprites"
                  (VSprites restarted)).
  assert (Hindex : getattr self' "_current_sprite_index" = Ok (VInt 0)).
  { unfold self'. rewrite getattr_setattr_ne by discriminate.
    apply getattr_setattr_eq. }
  assert (Hnew : getattr self' "_sprites" = Ok (VSprites restarted))
    by apply getattr_setattr_eq.
  split; [|split; [|split]].
  - unfold Animation.current_sprite_index. rewrite Hindex. reflexivity.
  - unfold Animation.sprites. rewrite Hnew. reflexivity.
  - intros Htwo. unfold Animation.is_finished, Animation.current_sprite_index,
      Animation.sprites.
    rewrite Hindex, Hnew. simpl.
    replace (Z.of_nat (List.length restarted) - 1 <=? 0) with false; [reflexivity|].
    symmetry. apply Z.leb_gt. unfold restarted. rewrite length_map. lia.
  - rewrite (handle_finish_of_endless _ _ Hnew). unfold self', setattr. simpl.
    assert (Hsame : map (fun sprite =>
                           with_real_stay_ticks sprite (Sprite.max_stay_ticks sprite))
                        restarted = restarted)
      by (unfold restarted; rewrite map_map; reflexivity).
    rewrite Hsame. do 2 f_equal. apply map_eq. intros name.
    destruct (decide (name = "_sprites")) as [-> | Hsprites'].
    { rewrite !lookup_insert_eq. reflexivity. }
    rewrite !(lookup_insert_ne _ "_sprites") by congruence.
    destruct (decide (name = "_current_sprite_index")) as [-> | Hindex'].
    { rewrite !lookup_insert_eq. reflexivity. }
    rewrite !(lookup_insert_ne _ "_current_sprite_index") by congruence.
    rewrite !(lookup_insert_ne _ "_sprites") by congruence.
    rewrite !(lookup_insert_ne _ "_current_sprite_index") by congruence.
    reflexivity.
Qed.

Lemma endless_finish_restarts_the_animation_witness :
  (self <- EndlessAnimation._handle_finish
             (animation_state CustomEndlessAnimation 0%nat 1
                [with_real_stay_ticks (Sprite.Sprite (circle 0) 1) 0;
                 with_real_stay_ticks (Sprite.Sprite (circle 1) 2) 0]) ;;
   Animation.is_finished self) = Ok false.
Proof.
  destruct (endless_finish_restarts_the_animation
              (animation_state CustomEndlessAnimation 0%nat 1
                 [with_real_stay_ticks (Sprite.Sprite (circle 0) 1) 0;
                  with_real_stay_ticks (Sprite.Sprite (circle 1) 2) 0])
              _ eq_refl)
    as (self' & Hfinish & _ & _ & _ & Hunfinished & _).
  rewrite Hfinish, bind_Ok. apply Hunfinished. simpl. lia.
Defined.

(** ** Animations: the finished state of a finite animation *)

(** X24: on an object of class [CustomAnimation] whose cursor is at the last
    sprite index and whose sprite there has no ticks left, [is_finished]
    reports true and an update fails with the [AnimationAlreadyFinishedError]
    raised by the finish handler of [Animation], the one a [CustomAnimation]
    uses; while the cursor is before the last index, or the sprite under it
    has ticks left, [is_finished] reports false. *)
Theorem finished_finite_animation_refuses_update
    (heap : Heap) (self : object) (unit : unit_ref) (pack : ResourcePack.t)
    (sprites : list Sprite.t) (index : Z) (active : Sprite.t) :
  class self = CustomAnimation ->
  getattr self "_unit" = Ok (VUnit unit) ->
  getattr self "_main_resource_pack" = Ok (VPack pack) ->
  getattr self "_sprites" = Ok (VSprites sprites) ->
  getattr self "_current_sprite_index" = Ok (VInt index) ->
  getitem sprites index = Ok active ->
  (index = Z.of_nat (List.length sprites) - 1 ->
   Sprite.real_stay_ticks active <= 0 ->
   Animation.is_finished self = Ok true
   /\ resolve (class self) "_handle_finish" = Some Animation
   /\ Animation.update heap self = Raise AnimationAlreadyFinishedError)
  /\ (index < Z.of_nat (List.length sprites) - 1 ->
      Animation.is_finished self = Ok false)
  /\ (0 < Sprite.real_stay_ticks active -> Animation.is_finished self = Ok false).
Proof.
  intros Hclass Hunit Hpack Hsprites Hindex Hactive.
  assert (Hfinished : Animation.is_finished self =
            Ok ((Z.of_nat (List.length sprites) - 1 <=? index)
                && (Sprite.real_stay_ticks active <=? 0))).
  { unfold Animation.is_finished, Animation._active_sprite,
      Animation.current_sprite_index, Animation.sprites.
    rewrite Hindex, Hsprites. simpl. rewrite Hactive. simpl.
    destruct (Z.of_nat (List.length sprites) - 1 <=? index); reflexivity. }
  split; [|split].
  - intros Hlast Hticks.
    assert (Htrue : forall self', class self' = CustomAnimation ->
              getattr self' "_sprites" = Ok (VSprites sprites) ->
              getattr self' "_current_sprite_index" = Ok (VInt index) ->
              Animation.is_finished self' = Ok true).
    { intros self' _ Hs Hi.
      unfold Animation.is_finished, Animation._active_sprite,
        Animation.current_sprite_index, Animation.sprites.
      rewrite Hi, Hs. simpl. rewrite Hactive. simpl.
      replace (Z.of_nat (List.length sprites) - 1 <=? index) with true
        by (symmetry; apply Z.leb_le; lia).
      replace (Sprite.real_stay_ticks active <=? 0) with true
        by (symmetry; apply Z.leb_le; lia).
      reflexivity. }
    split; [apply Htrue; assumption|].
    split; [rewrite Hclass; reflexivity|].
    unfold Animation.update.
    rewrite (update_sets_point _ _ _ _ Hunit Hpack), bind_Ok.
    rewrite Htrue; [| exact Hclass
                    | rewrite getattr_setattr_ne by discriminate; exact Hsprites
                    | rewrite getattr_setattr_ne by discriminate; exact Hindex ].
    rewrite bind_Ok. unfold Animation.call__handle_finish, setattr. simpl.
    rewrite Hclass. reflexivity.
  - intros Hbefore. rewrite Hfinished.
    replace (Z.of_nat (List.length sprites) - 1 <=? index) with false
      by (symmetry; apply Z.leb_gt; lia).
    reflexivity.
  - intros Hticks. rewrite Hfinished.
    replace (Sprite.real_stay_ticks active <=? 0) with false
      by (symmetry; apply Z.leb_gt; lia).
    rewrite andb_false_r. reflexivity.
Qed.

Lemma finished_finite_animation_refuses_update_witness :
  Animation.is_finished
    (animation_state CustomAnimation 0%nat 1
       [with_real_stay_ticks (Sprite.Sprite (circle 0) 1) 0;
        with_real_stay_ticks (Sprite.Sprite (circle 1) 2) 0]) = Ok true
  /\ Animation.update example_heap
       (animation_state CustomAnimation 0%nat 1
          [with_real_stay_ticks (Sprite.Sprite (circle 0) 1) 0;
           with_real_stay_ticks (Sprite.Sprite (circle 1) 2) 0])
     = Raise AnimationAlreadyFinishedError.
Proof.
  destruct (finished_finite_animation_refuses_update example_heap
              (animation_state CustomAnimation 0%nat 1
                 [with_real_stay_ticks (Sprite.Sprite (circle 0) 1) 0;
                  with_real_stay_ticks (Sprite.Sprite (circle 1) 2) 0])
              0%nat (ResourcePack.ResourcePack (circle 0) (ints [0; 0]))
              [with_real_stay_ticks (Sprite.Sprite (circle 0) 1) 0;
               with_real_stay_ticks (Sprite.Sprite (circle 1) 2) 0]
              1 (with_real_stay_ticks (Sprite.Sprite (circle 1) 2) 0)
              eq_refl eq_refl eq_refl eq_refl eq_refl eq_refl)
    as [Hlast _].
  destruct (Hlast eq_refl ltac:(simpl; lia)) as (Hfinished & _ & Hupdate).
  split; [exact Hfinished | exact Hupdate].
Defined.

(** ** Animations: the exceptions of an endless animation *)

Lemma nfe_Ok {A : Type} (a : A) : never_finished_error (Ok a).
Proof. intros e H. discriminate H. Qed.

Lemma nfe_Raise {A : Type} (e : exn) :
  e <> AnimationAlreadyFinishedError -> never_finished_error (@Raise A e).
Proof. intros Hne e' [= <-]. exact Hne. Qed.

Lemma nfe_bind {A B : Type} (m : result A) (k : A -> result B) :
  never_finished_error m ->
  (forall a, m = Ok a -> never_finished_error (k a)) ->
  never_finished_error (bind m k).
Proof.
  intros Hm Hk e. destruct m as [a|e']; simpl.
  - apply (Hk a eq_refl).
  - intros [= <-]. apply (Hm e' eq_refl).
Qed.

Lemma nfe_getattr (self : object) (name : string) :
  never_finished_error (getattr self name).
Proof.
  unfold getattr. destruct (attributes self !! name); [apply nfe_Ok|].
  destruct (find_member _ name) as [[owner []]|];
    try apply nfe_Ok. apply nfe_Raise. discriminate.
Qed.

Lemma nfe_getitem {A : Type} (xs : list A) (index : Z) :
  never_finished_error (getitem xs index).
Proof.
  unfold getitem. destruct (_ <? 0); [apply nfe_Raise; discriminate|].
  destruct (nth_error xs _); [apply nfe_Ok | apply nfe_Raise; discriminate].
Qed.

Create HintDb nfe.

#[local] Hint Resolve nfe_Ok nfe_getattr nfe_getitem : nfe.
#[local] Hint Extern 1 (never_finished_error (Raise _)) =>
  apply nfe_Raise; discriminate : nfe.
#[local] Hint Extern 2 (never_finished_error (bind _ _)) =>
  apply nfe_bind; [| intros ? ?] : nfe.
#[local] Hint Extern 3 (never_finished_error (match ?v with _ => _ end)) =>
  destruct v : nfe.

Lemma nfe_sprites (self : object) : never_finished_error (Animation.sprites self).
Proof. unfold Animation.sprites. auto 6 with nfe. Qed.

Lemma nfe_current_sprite_index (self : object) :
  never_finished_error (Animation.current_sprite_index self).
Proof. unfold Animation.current_sprite_index, Animation.as_index. auto 6 with nfe. Qed.

#[local] Hint Resolve nfe_sprites nfe_current_sprite_index : nfe.

Lemma nfe_active_sprite (self : object) :
  never_finished_error (Animation._active_sprite self).
Proof. unfold Animation._active_sprite. auto 8 with nfe. Qed.

#[local] Hint Resolve nfe_active_sprite : nfe.

Lemma nfe_unit_position (heap : Heap) (self : object) :
  never_finished_error (unit_position heap self).
Proof. unfold unit_position, Avatar.unit. auto 8 with nfe. Qed.

#[local] Hint Resolve nfe_unit_position : nfe.

Lemma nfe_single_pack_update (heap : Heap) (self : object) :
  never_finished_error (SingleResourcePackAvatar.update heap self).
Proof.
  unfold SingleResourcePackAvatar.update,
    SingleResourcePackAvatar.main_resource_pack. auto 10 with nfe.
Qed.

Lemma nfe_is_finished (self : object) :
  never_finished_error (Animation.is_finished self).
Proof. unfold Animation.is_finished. auto 10 with nfe. Qed.

Lemma nfe_update_main_resource_pack (heap : Heap) (self : object) :
  never_finished_error (Animation.call__update_main_resource_pack heap self).
Proof.
  unfold Animation.call__update_main_resource_pack,
    Animation._update_main_resource_pack, Animation.as_index.
  destruct (resolve _ _) as [[]|]; auto 12 with nfe.
Qed.

Lemma nfe_decrement (self : object) :
  never_finished_error (Animation.decrement_active_sprite self).
Proof. unfold Animation.decrement_active_sprite. auto 10 with nfe. Qed.

Lemma nfe_endless_handle_finish (self : object) :
  never_finished_error (EndlessAnimation._handle_finish self).
Proof. unfold EndlessAnimation._handle_finish. auto 8 with nfe. Qed.

#[local] Hint Resolve nfe_single_pack_update nfe_is_finished
  nfe_update_main_resource_pack nfe_decrement nfe_endless_handle_finish : nfe.

Lemma single_pack_update_keeps_class (heap : Heap) (self self' : object) :
  SingleResourcePackAvatar.update heap self = Ok self' -> class self' = class self.
Proof.
  unfold SingleResourcePackAvatar.update. intros H.
  apply bind_Ok_inv in H as (position & _ & H).
  apply bind_Ok_inv in H as (pack & _ & H).
  injection H as <-. reflexivity.
Qed.

(** The update of an endless animation, step by step: the finish handler is
    the one of [EndlessAnimation]. *)
Ltac endless_update_steps Hclass :=
  unfold Animation.update;
  apply nfe_bind; [auto with nfe|];
  let self1 := fresh "self1" in
  let H1 := fresh "H1" in
  intros self1 H1; apply single_pack_update_keeps_class in H1;
  apply nfe_bind; [auto with nfe|];
  intros [|] _;
  (apply nfe_bind;
   [ first [ apply nfe_Ok
           | unfold Animation.call__handle_finish; rewrite H1;
             destruct Hclass as [-> | ->]; simpl; auto with nfe ]
   | intros ? _; auto 12 with nfe ]).

(** X20: an update of an endless animation ([EndlessAnimation] or
    [CustomEndlessAnimation], whose finish handler is the one of
    [EndlessAnimation] by the resolution order) never raises
    [AnimationAlreadyFinishedError], in any state of the object. *)
Theorem endless_animation_never_raises_finished
    (heap : Heap) (self : object) (e : exn) :
  class self = EndlessAnimation \/ class self = CustomEndlessAnimation ->
  Animation.update heap self = Raise e ->
  e <> AnimationAlreadyFinishedError.
Proof.
  intros Hclass. revert e.
  change (never_finished_error (Animation.update heap self)).
  endless_update_steps Hclass.
Qed.

Lemma endless_animation_never_raises_finished_witness :
  Raise (A := object) (AttributeError "_Animation__current_sprite_index")
  = Animation.update example_heap
      (animation_state CustomEndlessAnimation 0%nat 1
         [with_real_stay_ticks (Sprite.Sprite (circle 0) 1) 0;
          with_real_stay_ticks (Sprite.Sprite (circle 1) 2) 0])
  /\ AttributeError "_Animation__current_sprite_index" <> AnimationAlreadyFinishedError.
Proof.
  split; [vm_compute; reflexivity|].
  apply (endless_animation_never_raises_finished example_heap
           (animation_state CustomEndlessAnimation 0%nat 1
              [with_real_stay_ticks (Sprite.Sprite (circle 0) 1) 0;
               with_real_stay_ticks (Sprite.Sprite (circle 1) 2) 0])).
  - right. reflexivity.
  - vm_compute. reflexivity.
Defined.

(** ** Topic animation avatars *)

Lemma is_finished_ignores_pack (self : object) (pack : value) :
  Animation.is_finished (setattr self "_main_resource_pack" pack)
  = Animation.is_finished self.
Proof.
  unfold Animation.is_finished, Animation._active_sprite,
    Animation.current_sprite_index, Animation.sprites.
  rewrite !getattr_setattr_ne by discriminate. reflexivity.
Qed.

Lemma nfe_endless_update (heap : Heap) (self : object) :
  class self = EndlessAnimation \/ class self = CustomEndlessAnimation ->
  never_finished_error (Animation.update heap self).
Proof. intros Hclass. endless_update_steps Hclass. Qed.

(** An animation that is not finished does not call its finish handler. *)
Lemma nfe_unfinished_update (heap : Heap) (self : object) :
  Animation.is_finished self = Ok false ->
  never_finished_error (Animation.update heap self).
Proof.
  intros Hunfinished. unfold Animation.update.
  apply nfe_bind; [auto with nfe|]. intros self1 H1.
  assert (Hsame : Animation.is_finished self1 = Ok false).
  { unfold SingleResourcePackAvatar.update in H1.
    apply bind_Ok_inv in H1 as (position & _ & H1).
    apply bind_Ok_inv in H1 as (pack & _ & H1).
    injection H1 as <-. rewrite is_finished_ignores_pack. exact Hunfinished. }
  rewrite Hsame, bind_Ok, bind_Ok. auto 12 with nfe.
Qed.

Lemma nfe_call_update_unfinished (heap : Heap) (animation : object) :
  call_is_finished animation = Ok false ->
  never_finished_error (call_update heap animation).
Proof.
  unfold call_is_finished, call_update. intros Hunfinished.
  destruct (resolve (class animation) "is_finished") as [[]|]; try discriminate.
  destruct (resolve (class animation) "update") as [[]|]; auto with nfe.
  apply nfe_unfinished_update. exact Hunfinished.
Qed.

Lemma nfe_call_update_endless (heap : Heap) (animation : object) :
  class animation = EndlessAnimation \/ class animation = CustomEndlessAnimation ->
  never_finished_error (call_update heap animation).
Proof.
  intros Hclass. unfold call_update.
  assert (resolve (class animation) "update" = Some Animation) as ->
    by (destruct Hclass as [-> | ->]; reflexivity).
  apply nfe_endless_update. exact Hclass.
Qed.

Lemma nfe_call_is_finished (animation : object) :
  never_finished_error (call_is_finished animation).
Proof.
  unfold call_is_finished. destruct (resolve _ _) as [[]|]; auto with nfe.
Qed.

(** X21: an update of a topic animation avatar whose default animation is
    endless never raises [AnimationAlreadyFinishedError], whatever animation
    is current: a current animation that is finished and is not the default
    one, a finite one included, is replaced by the default animation before
    any animation is updated. *)
Theorem topic_avatar_never_raises_finished
    (heap : Heap) (store : AnimationStore) (self : AnimationAvatar.t) (e : exn) :
  class (store (AnimationAvatar._default_animation self)) = EndlessAnimation
  \/ class (store (AnimationAvatar._default_animation self)) = CustomEndlessAnimation ->
  TopicAnimationAvatar.update heap store self = Raise e ->
  e <> AnimationAlreadyFinishedError.
Proof.
  intros Hdefault. revert e.
  change (never_finished_error (TopicAnimationAvatar.update heap store self)).
  unfold TopicAnimationAvatar.update, AnimationAvatar.update.
  destruct (Nat.eqb_spec (AnimationAvatar._default_animation self)
              (AnimationAvatar._current_animation self)) as [Hsame | Hother].
  - rewrite bind_Ok. cbv iota. rewrite <- Hsame.
    apply nfe_bind; [apply nfe_call_update_endless; exact Hdefault|].
    intros; apply nfe_Ok.
  - apply nfe_bind; [apply nfe_call_is_finished|]. intros [|] Hfinished.
    + simpl. apply nfe_bind; [apply nfe_call_update_endless; exact Hdefault|].
      intros; apply nfe_Ok.
    + apply nfe_bind; [apply nfe_call_update_unfinished; exact Hfinished|].
      intros; apply nfe_Ok.
Qed.

Lemma topic_avatar_never_raises_finished_witness :
  TopicAnimationAvatar.update example_heap example_store example_topic_avatar
  = Raise (AttributeError "_Animation__current_sprite_index")
  /\ AttributeError "_Animation__current_sprite_index"
     <> AnimationAlreadyFinishedError.
Proof.
  assert (H : TopicAnimationAvatar.update example_heap example_store
                example_topic_avatar
              = Raise (AttributeError "_Animation__current_sprite_index"))
    by (vm_compute; reflexivity).
  split; [exact H|].
  apply (topic_avatar_never_raises_finished example_heap example_store
           example_topic_avatar _ (or_intror eq_refl) H).
Defined.

(** X22: activating a topic makes the animation registered for it the
    current one, whose pack is then the one shown, and a topic that is not
    registered is a [KeyError]. The animation is not restarted: when it has
    already finished and is not the default one, the update that follows the
    activation is the update of the default animation. *)
Theorem activation_does_not_restart_the_animation
    (heap : Heap) (store : AnimationStore) (self : AnimationAvatar.t)
    (topic : string) :
  (forall animation,
     AnimationAvatar._animation_by_topic self !! topic = Some animation ->
     exists self',
       TopicAnimationAvatar.activate_animation_by_topic self topic = Some self'
       /\ AnimationAvatar._current_animation self' = animation
       /\ AnimationAvatar.render_resource_packs store self'
          = SingleResourcePackAvatar.render_resource_packs (store animation)
       /\ (animation <> AnimationAvatar._default_animation self ->
           call_is_finished (store animation) = Ok true ->
           TopicAnimationAvatar.update heap store self'
           = AnimationAvatar.update heap store
               (TopicAnimationAvatar.with_current self
                  (AnimationAvatar._default_animation self))))
  /\ (AnimationAvatar._animation_by_topic self !! topic = None ->
      TopicAnimationAvatar.activate_animation_by_topic self topic = None).
Proof.
  split.
  - intros animation Htopic.
    unfold TopicAnimationAvatar.activate_animation_by_topic. rewrite Htopic.
    eexists. split; [reflexivity|]. split; [reflexivity|]. split; [reflexivity|].
    intros Hother Hfinished. unfold TopicAnimationAvatar.update. simpl.
    destruct (Nat.eqb_spec (AnimationAvatar._default_animation self) animation)
      as [Heq | _]; [congruence|].
    rewrite Hfinished. reflexivity.
  - intros Htopic. unfold TopicAnimationAvatar.activate_animation_by_topic.
    rewrite Htopic. reflexivity.
Qed.

Lemma activation_does_not_restart_the_animation_witness :
  exists self',
    TopicAnimationAvatar.activate_animation_by_topic
      (TopicAnimationAvatar.with_current example_topic_avatar 0%nat) "attack"
    = Some self'
    /\ AnimationAvatar._current_animation self' = 1%nat
    /\ TopicAnimationAvatar.update example_heap example_store self'
       = AnimationAvatar.update example_heap example_store
           (TopicAnimationAvatar.with_current example_topic_avatar 0%nat).
Proof.
  destruct (activation_does_not_restart_the_animation example_heap example_store
              (TopicAnimationAvatar.with_current example_topic_avatar 0%nat)
              "attack") as [Hknown _].
  destruct (Hknown 1%nat) as (self' & Hactivate & Hcurrent & _ & Hupdate).
  - vm_compute. reflexivity.
  - exists self'. split; [exact Hactivate|]. split; [exact Hcurrent|].
    apply Hupdate; [discriminate | vm_compute; reflexivity].
Defined.

(** ** The drawing routines *)

Lemma add_comm (a b : Vector.t) : Vector.__add__ a b = Vector.__add__ b a.
Proof.
  unfold Vector.__add__. rewrite Z.max_comm.
  rewrite (map2M_comm _ pynum_add_comm). reflexivity.
Qed.

Lemma translated_ints (point : list Z) :
  forall offsets : list (list Z),
    mapM (fun vector_to_point =>
            vertex <- Vector.__add__ (ints point) vector_to_point ;;
            Ok (Vector.coordinates vertex))
         (map ints offsets)
    = Ok (map (fun offset => map PyNum.Int (add_ints point offset)) offsets).
Proof.
  induction offsets as [|offset offsets IH]; simpl; [reflexivity|].
  rewrite add_of_ints, IH. reflexivity.
Qed.

(** X23: the polygon routine and the multi-line routine hand the same
    vertices to the host library for the same offsets and pack point, although
    one adds the offset to the point and the other the point to the offset,
    and fail together; with [int] coordinates neither fails and each vertex is
    the point plus the offset, coordinate by coordinate, so that a pack at the
    origin is drawn at its offsets. *)
Theorem polygon_and_lines_agree :
  (forall (polygon : Primitives.Polygon) (lines : Primitives.Lines)
          (point : Vector.t),
     Primitives.polygon_points polygon = Primitives.lines_points lines ->
     (call <- Handlers._handle_pygame_polygon polygon point ;; Ok (vertices call))
     = (call <- Handlers._handle_pygame_lines lines point ;; Ok (vertices call)))
  /\ (forall (polygon : Primitives.Polygon) (point : list Z)
             (offsets : list (list Z)),
        Primitives.polygon_points polygon = map ints offsets ->
        Handlers._handle_pygame_polygon polygon (ints point)
        = Ok (draw_polygon (Primitives.polygon_color polygon)
                (map (fun offset => map PyNum.Int (add_ints point offset)) offsets)
                (Primitives.polygon_border_width polygon)))
  /\ (forall (polygon : Primitives.Polygon) (offsets : list (list Z)),
        Primitives.polygon_points polygon = map ints offsets ->
        Forall (fun offset => List.length offset = 2%nat) offsets ->
        (call <- Handlers._handle_pygame_polygon polygon (ints [0; 0]) ;;
         Ok (vertices call))
        = Ok (map (map PyNum.Int) offsets)).
Proof.
  assert (Hints : forall (polygon : Primitives.Polygon) (point : list Z)
                         (offsets : list (list Z)),
            Primitives.polygon_points polygon = map ints offsets ->
            Handlers._handle_pygame_polygon polygon (ints point)
            = Ok (draw_polygon (Primitives.polygon_color polygon)
                    (map (fun offset => map PyNum.Int (add_ints point offset)) offsets)
                    (Primitives.polygon_border_width polygon))).
  { intros polygon point offsets Hpoints. unfold Handlers._handle_pygame_polygon.
    rewrite Hpoints, translated_ints. reflexivity. }
  split; [|split; [exact Hints|]].
  - intros polygon lines point Hpoints.
    unfold Handlers._handle_pygame_polygon, Handlers._handle_pygame_lines.
    rewrite Hpoints.
    rewrite (mapM_ext_in
               (fun vector_to_point =>
                  vertex <- Vector.__add__ point vector_to_point ;;
                  Ok (Vector.coordinates vertex))
               (fun line_point =>
                  vertex <- Vector.__add__ line_point point ;;
                  Ok (Vector.coordinates vertex)))
      by (intros v _; rewrite add_comm; reflexivity).
    destruct (mapM _ (Primitives.lines_points lines)) as [points|e]; simpl;
      [|reflexivity].
    destruct (Primitives.lines_is_smooth lines); reflexivity.
  - intros polygon offsets Hpoints Hpairs.
    rewrite (Hints polygon [0; 0] offsets Hpoints). simpl. f_equal.
    clear Hpoints. induction Hpairs as [|offset offsets Hpair _ IH]; simpl;
      [reflexivity|].
    rewrite IH. do 2 f_equal.
    destruct offset as [|x [|y [|z rest]]]; try discriminate Hpair. reflexivity.
Qed.

Lemma polygon_and_lines_agree_witness :
  Handlers._handle_pygame_polygon example_polygon (ints [10; 20])
  = Ok (draw_polygon 0%nat
          (map (map PyNum.Int) [[10; 20]; [14; 20]; [10; 23]]) 1).
Proof.
  destruct polygon_and_lines_agree as (_ & Hints & _).
  rewrite (Hints example_polygon [10; 20] [[0; 0]; [4; 0]; [0; 3]] eq_refl).
  reflexivity.
Defined.
